(** * omniduct: the [Duct] connection lifecycle (src/omniduct/duct.py)

    A shallow embedding of the [Duct] base class and of the protocol
    registry kept by its metaclass.  Python attribute storage is a finite
    map from attribute names to values; the five name-mangled private
    attributes of [Duct] are record fields.  Methods are computations in a
    state-and-exception monad: a raised exception keeps every mutation
    made before it, as in Python.  Protocol hooks ([_connect],
    [_is_connected], [_disconnect]) and the collaborators that live in
    other modules (the tunnel, the port probes, the registry, the
    interactive prompts) are interfaces, given as type classes over an
    abstract external world. *)

From Stdlib Require Import ZArith String Ascii List Bool Lia.
From stdpp Require Import base tactics option list gmap strings pretty.

Local Open Scope string_scope.
Local Open Scope list_scope.

(** ** Python values held by the attributes of an instance *)

Inductive value : Type :=
| VNone
| VBool (b : bool)
| VInt (z : Z)
| VStr (s : string)
| VList (hosts : list string)      (* a list or tuple of host names *)
| VCallable (f : nat)              (* a callable, named by its index *)
| VRegistry (g : nat)              (* an omniduct.registry.DuctRegistry *)
| VRemote (r : nat)                (* an omniduct.remotes.base.RemoteClient *)
| VCache (c : nat)                 (* an omniduct.caches.base.Cache *)
| VObject (o : nat).               (* any other object *)

#[global] Instance value_eq_dec : EqDecision value.
Proof. solve_decision. Defined.

(** Python truth value ([if v:], [not v], [v or w]). *)
Definition truthy (v : value) : bool :=
  match v with
  | VNone => false
  | VBool b => b
  | VInt z => negb (Z.eqb z 0)
  | VStr s => negb (String.eqb s EmptyString)
  | VList l => match l with [] => false | _ => true end
  | _ => true
  end.

Definition is_none (v : value) : bool :=
  match v with VNone => true | _ => false end.

(** [hasattr(v, '__call__')] *)
Definition callable (v : value) : bool :=
  match v with VCallable _ => true | _ => false end.

(** [isinstance(v, six.string_types)] *)
Definition is_str (v : value) : bool :=
  match v with VStr _ => true | _ => false end.

Definition join_with (sep : string) (l : list string) : string :=
  match l with
  | [] => EmptyString
  | x :: r => fold_left (fun acc y => acc +:+ sep +:+ y) r x
  end.

(** ['{}'.format(v)].  Objects and callables print an opaque tag. *)
Definition fmt (v : value) : string :=
  match v with
  | VNone => "None"
  | VBool true => "True"
  | VBool false => "False"
  | VInt z => pretty z
  | VStr s => s
  | VList l => "[" +:+ join_with ", " (map (fun h => "'" +:+ h +:+ "'") l) +:+ "]"
  | VCallable f => "<function " +:+ pretty f +:+ ">"
  | VRegistry g => "<DuctRegistry " +:+ pretty g +:+ ">"
  | VRemote r => "<RemoteClient " +:+ pretty r +:+ ">"
  | VCache c => "<Cache " +:+ pretty c +:+ ">"
  | VObject o => "<object " +:+ pretty o +:+ ">"
  end.

(** ** Exceptions *)

Inductive exn : Type :=
| AttributeError (msg : string)
| ValueError (msg : string)
| TypeError (msg : string)
| AssertionError (msg : string)
| DuctServerUnreachable (msg : string)
| DuctProtocolUnknown (msg : string)
| OtherError (code : nat)           (* any other [Exception] of external code *)
| Interrupt (code : nat).           (* [KeyboardInterrupt], [SystemExit]: a
                                       [BaseException] that is no [Exception] *)

#[global] Instance exn_eq_dec : EqDecision exn.
Proof. solve_decision. Defined.

Definition is_attribute_error (e : exn) : bool :=
  match e with AttributeError _ => true | _ => false end.

(** [isinstance(e, Exception)]: what [except Exception] catches. *)
Definition is_exception (e : exn) : bool :=
  match e with Interrupt _ => false | _ => true end.

Inductive outcome (A : Type) : Type :=
| Return (a : A)
| Raise (e : exn).
Arguments Return {A} a.
Arguments Raise {A} e.

(** ** The instance *)

(** [Duct.Type] *)
Inductive DuctType : Type :=
| REMOTE | FILESYSTEM | DATABASE | CACHE | RESTFUL | OTHER.

(** What a method returns when the source returns [self] or nothing. *)
Inductive retval : Type := RNone | RSelf.

#[global] Instance retval_eq_dec : EqDecision retval.
Proof. solve_decision. Defined.

Record Duct : Type := mkDuct {
  attrs : gmap string value;                    (* instance attributes *)
  connection_fields : list string;
  prepared_fields : list string;
  prepared : bool;                              (* __prepared *)
  getting : bool;                               (* __getting *)
  disconnecting : bool;                         (* __disconnecting *)
  cached_auth : gmap string string;             (* __cached_auth *)
  prepreparation_values : list (string * value) (* __prepreparation_values,
                                                   in insertion order *)
}.

Definition set_attrs (f : gmap string value → gmap string value) (d : Duct) : Duct :=
  mkDuct (f (attrs d)) (connection_fields d) (prepared_fields d) (prepared d)
         (getting d) (disconnecting d) (cached_auth d) (prepreparation_values d).
Definition set_prepared (b : bool) (d : Duct) : Duct :=
  mkDuct (attrs d) (connection_fields d) (prepared_fields d) b
         (getting d) (disconnecting d) (cached_auth d) (prepreparation_values d).
Definition set_getting (b : bool) (d : Duct) : Duct :=
  mkDuct (attrs d) (connection_fields d) (prepared_fields d) (prepared d)
         b (disconnecting d) (cached_auth d) (prepreparation_values d).
Definition set_disconnecting (b : bool) (d : Duct) : Duct :=
  mkDuct (attrs d) (connection_fields d) (prepared_fields d) (prepared d)
         (getting d) b (cached_auth d) (prepreparation_values d).
Definition set_cached_auth (c : gmap string string) (d : Duct) : Duct :=
  mkDuct (attrs d) (connection_fields d) (prepared_fields d) (prepared d)
         (getting d) (disconnecting d) c (prepreparation_values d).
Definition set_prepreparation_values (l : list (string * value)) (d : Duct) : Duct :=
  mkDuct (attrs d) (connection_fields d) (prepared_fields d) (prepared d)
         (getting d) (disconnecting d) (cached_auth d) l.

(** [d[k] = v] on an insertion-ordered dict: an existing key keeps its
    place, a new key goes last. *)
Fixpoint dict_set (k : string) (v : value) (l : list (string * value)) :
  list (string * value) :=
  match l with
  | [] => [(k, v)]
  | (k', v') :: r =>
      if String.eqb k k' then (k, v) :: r else (k', v') :: dict_set k v r
  end.

Definition dict_has (k : string) (l : list (string * value)) : bool :=
  existsb (fun p => String.eqb k (fst p)) l.

(** [Duct.__init__]: [name] defaults to the class name; the guards start
    cleared and the two private maps empty. *)
Definition init (class_name : string)
    (protocol name registry remote host port username password cache : value) : Duct :=
  {| attrs :=
       <["cache" := cache]> (<["_password" := password]> (<["_username" := username]>
       (<["_port" := port]> (<["_host" := host]> (<["remote" := remote]>
       (<["registry" := registry]>
       (<["name" := if truthy name then name else VStr class_name]>
       (<["protocol" := protocol]> ∅))))))));
     connection_fields := ["host"; "port"; "remote"; "username"; "password"];
     prepared_fields := ["_host"; "_port"; "_username"; "_password"];
     prepared := false;
     getting := false;
     disconnecting := false;
     cached_auth := ∅;
     prepreparation_values := [] |}.

(** [__prepare_triggers] *)
Definition prepare_triggers (d : Duct) : list string :=
  "cache" :: connection_fields d.

(** ** Observable events

    The trace is a ghost log: it records the messages sent to the logger,
    the prompts shown to the user, and each entry into a lifecycle method
    or protocol hook, so that "invoked at most once" can be stated. *)

Inductive event : Type :=
| LogInfo (msg : string)
| LogWarn (msg : string)
| Prompt (masked : bool) (msg : string)     (* input(...) / getpass.getpass(...) *)
| CallPrepareHook                           (* Duct._prepare *)
| CallConnectHook                           (* _connect *)
| CallIsConnectedHook                       (* _is_connected *)
| CallDisconnectHook                        (* _disconnect *)
| CallDisconnect                            (* Duct.disconnect *)
| CallReset                                 (* Duct.reset *)
| PortForwardStop (r : nat) (local_port : value).

#[global] Instance event_eq_dec : EqDecision event.
Proof. solve_decision. Defined.

Definition count_event (ev : event) (t : list event) : nat :=
  length (filter (fun x => x = ev) t).

Definition is_prompt (masked : bool) (ev : event) : bool :=
  match ev with Prompt m _ => Bool.eqb m masked | _ => false end.

Definition count_prompts (masked : bool) (t : list event) : nat :=
  length (List.filter (is_prompt masked) t).

Definition is_warning (ev : event) : bool :=
  match ev with LogWarn _ => true | _ => false end.

(** ** Interfaces *)

(** The abstract methods a protocol implementation supplies.  A hook sees
    the instance and acts on the external world (its own connection
    state included); the base-class fields change only through the
    base-class methods below. *)
Class Protocol (W : Type) : Type := {
  _connect : Duct → W → outcome unit * W;
  _is_connected : Duct → W → outcome bool * W;
  _disconnect : Duct → W → outcome unit * W
}.

(** Code of other modules that the lifecycle calls. *)
Class Collaborators (W : Type) : Type := {
  (* omniduct.utils.ports *)
  is_port_bound : value → value → W → outcome bool * W;
  naive_load_balancer : list string → value → W → outcome value * W;
  (* the RemoteClient attached as [remote] *)
  remote_name : nat → value;
  remote_host : nat → value;
  remote_is_port_bound : nat → value → value → W → outcome bool * W;
  remote_has_port_forward : nat → value → value → W → outcome bool * W;
  remote_port_forward : nat → string → W → outcome value * W;
  remote_port_forward_stop : nat → value → W → outcome unit * W;
  (* DuctRegistry.lookup(name, kind=...) *)
  registry_lookup : nat → value → DuctType → W → outcome value * W;
  (* calling a callable attribute value with the instance *)
  call_value : nat → Duct → W → outcome value * W;
  (* builtins.input, getpass.getpass and the OS login name *)
  input : string → W → outcome string * W;
  getpass : string → W → outcome string * W;
  getlogin : W → outcome string * W;
  (* int(s) on a str *)
  int_of_str : string → option Z
}.

(** ** Machine state and the method monad *)

Record state (W : Type) : Type := mkState {
  self : Duct;
  world : W;
  trace : list event
}.
Arguments mkState {W} _ _ _.
Arguments self {W} _.
Arguments world {W} _.
Arguments trace {W} _.

Definition M (W A : Type) : Type := state W → outcome A * state W.

Definition ret {W A} (a : A) : M W A := fun st => (Return a, st).
Definition raise {W A} (e : exn) : M W A := fun st => (Raise e, st).
Definition bind {W A B} (m : M W A) (k : A → M W B) : M W B :=
  fun st =>
    match m st with
    | (Return a, st') => k a st'
    | (Raise e, st') => (Raise e, st')
    end.

Declare Scope duct_scope.
Delimit Scope duct_scope with duct.
Notation "x <- m ;; k" := (bind m (fun x => k))
  (at level 20, m at level 99, k at level 200, only parsing) : duct_scope.
Notation "m ;; k" := (bind m (fun _ => k))
  (at level 100, k at level 200, right associativity, only parsing) : duct_scope.
Local Open Scope duct_scope.

(** [try: m  finally: fin].  The clean-up runs on both exits; a failure
    of [m] is re-raised after it. *)
Definition try_finally {W A} (m : M W A) (fin : M W unit) : M W A :=
  fun st =>
    match m st with
    | (Return a, st') =>
        match fin st' with
        | (Return _, st'') => (Return a, st'')
        | (Raise e, st'') => (Raise e, st'')
        end
    | (Raise e, st') =>
        match fin st' with
        | (Return _, st'') => (Raise e, st'')
        | (Raise e', st'') => (Raise e', st'')
        end
    end.

(** [try: m  except ... as e: h e]; the handler re-raises what its
    [except] clauses do not catch. *)
Definition try_except {W A} (m : M W A) (h : exn → M W A) : M W A :=
  fun st =>
    match m st with
    | (Return a, st') => (Return a, st')
    | (Raise e, st') => h e st'
    end.

Definition update {W} (f : Duct → Duct) : M W unit :=
  fun st => (Return tt, mkState (f (self st)) (world st) (trace st)).
Definition ask {W} : M W Duct := fun st => (Return (self st), st).
Definition emit {W} (ev : event) : M W unit :=
  fun st => (Return tt, mkState (self st) (world st) (trace st ++ [ev])).

(** A call into external code: it changes the world only. *)
Definition extern {W A} (f : W → outcome A * W) : M W A :=
  fun st => let '(o, w) := f (world st) in (o, mkState (self st) w (trace st)).

Definition when {W} (b : bool) (m : M W unit) : M W unit :=
  if b then m else ret tt.

(** [for x in l: body x] *)
Fixpoint for_each {W A} (l : list A) (body : A → M W unit) : M W unit :=
  match l with
  | [] => ret tt
  | x :: r => body x ;; for_each r body
  end.

(** ** String helpers used by [_prepare] *)

Definition is_digit (c : ascii) : bool :=
  let n := nat_of_ascii c in (48 <=? n)%nat && (n <=? 57)%nat.

Definition is_colon (c : ascii) : bool := Ascii.eqb c ":"%char.

(** [re.match(r'[^\:]+:[0-9]{1,5}', s)] finds a match: the match is anchored
    at the start only, the first run cannot cross a colon, so the string
    matches when its first colon comes after at least one character and
    is followed by a digit. *)
Fixpoint host_port_match_from (seen : bool) (s : string) : bool :=
  match s with
  | EmptyString => false
  | String c rest =>
      if is_colon c
      then seen && match rest with String d _ => is_digit d | EmptyString => false end
      else host_port_match_from true rest
  end.

Definition host_port_match (s : string) : bool := host_port_match_from false s.

(** [s.split(':')] *)
Fixpoint split_colon (s : string) : list string :=
  match s with
  | EmptyString => [EmptyString]
  | String c rest =>
      if is_colon c then EmptyString :: split_colon rest
      else match split_colon rest with
           | h :: t => String c h :: t
           | [] => [String c EmptyString]
           end
  end.

(** ** The methods of [Duct] *)

Section Lifecycle.
Context {W : Type} `{!Protocol W} `{!Collaborators W}.

Local Abbreviation M := (M W).

(** Lookup in the instance dictionary; a missing name raises.  The
    dictionary of the model holds the attributes other than
    [connection_fields], [prepared_fields] and the five private ones,
    which are fields of [Duct]. *)
Definition read_attr (key : string) : M value :=
  fun st =>
    match attrs (self st) !! key with
    | Some v => (Return v, st)
    | None => (Raise (AttributeError key), st)
    end.

Definition store_attr (key : string) (v : value) : M unit :=
  update (set_attrs (insert key v)).

Definition snapshot (key : string) (v : value) : M unit :=
  update (fun d => set_prepreparation_values (dict_set key v (prepreparation_values d)) d).

(** Calling a [RemoteClient] method on the value of [self.remote]. *)
Definition as_remote (v : value) : M nat :=
  match v with
  | VRemote r => ret r
  | _ => raise (AttributeError "remote")
  end.

(** Calling [lookup] on the value of [self.registry]. *)
Definition as_registry (v : value) : M nat :=
  match v with
  | VRegistry g => ret g
  | _ => raise (AttributeError "lookup")
  end.

(** [int(v)] *)
Definition to_int (v : value) : M value :=
  match v with
  | VInt z => ret (VInt z)
  | VBool b => ret (VInt (if b then 1 else 0))
  | VStr s =>
      match int_of_str s with
      | Some z => ret (VInt z)
      | None => raise (ValueError "invalid literal for int()")
      end
  | _ => raise (TypeError "int() argument must be a string or a number")
  end.

(** *** Properties.  [get] is the attribute read the getter body uses. *)

Definition host_getter (get : string → M value) : M value :=
  r <- get "remote";;
  if truthy r then ret (VStr "127.0.0.1") else get "_host".

Definition port_getter (get : string → M value) : M value :=
  r <- get "remote";;
  if truthy r then
    r1 <- get "remote";;
    rc <- as_remote r1;;
    h <- get "_host";;
    p <- get "_port";;
    extern (remote_port_forward rc (fmt h +:+ ":" +:+ fmt p))
  else get "_port".

Definition username_getter (get : string → M value) : M value :=
  u <- get "_username";;
  if bool_decide (u = VBool true) then
    d <- ask;;
    match cached_auth d !! "username" with
    | Some s => ret (VStr s)
    | None =>
        n <- get "name";;
        let msg := "Enter username for '" +:+ fmt n +:+ "':" in
        emit (Prompt false msg);;
        s <- extern (input msg);;
        update (fun d => set_cached_auth (<["username" := s]> (cached_auth d)) d);;
        ret (VStr s)
    end
  else
    u1 <- get "_username";;
    if bool_decide (u1 = VBool false) then ret VNone
    else
      u2 <- get "_username";;
      if negb (truthy u2) then
        s <- extern getlogin;;
        ret (VStr s)
      else get "_username".

Definition password_getter (get : string → M value) : M value :=
  u <- get "_password";;
  if bool_decide (u = VBool true) then
    d <- ask;;
    match cached_auth d !! "password" with
    | Some s => ret (VStr s)
    | None =>
        n <- get "name";;
        let msg := "Enter password for '" +:+ fmt n +:+ "':" in
        emit (Prompt true msg);;
        s <- extern (getpass msg);;
        update (fun d => set_cached_auth (<["password" := s]> (cached_auth d)) d);;
        ret (VStr s)
    end
  else
    u1 <- get "_password";;
    if bool_decide (u1 = VBool false) then ret VNone
    else get "_password".

(** The property a name is bound to on the class, if any. *)
Definition is_property (key : string) : bool :=
  String.eqb key "host" || String.eqb key "port"
  || String.eqb key "username" || String.eqb key "password".

(** [object.__getattribute__(self, key)] *)
Definition object_getattribute (get : string → M value) (key : string) : M value :=
  if String.eqb key "host" then host_getter get
  else if String.eqb key "port" then port_getter get
  else if String.eqb key "username" then username_getter get
  else if String.eqb key "password" then password_getter get
  else read_attr key.

(** [object.__setattr__(self, key, value)]: a property setter assigns
    the underscored attribute, through [set]. *)
Definition object_setattr (set : string → value → M unit)
    (key : string) (v : value) : M unit :=
  if is_property key then set ("_" +:+ key) v else store_attr key v.

(** *** Preparation *)

Definition is_registry (v : value) : bool :=
  match v with VRegistry _ => true | _ => false end.
Definition is_remote (v : value) : bool :=
  match v with VRemote _ => true | _ => false end.
Definition is_cache (v : value) : bool :=
  match v with VCache _ => true | _ => false end.
Definition is_list (v : value) : bool :=
  match v with VList _ => true | _ => false end.

(** [assert (self.<key> is None) or isinstance(self.<key>, T), msg] *)
Definition assert_none_or (get : string → M value) (key : string)
    (isinstance : value → bool) (msg : string) : M unit :=
  v <- get key;;
  if is_none v then ret tt
  else
    v1 <- get key;;
    if isinstance v1 then ret tt else raise (AssertionError msg).

(** The registry branch of [_prepare] for [remote] and for [cache]. *)
Definition lookup_by_name (get : string → M value) (set : string → value → M unit)
    (key : string) (kind : DuctType) : M unit :=
  v <- get key;;
  is_name <- (if truthy v then v1 <- get key;; ret (is_str v1) else ret false);;
  when is_name (
    v2 <- get key;;
    snapshot key v2;;
    g <- get "registry";;
    gi <- as_registry g;;
    v3 <- get key;;
    found <- extern (registry_lookup gi v3 kind);;
    set key found).

(** One round of the loop over [prepared_fields]. *)
Definition prepare_field (get : string → M value) (set : string → value → M unit)
    (field : string) : M unit :=
  v <- get field;;
  match v with
  | VCallable f =>
      snapshot field v;;
      d <- ask;;
      res <- extern (call_value f d);;
      set field res
  | _ => ret tt
  end.

(** [Duct._prepare], over the attribute read and write in force. *)
Definition _prepare_with (get : string → M value) (set : string → value → M unit) : M unit :=
  emit CallPrepareHook;;
  assert_none_or get "registry" is_registry
    "Provided registry is not an instance of `omniduct.registry.DuctRegistry`.";;
  g <- get "registry";;
  when (negb (is_none g)) (
    lookup_by_name get set "remote" REMOTE;;
    lookup_by_name get set "cache" CACHE);;
  assert_none_or get "remote" is_remote
    "Provided remote is not an instance of `omniduct.remotes.base.RemoteClient`.";;
  assert_none_or get "cache" is_cache
    "Provided cache is not an instance of `omniduct.caches.base.Cache`.";;
  d <- ask;;
  for_each (prepared_fields d) (prepare_field get set);;
  h <- get "_host";;
  when (is_list h) (
    d <- ask;;
    when (negb (dict_has "_host" (prepreparation_values d))) (
      h1 <- get "_host";;
      snapshot "_host" h1);;
    h2 <- get "_host";;
    p <- get "_port";;
    match h2 with
    | VList hosts =>
        chosen <- extern (naive_load_balancer hosts p);;
        set "_host" chosen
    | _ => raise (TypeError "naive_load_balancer")
    end);;
  h3 <- get "_host";;
  when (negb (is_none h3)) (
    h4 <- get "_host";;
    match h4 with
    | VStr s =>
        when (host_port_match s) (
          h5 <- get "_host";;
          match h5 with
          | VStr s5 =>
              match split_colon s5 with
              | [a; b] => set "_host" (VStr a);; set "_port" (VStr b)
              | _ => raise (ValueError "too many values to unpack")
              end
          | _ => raise (AttributeError "split")
          end)
    | _ => raise (TypeError "expected string or bytes-like object")
    end);;
  p1 <- get "_port";;
  newport <- (if truthy p1 then p2 <- get "_port";; to_int p2 else ret VNone);;
  set "port" newport.

Definition prepare_with (get : string → M value) (set : string → value → M unit) : M unit :=
  d <- ask;;
  if negb (prepared d) then
    _prepare_with get set;;
    update (set_prepared true)
  else ret tt.

(** While [__getting] is set (or once the instance is prepared)
    [__getattribute__] is [object.__getattribute__], and while the
    instance is unprepared [__setattr__] is [object.__setattr__]: this is
    how [prepare] runs when an attribute read triggers it. *)
Definition getattr_quiet (key : string) : M value :=
  object_getattribute read_attr key.
Definition setattr_quiet (key : string) (v : value) : M unit :=
  object_setattr store_attr key v.

Definition prepare_quiet : M unit := prepare_with getattr_quiet setattr_quiet.

(** [Duct.__getattribute__], up to its last line. *)
Definition should_prepare (key : string) (d : Duct) : bool :=
  negb (prepared d) && negb (getting d) && negb (disconnecting d)
  && bool_decide (key ∈ prepare_triggers d).

Definition trigger (key : string) : M unit :=
  fun st =>
    if should_prepare key (self st) then
      match (update (set_getting true);; prepare_quiet) st with
      | (Return _, st') => update (set_getting false) st'
      | (Raise (AttributeError _), st') => (Return tt, st')
      | (Raise e, st') =>
          if is_exception e then (update (set_getting false);; raise e) st'
          else (Raise e, st')
      end
    else (Return tt, st).

(** [self.<key>] for a name that is not a property. *)
Definition getattr_plain (key : string) : M value :=
  trigger key;; read_attr key.

(** [self.<key>] *)
Definition getattr (key : string) : M value :=
  trigger key;; object_getattribute getattr_plain key.

(** *** Disconnecting and liveness *)

(** [self.remote and self.remote.<probe>(self._host, self._port)] *)
Definition remote_probe (probe : nat → value → value → W → outcome bool * W)
    (absent : bool) : M bool :=
  r <- getattr "remote";;
  if truthy r then
    r1 <- getattr "remote";;
    rc <- as_remote r1;;
    h <- getattr "_host";;
    p <- getattr "_port";;
    extern (probe rc h p)
  else ret absent.

(** The body of the [if] in [disconnect]: stop forwarding the local port. *)
Definition free_local_port : M unit :=
  p <- getattr "port";;
  emit (LogInfo ("Freeing up local port " +:+ fmt p +:+ "..."));;
  r <- getattr "remote";;
  rc <- as_remote r;;
  p1 <- getattr "port";;
  emit (PortForwardStop rc p1);;
  extern (remote_port_forward_stop rc p1).

(** The [try] block of [disconnect]. *)
Definition disconnect_guarded : M unit :=
  emit CallDisconnectHook;;
  d <- ask;;
  extern (_disconnect d);;
  fwd <- remote_probe remote_has_port_forward false;;
  when fwd free_local_port.

(** [Duct.disconnect] *)
Definition disconnect : M retval :=
  emit CallDisconnect;;
  d <- ask;;
  if negb (prepared d) then ret RNone
  else
    update (set_disconnecting true);;
    try_finally disconnect_guarded (update (set_disconnecting false));;
    ret RSelf.

(** The tunnel branch of [is_connected]; [true] when it makes
    [is_connected] return [False] at once. *)
Definition tunnel_lost : M bool :=
  r <- getattr "remote";;
  if truthy r then
    r1 <- getattr "remote";;
    rc <- as_remote r1;;
    h <- getattr "_host";;
    p <- getattr "_port";;
    fwd <- extern (remote_has_port_forward rc h p);;
    if negb fwd then ret true
    else
      h1 <- getattr "host";;
      p1 <- getattr "port";;
      bound <- extern (is_port_bound h1 p1);;
      if negb bound then disconnect;; ret true else ret false
  else ret false.

(** [Duct.is_connected] *)
Definition is_connected : M bool :=
  d <- ask;;
  if negb (prepared d) then ret false
  else
    lost <- tunnel_lost;;
    if lost : bool then ret false
    else
      emit CallIsConnectedHook;;
      d1 <- ask;;
      extern (_is_connected d1).

(** *** Attribute assignment *)

(** The guarded block of [Duct.__setattr__]. *)
Definition monitor (key : string) : M unit :=
  try_except
    (d <- ask;;
     if prepared d
        && match connection_fields d with [] => false | _ => true end
        && bool_decide (key ∈ connection_fields d)
     then
       c <- is_connected;;
       when c (
         emit (LogWarn ("Disconnecting prior to changing field that connection is based on: "
                        +:+ key +:+ "."));;
         disconnect;;
         update (set_prepared false))
     else ret tt)
    (fun e => if is_attribute_error e then ret tt else raise e).

(** [self.<key> = v] for a name that is not a property. *)
Definition setattr_plain (key : string) (v : value) : M unit :=
  monitor key;; store_attr key v.

(** [self.<key> = v], that is [setattr(self, key, v)] *)
Definition setattr (key : string) (v : value) : M unit :=
  monitor key;; object_setattr setattr_plain key v.

(** [Duct._prepare] and [Duct.prepare] called as methods. *)
Definition _prepare : M unit := _prepare_with getattr setattr.
Definition prepare : M unit := prepare_with getattr setattr.

(** *** Reset *)

(** [Duct.reset] *)
Definition reset : M retval :=
  emit CallReset;;
  disconnect;;
  update (set_cached_auth ∅);;
  d <- ask;;
  for_each (prepreparation_values d) (fun kv => setattr (fst kv) (snd kv));;
  update (set_prepreparation_values []);;
  update (set_prepared false);;
  ret RSelf.

(** *** Connecting *)

(** [Duct.__assert_server_reachable] *)
Definition assert_server_reachable : M unit :=
  h <- getattr "host";;
  configured <- (if negb (is_none h) then ret true
                 else p <- getattr "port";; ret (negb (is_none p)));;
  if configured : bool then
    h1 <- getattr "host";;
    when (is_none h1) (raise (ValueError "Port specified but no host provided."));;
    p1 <- getattr "port";;
    when (is_none p1) (raise (ValueError "Host specified but no port specified."));;
    h2 <- getattr "host";;
    p2 <- getattr "port";;
    bound <- extern (is_port_bound h2 p2);;
    when (negb bound) (
      unreachable <- (r <- getattr "remote";;
                      if truthy r then
                        r1 <- getattr "remote";;
                        rc <- as_remote r1;;
                        h3 <- getattr "_host";;
                        p3 <- getattr "_port";;
                        b <- extern (remote_is_port_bound rc h3 p3);;
                        ret (negb b)
                      else ret false);;
      if unreachable : bool then
        disconnect;;
        r2 <- getattr "remote";;
        rc <- as_remote r2;;
        h4 <- getattr "_host";;
        p4 <- getattr "_port";;
        raise (DuctServerUnreachable
                 ("Remote '" +:+ fmt (remote_name rc) +:+ "' cannot connect to '"
                  +:+ fmt h4 +:+ ":" +:+ fmt p4
                  +:+ "'. Please check your settings before trying again."))
      else
        r3 <- getattr "remote";;
        when (negb (truthy r3)) (
          disconnect;;
          h5 <- getattr "host";;
          p5 <- getattr "port";;
          raise (DuctServerUnreachable
                   ("Cannot connect to '" +:+ fmt h5 +:+ ":" +:+ fmt p5
                    +:+ "' on your current connection. Please check your connection before trying again."))))
  else ret tt.

(** The [logger.info] call at either end of [connect]. *)
Definition log_connection (verb : string) : M unit :=
  h <- getattr "host";;
  when (truthy h) (
    h1 <- getattr "_host";;
    p1 <- getattr "_port";;
    r <- getattr "remote";;
    via <- (if truthy r then
              r1 <- getattr "remote";;
              rc <- as_remote r1;;
              ret ("on " +:+ fmt (remote_host rc))
            else ret EmptyString);;
    emit (LogInfo (verb +:+ " to " +:+ fmt h1 +:+ ":" +:+ fmt p1 +:+ via +:+ "."))).

(** The guarded call of the protocol's [_connect] inside [connect]. *)
Definition guarded_connect : M unit :=
  try_except
    (emit CallConnectHook;;
     d <- ask;;
     extern (_connect d))
    (fun e => if is_exception e then reset;; raise e else raise e).

(** [Duct.connect] *)
Definition connect : M retval :=
  log_connection "Connecting";;
  assert_server_reachable;;
  c <- is_connected;;
  when (negb c) guarded_connect;;
  log_connection "Connected";;
  ret RSelf.

(** [Duct.reconnect]: [self.disconnect().connect()] *)
Definition reconnect : M retval :=
  r <- disconnect;;
  match r with
  | RSelf => connect
  | RNone => raise (AttributeError "connect")
  end.

End Lifecycle.

(** ** The protocol registry ([ProtocolRegisteringABCMeta]) *)

Module Registry.

(** A class created by the metaclass: its [__name__], its identity and
    its [PROTOCOLS] attribute ([None] when unset). *)
Record class : Type := mkClass {
  cls_name : string;
  cls_id : nat;
  PROTOCOLS : option (list string)
}.

#[global] Instance class_eq_dec : EqDecision class.
Proof. solve_decision. Defined.

(** [cls._protocols], shared by every class of the hierarchy, and the
    messages sent to [logger.info]. *)
Record t : Type := mkRegistry {
  _protocols : gmap string class;
  logged : list string
}.

Definition empty : t := mkRegistry ∅ [].

Definition ignored_message (c c0 : class) (key : string) : string :=
  "Ignoring attempt by class `" +:+ cls_name c +:+ "` to register key '" +:+ key
  +:+ "', which is already registered for class `" +:+ cls_name c0 +:+ "`.".

(** One round of the loop in [__init__]. *)
Definition register_key (c : class) (reg : t) (key : string) : t :=
  match _protocols reg !! key with
  | Some c0 =>
      if negb (String.eqb (cls_name c) (cls_name c0))
      then mkRegistry (_protocols reg) (logged reg ++ [ignored_message c c0 key])
      else mkRegistry (<[key := c]> (_protocols reg)) (logged reg)
  | None => mkRegistry (<[key := c]> (_protocols reg)) (logged reg)
  end.

(** [ProtocolRegisteringABCMeta.__init__], the registration part. *)
Definition register (c : class) (reg : t) : t :=
  fold_left (register_key c) (default [] (PROTOCOLS c)) reg.

(** [ProtocolRegisteringABCMeta._for_protocol] *)
Definition _for_protocol (reg : t) (key : string) : outcome class :=
  match _protocols reg !! key with
  | Some c => Return c
  | None =>
      Raise (DuctProtocolUnknown
               ("Missing `Duct` implementation for protocol: '" +:+ key +:+ "'."))
  end.

End Registry.

(** ** A simulated world, for running the methods on concrete clients *)

Module Sim.

(** The external world of the simulation: the protocol's connection, what
    its hooks are set to raise, the tunnel's forwards (target and local
    port), the endpoints bound locally and those reachable from the
    tunnel, and what the user will type at the next prompts. *)
Record sim_world : Type := mkWorld {
  connected : bool;
  connect_error : option exn;
  disconnect_error : option exn;
  forwards : list (string * Z);
  bound : list string;
  remote_bound : list string;
  answers : list string
}.

Definition endpoint (h p : value) : string := fmt h +:+ ":" +:+ fmt p.

Definition mem (s : string) (l : list string) : bool :=
  existsb (String.eqb s) l.

Definition forward_port (target : string) (fw : list (string * Z)) : option Z :=
  snd <$> List.find (fun e => String.eqb target (fst e)) fw.

Definition with_connected (b : bool) (w : sim_world) : sim_world :=
  mkWorld b (connect_error w) (disconnect_error w) (forwards w) (bound w)
          (remote_bound w) (answers w).
Definition with_forwards (fw : list (string * Z)) (w : sim_world) : sim_world :=
  mkWorld (connected w) (connect_error w) (disconnect_error w) fw (bound w)
          (remote_bound w) (answers w).
Definition with_answers (a : list string) (w : sim_world) : sim_world :=
  mkWorld (connected w) (connect_error w) (disconnect_error w) (forwards w) (bound w)
          (remote_bound w) a.

#[global] Instance protocol : Protocol sim_world := {|
  _connect := fun _ w =>
    match connect_error w with
    | Some e => (Raise e, w)
    | None => (Return tt, with_connected true w)
    end;
  _is_connected := fun _ w => (Return (connected w), w);
  _disconnect := fun _ w =>
    match disconnect_error w with
    | Some e => (Raise e, w)
    | None => (Return tt, with_connected false w)
    end
|}.

Definition digit_value (c : ascii) : option Z :=
  if is_digit c then Some (Z.of_nat (nat_of_ascii c) - 48)%Z else None.

Fixpoint parse_digits (acc : Z) (s : string) : option Z :=
  match s with
  | EmptyString => Some acc
  | String c rest =>
      match digit_value c with
      | Some d => parse_digits (10 * acc + d)%Z rest
      | None => None
      end
  end.

(** Decimal literals without sign, blanks or underscores. *)
Definition parse_int (s : string) : option Z :=
  match s with
  | EmptyString => None
  | _ => parse_digits 0 s
  end.

Definition type_next (w : sim_world) : outcome string * sim_world :=
  match answers w with
  | a :: rest => (Return a, with_answers rest w)
  | [] => (Raise (OtherError 5), w)        (* EOFError *)
  end.

#[global] Instance collaborators : Collaborators sim_world := {|
  is_port_bound := fun h p w => (Return (mem (endpoint h p) (bound w)), w);
  naive_load_balancer := fun hosts _ w =>
    match hosts with
    | h :: _ => (Return (VStr h), w)
    | [] => (Raise (OtherError 3), w)
    end;
  remote_name := fun r => VStr ("tunnel" +:+ pretty r);
  remote_host := fun r => VStr ("gateway" +:+ pretty r);
  remote_is_port_bound := fun _ h p w => (Return (mem (endpoint h p) (remote_bound w)), w);
  remote_has_port_forward := fun _ h p w =>
    (Return (bool_decide (is_Some (forward_port (endpoint h p) (forwards w)))), w);
  remote_port_forward := fun _ target w =>
    match forward_port target (forwards w) with
    | Some lp => (Return (VInt lp), w)
    | None =>
        let lp := (20000 + Z.of_nat (length (forwards w)))%Z in
        (Return (VInt lp), with_forwards (forwards w ++ [(target, lp)]) w)
    end;
  remote_port_forward_stop := fun _ lp w =>
    (Return tt,
     with_forwards (List.filter (fun e => negb (bool_decide (VInt (snd e) = lp))) (forwards w)) w);
  registry_lookup := fun _ _ kind w =>
    match kind with
    | REMOTE => (Return (VRemote 0), w)
    | CACHE => (Return (VCache 0), w)
    | _ => (Raise (OtherError 4), w)
    end;
  call_value := fun f _ w =>
    match f with
    | 0%nat => (Raise (AttributeError "undefined_attribute"), w)
    | 1%nat => (Return (VStr "db.example:5432"), w)
    | 2%nat => (Return (VList ["a.example"; "b.example"]), w)
    | _ => (Return VNone, w)
    end;
  input := fun _ w => type_next w;
  getpass := fun _ w => type_next w;
  getlogin := fun w => (Return "operator", w);
  int_of_str := parse_int
|}.

(** A quiet world: nothing connected, bound or forwarded, hooks that succeed. *)
Definition idle : sim_world := mkWorld false None None [] [] [] [].

Definition start (d : Duct) (w : sim_world) : state sim_world := mkState d w [].

End Sim.

(** The instance attribute that an assignment to [key] ends up writing:
    the four properties store into their underscored attribute. *)
Definition slot (key : string) : string :=
  if is_property key then "_" +:+ key else key.

(** ** Parts of [connect] *)

Section Parts.
Context {W : Type} `{!Protocol W} `{!Collaborators W}.

(** [connect] up to the test [if not self.is_connected()]: the value is
    what [is_connected] answered. *)
Definition connect_until_hook : M W bool :=
  log_connection "Connecting";;
  assert_server_reachable;;
  is_connected.

(** What the loop of [reset] leaves in the attributes. *)
Definition restore_all (snapshot : list (string * value)) (a : gmap string value) :
  gmap string value :=
  fold_left (λ acc kv, <[slot (fst kv) := snd kv]> acc) snapshot a.

End Parts.

(** ** Reading an attribute several times in a row *)

Section Harness.
Context {W : Type} `{!Protocol W} `{!Collaborators W}.

(** [n] successive evaluations of [self.<key>], first value first. *)
Fixpoint read_times (n : nat) (key : string) : M W (list value) :=
  match n with
  | O => ret []
  | S n' =>
      v <- getattr key;;
      vs <- read_times n' key;;
      ret (v :: vs)
  end.

End Harness.

(** The state once [object.__setattr__] has stored [v] under [key]. *)
Definition stored {W : Type} (key : string) (v : value) (st : state W) : state W :=
  mkState (set_attrs (insert (slot key) v) (self st)) (world st) (trace st).

Definition field_change_warning (key : string) : string :=
  "Disconnecting prior to changing field that connection is based on: " +:+ key +:+ ".".

(** A prepared instance with no tunnel: [remote] is falsy, and [_host]
    and [_port] hold the effective host and port. *)
Definition local_config (d : Duct) (r h p : value) : Prop :=
  prepared d = true
  ∧ attrs d !! "remote" = Some r ∧ truthy r = false
  ∧ attrs d !! "_host" = Some h
  ∧ attrs d !! "_port" = Some p.

(** The trace after the first [logger.info] of [connect], which is
    skipped when the effective host is falsy. *)
Definition connecting_logged (h p : value) (t : list event) : list event :=
  if truthy h
  then t ++ [LogInfo ("Connecting to " +:+ fmt h +:+ ":" +:+ fmt p +:+ ".")]
  else t.

Definition local_unreachable_message (h p : value) : string :=
  "Cannot connect to '" +:+ fmt h +:+ ":" +:+ fmt p
  +:+ "' on your current connection. Please check your connection before trying again.".

(** ** Concrete clients and classes used by the examples below *)

Module Scenario.

(** Two classes that are distinct objects with one [__name__]
    (a class defined again, as on re-running a notebook cell), and a
    third with a name of its own. *)
Definition postgres_a : Registry.class := Registry.mkClass "PostgresClient" 1 (Some ["postgres"]).
Definition postgres_b : Registry.class := Registry.mkClass "PostgresClient" 2 (Some ["postgres"]).
Definition presto : Registry.class := Registry.mkClass "PrestoClient" 3 (Some ["presto"; "postgres"]).

(** A client reached through a tunnel, as it stands once its first
    attribute read has prepared it. *)
Definition tunnelled_config : Duct :=
  init "PostgresClient" (VStr "postgres") VNone VNone (VRemote 0)
       (VStr "db.internal") (VInt 5432) VNone VNone VNone.

Definition forwarding : Sim.sim_world :=
  Sim.mkWorld true None None [("db.internal:5432", 20000%Z)]
              ["127.0.0.1:20000"] ["db.internal:5432"] [].

(** The same world with a [_disconnect] hook that raises. *)
Definition forwarding_stuck : Sim.sim_world :=
  Sim.mkWorld true None (Some (OtherError 7)) [("db.internal:5432", 20000%Z)]
              ["127.0.0.1:20000"] ["db.internal:5432"] [].

Definition prepared_in (d : Duct) (w : Sim.sim_world) : state Sim.sim_world :=
  let st := snd (getattr "host" (Sim.start d w)) in
  mkState (self st) (world st) [].

Definition tunnelled : state Sim.sim_world := prepared_in tunnelled_config forwarding.
Definition tunnelled_stuck : state Sim.sim_world := prepared_in tunnelled_config forwarding_stuck.

(** A client whose host is a callable that raises [AttributeError]
    (callable 0 of the simulation). *)
Definition lazy_host_config : Duct :=
  init "PostgresClient" (VStr "postgres") VNone VNone VNone
       (VCallable 0) (VInt 5432) VNone VNone VNone.

(** A client built with [username=True] and [password=True], and a user
    who types "alice", then "s3cret", then other things. *)
Definition prompting_config : Duct :=
  init "PostgresClient" (VStr "postgres") VNone VNone VNone
       (VStr "db.example") (VInt 5432) (VBool true) (VBool true) VNone.

Definition typing : Sim.sim_world :=
  Sim.mkWorld false None None [] ["db.example:5432"] [] ["alice"; "s3cret"; "mallory"].

(** A client of a service on db.example:5432, which is listening. *)
Definition local_db_config : Duct :=
  init "PostgresClient" (VStr "postgres") VNone VNone VNone
       (VStr "db.example") (VInt 5432) VNone VNone VNone.

Definition listening : Sim.sim_world :=
  Sim.mkWorld false None None [] ["db.example:5432"] [] [].

(** The same service, with a [_connect] hook that raises. *)
Definition refusing : Sim.sim_world :=
  Sim.mkWorld false (Some (OtherError 1)) None [] ["db.example:5432"] [] [].

(** A client whose host is a callable giving "db.example:5432"
    (callable 1 of the simulation), and one whose host is a list. *)
Definition lazy_db_config : Duct :=
  init "PostgresClient" (VStr "postgres") VNone VNone VNone
       (VCallable 1) VNone VNone VNone VNone.

Definition pooled_db_config : Duct :=
  init "PostgresClient" (VStr "postgres") VNone VNone VNone
       (VList ["a.example"; "b.example"]) (VInt 5432) VNone VNone VNone.

(** The spec's scenario: 10.0.0.5:9999, no tunnel, nothing listening. *)
Definition unreachable_config : Duct :=
  init "PostgresClient" (VStr "postgres") VNone VNone VNone
       (VStr "10.0.0.5") (VInt 9999) VNone VNone VNone.

(** The tunnel still lists the forward, but its local end is gone. *)
Definition forward_unbound : Sim.sim_world :=
  Sim.mkWorld true None None [("db.internal:5432", 20000%Z)] [] ["db.internal:5432"] [].

Definition tunnelled_unbound : state Sim.sim_world :=
  mkState (self tunnelled) forward_unbound [].

Definition is_stop (ev : event) : bool :=
  match ev with PortForwardStop _ _ => true | _ => false end.

End Scenario.

(** ** Vocabulary of the statements *)

(** [preserves I R m]: from a state where the invariant [I] holds, [m]
    ends (returning or raising) in a state where [I] holds again and that
    is related to the initial state by [R]. *)
Definition preserves {W A : Type} (I : state W → Prop) (R : state W → state W → Prop)
    (m : M W A) : Prop :=
  ∀ st, I st → I (m st).2 ∧ R st (m st).2.

(** The trace has grown by events of [P] only. *)
Definition extends_with {W : Type} (P : event → Prop) (st st' : state W) : Prop :=
  ∃ evs, trace st' = trace st ++ evs ∧ Forall P evs.

Definition not_connect_hook (ev : event) : Prop := ev ≠ CallConnectHook.

Definition is_prepared {W : Type} (st : state W) : Prop := prepared (self st) = true.

(** No read runs [prepare] while the instance is prepared or one of the
    two guards is set. *)
Definition quiet {W : Type} (st : state W) : Prop :=
  prepared (self st) || getting (self st) || disconnecting (self st) = true.

(** The same instance, the [__disconnecting] guard apart. *)
Definition same_instance {W : Type} (st st' : state W) : Prop :=
  set_disconnecting false (self st') = set_disconnecting false (self st).

(** The same instance, the [__prepared] and [__disconnecting] flags apart. *)
Definition same_data (d d' : Duct) : Prop :=
  set_prepared false (set_disconnecting false d')
  = set_prepared false (set_disconnecting false d).

Definition same_getting {W : Type} (st st' : state W) : Prop :=
  getting (self st') = getting (self st).

(** The instance and the trace are exactly as before. *)
Definition untouched {W : Type} (st st' : state W) : Prop :=
  self st' = self st ∧ trace st' = trace st.

Definition no_prompt (ev : event) : Prop := ∀ masked, is_prompt masked ev = false.

(** A client with the constructor's [prepared_fields], whose credential
    attribute [flag] ([_username] or [_password]) is [True], whose name
    is [nm] and whose cached credentials are [c]. *)
Definition awaiting_credential {W : Type} (flag : string) (nm : value)
    (c : gmap string string) (st : state W) : Prop :=
  prepared_fields (self st) = ["_host"; "_port"; "_username"; "_password"]
  ∧ attrs (self st) !! flag = Some (VBool true)
  ∧ attrs (self st) !! "name" = Some nm
  ∧ cached_auth (self st) = c.

(** ** Looking a protocol up *)

(** [Duct.for_protocol]: [functools.partial] of the class registered for
    [key], with [protocol=key] bound as a keyword argument. *)
Definition for_protocol (reg : Registry.t) (key : string) : outcome (Registry.class * value) :=
  match Registry._for_protocol reg key with
  | Return c => Return (c, VStr key)
  | Raise e => Raise e
  end.

(** ** The last steps of [_prepare]

    The statements of [_prepare] that follow the loop over
    [prepared_fields], one definition per statement. *)

Section PreparationSteps.
Context {W : Type} `{!Protocol W} `{!Collaborators W}.
Variable get : string → M W value.
Variable set : string → value → M W unit.

(** [if isinstance(self._host, (list, tuple)): ...], [h] being the value
    the test has read. *)
Definition balance_hosts (h : value) : M W unit :=
  when (is_list h) (
    d <- ask;;
    when (negb (dict_has "_host" (prepreparation_values d))) (
      h1 <- get "_host";;
      snapshot "_host" h1);;
    h2 <- get "_host";;
    p <- get "_port";;
    match h2 with
    | VList hosts =>
        chosen <- extern (naive_load_balancer hosts p);;
        set "_host" chosen
    | _ => raise (TypeError "naive_load_balancer")
    end).

(** [if self._host is not None and re.match(...): self._host, self._port
    = self._host.split(':')], [h3] being the value the test has read. *)
Definition split_host_port (h3 : value) : M W unit :=
  when (negb (is_none h3)) (
    h4 <- get "_host";;
    match h4 with
    | VStr s =>
        when (host_port_match s) (
          h5 <- get "_host";;
          match h5 with
          | VStr s5 =>
              match split_colon s5 with
              | [a; b] => set "_host" (VStr a);; set "_port" (VStr b)
              | _ => raise (ValueError "too many values to unpack")
              end
          | _ => raise (AttributeError "split")
          end)
    | _ => raise (TypeError "expected string or bytes-like object")
    end).

(** [self.port = int(self._port) if self._port else None] *)
Definition set_port : M W unit :=
  p1 <- get "_port";;
  newport <- (if truthy p1 then p2 <- get "_port";; to_int p2 else ret VNone);;
  set "port" newport.

Definition prepare_host_and_port : M W unit :=
  h <- get "_host";;
  balance_hosts h;;
  h3 <- get "_host";;
  split_host_port h3;;
  set_port.

(** [_prepare] after its first event: the checks of the collaborators,
    the loop over [prepared_fields], then the host and the port. *)
Definition _prepare_body : M W unit :=
  assert_none_or get "registry" is_registry
    "Provided registry is not an instance of `omniduct.registry.DuctRegistry`.";;
  g <- get "registry";;
  when (negb (is_none g)) (
    lookup_by_name get set "remote" REMOTE;;
    lookup_by_name get set "cache" CACHE);;
  assert_none_or get "remote" is_remote
    "Provided remote is not an instance of `omniduct.remotes.base.RemoteClient`.";;
  assert_none_or get "cache" is_cache
    "Provided cache is not an instance of `omniduct.caches.base.Cache`.";;
  d <- ask;;
  for_each (prepared_fields d) (prepare_field get set);;
  prepare_host_and_port.

End PreparationSteps.

(** ** Colons in a host name *)

Fixpoint colon_free (s : string) : bool :=
  match s with
  | EmptyString => true
  | String c rest => negb (is_colon c) && colon_free rest
  end.

(** The number of colons of a string. *)
Fixpoint colons (s : string) : nat :=
  match s with
  | EmptyString => 0
  | String c rest => (if is_colon c then 1 else 0) + colons rest
  end.

Definition starts_with_digit (s : string) : bool :=
  match s with
  | String c _ => is_digit c
  | EmptyString => false
  end.

(** ** Names outside the instance dictionary *)

(** The attributes that the model keeps as fields of [Duct], and the
    read-only property [__prepare_triggers]: [read_attr] and
    [store_attr] speak for every other name. *)
Definition kept_aside : list string :=
  ["connection_fields"; "prepared_fields"; "_Duct__prepared"; "_Duct__getting";
   "_Duct__disconnecting"; "_Duct__cached_auth"; "_Duct__prepreparation_values";
   "_Duct__prepare_triggers"].

Definition in_dictionary (key : string) : bool :=
  negb (bool_decide (key ∈ kept_aside)).

(** ** Clients without collaborators *)

(** An instance that has not been prepared and is not inside a read or
    a [disconnect]. *)
Definition at_rest (d : Duct) : Prop :=
  prepared d = false ∧ getting d = false ∧ disconnecting d = false.

(** An instance with the constructor's [prepared_fields], no registry
    and no cache, whose [remote] is [r] and whose four prepared
    attributes hold the values [h], [p], [u] and [pw]. *)
Definition configured (d : Duct) (r h p u pw : value) : Prop :=
  prepared_fields d = ["_host"; "_port"; "_username"; "_password"]
  ∧ attrs d !! "registry" = Some VNone
  ∧ attrs d !! "remote" = Some r
  ∧ attrs d !! "cache" = Some VNone
  ∧ attrs d !! "_host" = Some h
  ∧ attrs d !! "_port" = Some p
  ∧ attrs d !! "_username" = Some u
  ∧ attrs d !! "_password" = Some pw.

(** The instance once a read has prepared it, its attributes having
    become [f (attrs d)]. *)
Definition prepared_as (f : gmap string value → gmap string value) (d : Duct) : Duct :=
  set_prepared true (set_attrs f d).

(** The same, the value [v] found under [key] having been saved in
    [__prepreparation_values] on the way. *)
Definition prepared_saving (key : string) (v : value)
    (f : gmap string value → gmap string value) (d : Duct) : Duct :=
  set_prepared true
    (set_attrs f (set_prepreparation_values (dict_set key v (prepreparation_values d)) d)).

(** The trace after a [logger.info] of [connect] ("Connecting" or
    "Connected") on a client without tunnel; the message is skipped when
    the host is falsy. *)
Definition connection_logged (verb : string) (h p : value) (t : list event) : list event :=
  if truthy h
  then t ++ [LogInfo (verb +:+ " to " +:+ fmt h +:+ ":" +:+ fmt p +:+ ".")]
  else t.

(** The three flags of the instance and its list of monitored fields
    are as before. *)
Definition same_guards {W : Type} (st st' : state W) : Prop :=
  prepared (self st') = prepared (self st)
  ∧ getting (self st') = getting (self st)
  ∧ disconnecting (self st') = disconnecting (self st)
  ∧ connection_fields (self st') = connection_fields (self st).

(** [guarded J E m]: from a state where [J] holds, [m] returns in a
    state where [J] holds again, or raises in a state where [E] holds. *)
Definition guarded {W A : Type} (J E : state W → Prop) (m : M W A) : Prop :=
  ∀ st, J st →
    match m st with
    | (Return _, st') => J st'
    | (Raise _, st') => E st'
    end.

(** In the course of a read that started with [c0] runs of [_prepare]
    behind it: no further run so far, or one, after which reads no
    longer prepare. *)
Definition prepared_so_far {W : Type} (c0 : nat) (st : state W) : Prop :=
  count_event CallPrepareHook (trace st) = c0
  ∨ (count_event CallPrepareHook (trace st) = S c0 ∧ quiet st).

Definition one_more_at_most {W : Type} (c0 : nat) (st : state W) : Prop :=
  (count_event CallPrepareHook (trace st) ≤ S c0)%nat.

(** ** More clients for the examples *)

Module Cases.

Definition client (remote host port username password : value) : Duct :=
  init "PostgresClient" (VStr "postgres") VNone VNone remote host port username password VNone.

(** [host='db.example:5432', port=1111] *)
Definition port_in_host : Duct :=
  client VNone (VStr "db.example:5432") (VInt 1111) VNone VNone.

(** [host='db.example:5432:pg'] *)
Definition two_colons : Duct :=
  client VNone (VStr "db.example:5432:pg") VNone VNone VNone.

(** [host='db.example', port='5432'] *)
Definition text_port : Duct :=
  client VNone (VStr "db.example") (VStr "5432") VNone VNone.

(** [remote='gateway'] and no registry to look the name up in. *)
Definition named_remote : Duct :=
  client (VStr "gateway") (VStr "db.internal") (VInt 5432) VNone VNone.

(** [host=f, port=5432], [f] being callable 3 of the simulation, which
    returns [None]. *)
Definition lazy_host : Duct :=
  client VNone (VCallable 3) (VInt 5432) VNone VNone.

(** [registry=...], [remote='gateway']: the remote is looked up by name. *)
Definition registered_remote : Duct :=
  init "PostgresClient" (VStr "postgres") VNone (VRegistry 0) (VStr "gateway")
       (VStr "db.internal") (VInt 5432) VNone VNone VNone.

(** The tunnel lists the forward to db.internal:5432, but its local end
    is not bound and the tunnel cannot reach the service either. *)
Definition cut_off : Sim.sim_world :=
  Sim.mkWorld true None None [("db.internal:5432", 20000%Z)] [] [] [].

(** db.example:5432 is listening; [_connect] raises, and so does
    [_disconnect]. *)
Definition refusing_stuck : Sim.sim_world :=
  Sim.mkWorld false (Some (OtherError 1)) (Some (OtherError 7)) [] ["db.example:5432"] [] [].

(** db.example:5432 is listening; [_connect] is interrupted from the
    keyboard. *)
Definition interrupted : Sim.sim_world :=
  Sim.mkWorld false (Some (Interrupt 2)) None [] ["db.example:5432"] [] [].

(** db.example:5432 is listening; [_disconnect] raises an
    [AttributeError] (a connection object that is already gone). *)
Definition half_closed : Sim.sim_world :=
  Sim.mkWorld false None (Some (AttributeError "close")) [] ["db.example:5432"] [] [].

(** A protocol whose [_connect] and [_disconnect] return and whose
    [_is_connected] answers [False] all the same. *)
Definition never_connected : Protocol Sim.sim_world := {|
  _connect := fun _ w => (Return tt, w);
  _is_connected := fun _ w => (Return false, w);
  _disconnect := fun _ w => (Return tt, w)
|}.

End Cases.

(** ** Joining documentation
       ([ProtocolRegisteringQuirkDocumentedABCMeta.__doc_join]) *)

(** What [__doc_join] can be handed: [None], a string, a list or tuple,
    or an object of another type, of which only what [type(doc)] prints
    matters. *)
Inductive doc : Type :=
| DNone
| DStr (s : string)
| DSeq (items : list doc)
| DOther (type_name : string).

Definition is_newline (c : ascii) : bool := Ascii.eqb c "010"%char.

Definition newline : string := String "010"%char EmptyString.

(** [s.strip('\n')] *)
Fixpoint lstrip_newlines (s : string) : string :=
  match s with
  | String c rest => if is_newline c then lstrip_newlines rest else s
  | EmptyString => EmptyString
  end.

Fixpoint rstrip_newlines (s : string) : string :=
  match s with
  | EmptyString => EmptyString
  | String c rest =>
      match rstrip_newlines rest with
      | EmptyString => if is_newline c then EmptyString else String c EmptyString
      | kept => String c kept
      end
  end.

Definition strip_newlines (s : string) : string := rstrip_newlines (lstrip_newlines s).

(** [d.replace('\n', '\n    ')] *)
Fixpoint indent_continuation (d : string) : string :=
  match d with
  | EmptyString => EmptyString
  | String c rest =>
      if is_newline c then String c ("    " +:+ indent_continuation rest)
      else String c (indent_continuation rest)
  end.

(** [s.split('\n')] *)
Fixpoint lines (s : string) : list string :=
  match s with
  | EmptyString => [EmptyString]
  | String c rest =>
      if is_newline c then EmptyString :: lines rest
      else match lines rest with
           | h :: t => String c h :: t
           | [] => [String c EmptyString]
           end
  end.

Section DocJoin.
(** [textwrap.dedent] and [str.strip()], of the standard library. *)
Variable dedent : string → string.
Variable strip : string → string.

(** One round of the loop of [__doc_join]: what [doc] adds to [out], or
    the error it raises. *)
Fixpoint doc_entry (d : doc) : outcome (option string) :=
  match d with
  | DNone => Return None
  | DStr s =>
      if String.eqb s EmptyString then Return None
      else Return (Some (strip_newlines (dedent s)))
  | DSeq items =>
      match items with
      | [] | [_] => Return None
      | header :: rest =>
          match (fix entries (l : list doc) : outcome (list string) :=
                   match l with
                   | [] => Return []
                   | x :: r =>
                       match doc_entry x with
                       | Raise e => Raise e
                       | Return o =>
                           match entries r with
                           | Raise e => Raise e
                           | Return out => Return (option_list o ++ out)
                           end
                       end
                   end) rest with
          | Raise e => Raise e
          | Return out =>
              let body := join_with (newline +:+ newline) out in
              if String.eqb body EmptyString then Return None
              else
                match header with
                | DStr h =>
                    Return (Some (strip h +:+ newline +:+ "    " +:+ indent_continuation body))
                | _ => Raise (AttributeError "strip")
                end
          end
      end
  | DOther t => Raise (ValueError ("Unrecognised doc format: " +:+ t))
  end.

(** The whole loop. *)
Fixpoint doc_entries (docs : list doc) : outcome (list string) :=
  match docs with
  | [] => Return []
  | x :: r =>
      match doc_entry x with
      | Raise e => Raise e
      | Return o =>
          match doc_entries r with
          | Raise e => Raise e
          | Return out => Return (option_list o ++ out)
          end
      end
  end.

(** [__doc_join], on the tuple of its positional arguments. *)
Definition doc_join (docs : list doc) : outcome string :=
  match doc_entries docs with
  | Raise e => Raise e
  | Return out => Return (join_with (newline +:+ newline) out)
  end.

End DocJoin.

(** The entries that the loop passes over: [None], the empty string and
    the sequences of fewer than two items. *)
Definition passed_over (d : doc) : bool :=
  match d with
  | DNone => true
  | DStr s => String.eqb s EmptyString
  | DSeq [] | DSeq [_] => true
  | _ => false
  end.

(** * Properties *)

(** ** The protocol registry *)

Section RegistryFacts.
Import Registry.

Lemma register_key_other (c : class) (reg : t) (key k : string) :
  k ≠ key → _protocols (register_key c reg k) !! key = _protocols reg !! key.
Proof.
  intros Hne. unfold register_key.
  destruct (_protocols reg !! k) as [c0|] eqn:Hk; [destruct (negb _)|]; simpl;
    rewrite ?lookup_insert_ne by done; done.
Qed.

Lemma register_key_logged_mono (c : class) (reg : t) (k : string) (msg : string) :
  msg ∈ logged reg → msg ∈ logged (register_key c reg k).
Proof.
  intros Hin. unfold register_key.
  destruct (_protocols reg !! k) as [c0|]; [destruct (negb _)|]; simpl; try done.
  set_solver.
Qed.

Lemma fold_register_logged_mono (c : class) (keys : list string) (reg : t) (msg : string) :
  msg ∈ logged reg → msg ∈ logged (fold_left (register_key c) keys reg).
Proof.
  revert reg. induction keys as [|k keys IH]; intros reg Hin; simpl; [done|].
  apply IH. by apply register_key_logged_mono.
Qed.

(** A key held by a class of another name stays with it through a whole
    registration, and each attempt on it is logged. *)
Lemma fold_register_keeps (c c0 : class) (key : string) (keys : list string) (reg : t) :
  cls_name c ≠ cls_name c0 →
  _protocols reg !! key = Some c0 →
  _protocols (fold_left (register_key c) keys reg) !! key = Some c0
  ∧ (key ∈ keys → ignored_message c c0 key ∈ logged (fold_left (register_key c) keys reg)).
Proof.
  intros Hname. revert reg. induction keys as [|k keys IH]; intros reg Hreg; simpl.
  - split; [done|]. intros Hin. by apply elem_of_nil in Hin.
  - destruct (decide (k = key)) as [->|Hne].
    + assert (Hstep : register_key c reg key
                      = mkRegistry (_protocols reg) (logged reg ++ [ignored_message c c0 key])).
      { unfold register_key. rewrite Hreg.
        destruct (String.eqb_spec (cls_name c) (cls_name c0)); [done|reflexivity]. }
      rewrite Hstep. destruct (IH (mkRegistry (_protocols reg) (logged reg ++ [ignored_message c c0 key])) Hreg)
        as [Hkeep _].
      split; [done|]. intros _. apply fold_register_logged_mono. simpl. set_solver.
    + destruct (IH (register_key c reg k)) as [Hkeep Hlog].
      { by rewrite register_key_other. }
      split; [done|]. intros Hin. apply Hlog. set_solver.
Qed.

(** A key that is free, or held by a class of the same name, ends up
    bound to the registering class. *)
Lemma fold_register_binds (c : class) (key : string) (keys : list string) (reg : t) :
  key ∈ keys →
  (∀ c0, _protocols reg !! key = Some c0 → cls_name c = cls_name c0) →
  _protocols (fold_left (register_key c) keys reg) !! key = Some c.
Proof.
  revert reg. induction keys as [|k keys IH]; intros reg Hin Hfree; simpl.
  - by apply elem_of_nil in Hin.
  - assert (Hbound : ∀ reg', _protocols reg' !! key = Some c →
              _protocols (fold_left (register_key c) keys reg') !! key = Some c).
    { clear. intros reg'. revert reg'. induction keys as [|k keys IH]; intros reg' H; simpl; [done|].
      apply IH. destruct (decide (k = key)) as [->|Hne].
      - unfold register_key. rewrite H. rewrite String.eqb_refl. simpl. by rewrite lookup_insert_eq.
      - by rewrite register_key_other. }
    destruct (decide (k = key)) as [->|Hne].
    + apply Hbound. unfold register_key.
      destruct (_protocols reg !! key) as [c0|] eqn:Hk; simpl.
      * rewrite (Hfree c0 eq_refl), String.eqb_refl. simpl. by rewrite lookup_insert_eq.
      * by rewrite lookup_insert_eq.
    + apply IH; [set_solver|]. intros c0. rewrite register_key_other by done. apply Hfree.
Qed.

(** C8 (as amended).  On a key that the first class registered, a second
    registration by a class whose name differs leaves the first binding
    and logs the ignored attempt; a second class bearing the same name
    takes the key over; and resolving a key that nobody registered fails
    with [DuctProtocolUnknown]. *)
Theorem register_twice_first_name_wins
    (reg : t) (first second : class) (key : string) (keys1 keys2 : list string) :
  _protocols reg !! key = None →
  PROTOCOLS first = Some keys1 → key ∈ keys1 →
  PROTOCOLS second = Some keys2 → key ∈ keys2 →
  let reg2 := register second (register first reg) in
  (cls_name second ≠ cls_name first →
     _protocols reg2 !! key = Some first
     ∧ ignored_message second first key ∈ logged reg2)
  ∧ (cls_name second = cls_name first → _protocols reg2 !! key = Some second)
  ∧ (∀ unknown, _protocols reg2 !! unknown = None →
       _for_protocol reg2 unknown
       = Raise (DuctProtocolUnknown
                  ("Missing `Duct` implementation for protocol: '" +:+ unknown +:+ "'."))).
Proof.
  intros Hfree Hp1 Hin1 Hp2 Hin2 reg2.
  assert (Hfirst : _protocols (register first reg) !! key = Some first).
  { unfold register. rewrite Hp1. simpl. apply fold_register_binds; [done|].
    intros c0. by rewrite Hfree. }
  subst reg2. unfold register at 1 3 5. rewrite Hp2. simpl.
  split; [|split].
  - intros Hname. destruct (fold_register_keeps second first key keys2 _ Hname Hfirst) as [Hk Hl].
    split; [done|by apply Hl].
  - intros Hname. apply fold_register_binds; [done|].
    intros c0. rewrite Hfirst. by intros [= <-].
  - intros unknown Hnone. unfold _for_protocol. by rewrite Hnone.
Qed.

End RegistryFacts.

(** C8, witness: [presto] tries to take "postgres" from [postgres_a]. *)
Lemma register_twice_first_name_wins_witness :
  let reg2 := Registry.register Scenario.presto (Registry.register Scenario.postgres_a Registry.empty) in
  Registry._protocols reg2 !! "postgres" = Some Scenario.postgres_a
  ∧ Registry.ignored_message Scenario.presto Scenario.postgres_a "postgres" ∈ Registry.logged reg2.
Proof.
  refine (proj1 (register_twice_first_name_wins Registry.empty Scenario.postgres_a Scenario.presto
           "postgres" ["postgres"] ["presto"; "postgres"] _ _ _ _ _) _).
  - reflexivity.
  - reflexivity.
  - set_solver.
  - reflexivity.
  - set_solver.
  - simpl. discriminate.
Defined.

(** C8, counterexample: two distinct classes named alike register
    "postgres"; the second replaces the first and nothing is logged. *)
Lemma register_twice_same_name_rebinds :
  let reg2 := Registry.register Scenario.postgres_b
                (Registry.register Scenario.postgres_a Registry.empty) in
  Scenario.postgres_a ≠ Scenario.postgres_b
  ∧ Registry._protocols reg2 !! "postgres" = Some Scenario.postgres_b
  ∧ Registry.logged reg2 = [].
Proof. split; [discriminate|]. split; reflexivity. Qed.

(** ** Reasoning about methods: invariants through the monad *)

Section Preservation.
Context {W : Type}.
Variable I : state W → Prop.
Variable R : state W → state W → Prop.
Hypothesis R_refl : ∀ st, R st st.
Hypothesis R_trans : ∀ st1 st2 st3, R st1 st2 → R st2 st3 → R st1 st3.

Local Abbreviation holds := (preserves I R).

Lemma preserves_ret {A} (a : A) : holds (ret a).
Proof. intros st HI. simpl. auto. Qed.

Lemma preserves_raise {A} (e : exn) : holds (raise (A := A) e).
Proof. intros st HI. simpl. auto. Qed.

Lemma preserves_ask : holds ask.
Proof. intros st HI. simpl. auto. Qed.

Lemma preserves_bind {A B} (m : M W A) (k : A → M W B) :
  holds m → (∀ a, holds (k a)) → holds (bind m k).
Proof.
  intros Hm Hk st HI. unfold bind. destruct (Hm st HI) as [HI1 HR1].
  destruct (m st) as [[a|e] st1]; simpl in *; [|auto].
  destruct (Hk a st1 HI1) as [HI2 HR2]. eauto.
Qed.

Lemma preserves_ask_bind {A} (k : Duct → M W A) :
  (∀ st, I st → I (k (self st) st).2 ∧ R st (k (self st) st).2) → holds (bind ask k).
Proof. intros Hk st HI. exact (Hk st HI). Qed.

Lemma preserves_when (b : bool) (m : M W unit) : holds m → holds (when b m).
Proof. intros Hm. destruct b; simpl; [done|apply preserves_ret]. Qed.

Lemma preserves_try_finally {A} (m : M W A) (fin : M W unit) :
  holds m → holds fin → holds (try_finally m fin).
Proof.
  intros Hm Hf st HI. unfold try_finally. destruct (Hm st HI) as [HI1 HR1].
  destruct (m st) as [[a|e] st1]; simpl in *;
    destruct (Hf st1 HI1) as [HI2 HR2]; destruct (fin st1) as [[[]|e'] st2]; simpl in *; eauto.
Qed.

Lemma preserves_try_except {A} (m : M W A) (h : exn → M W A) :
  holds m → (∀ e, holds (h e)) → holds (try_except m h).
Proof.
  intros Hm Hh st HI. unfold try_except. destruct (Hm st HI) as [HI1 HR1].
  destruct (m st) as [[a|e] st1]; simpl in *; [auto|].
  destruct (Hh e st1 HI1) as [HI2 HR2]. eauto.
Qed.

Lemma preserves_for_each {A} (l : list A) (body : A → M W unit) :
  (∀ x, holds (body x)) → holds (for_each l body).
Proof.
  intros Hb. induction l as [|x l IH]; simpl.
  - apply preserves_ret.
  - apply preserves_bind; auto.
Qed.

Lemma preserves_for_each_in {A} (l : list A) (body : A → M W unit) :
  (∀ x, x ∈ l → holds (body x)) → holds (for_each l body).
Proof.
  induction l as [|x l IH]; intros Hb; simpl.
  - apply preserves_ret.
  - apply preserves_bind; [apply Hb; set_solver|].
    intros _. apply IH. intros y Hy. apply Hb. set_solver.
Qed.

(** External code changes the world only. *)
Hypothesis world_ok : ∀ st w,
  I st → I (mkState (self st) w (trace st)) ∧ R st (mkState (self st) w (trace st)).

Lemma preserves_extern {A} (f : W → outcome A * W) : holds (extern f).
Proof. intros st HI. unfold extern. destruct (f (world st)) as [o w]. simpl. auto. Qed.

End Preservation.

(** Inversion of a bind that ran to a known result. *)
Lemma bind_inv {W A B} (m : M W A) (k : A → M W B) (st st' : state W) (o : outcome B) :
  bind m k st = (o, st') →
  (∃ a st1, m st = (Return a, st1) ∧ k a st1 = (o, st'))
  ∨ (∃ e, m st = (Raise e, st') ∧ o = Raise e).
Proof.
  unfold bind. destruct (m st) as [[a|e] st1]; intros Heq.
  - left. eauto.
  - right. exists e. by simplify_eq.
Qed.

Lemma bind_return_inv {W A B} (m : M W A) (k : A → M W B) (st st' : state W) (b : B) :
  bind m k st = (Return b, st') →
  ∃ a st1, m st = (Return a, st1) ∧ k a st1 = (Return b, st').
Proof.
  intros Heq. apply bind_inv in Heq as [Hok|(e & _ & Habs)]; [done|discriminate].
Qed.

Lemma extends_with_refl {W} (P : event → Prop) (st : state W) : extends_with P st st.
Proof. exists []. by rewrite app_nil_r. Qed.

Lemma extends_with_trans {W} (P : event → Prop) (st1 st2 st3 : state W) :
  extends_with P st1 st2 → extends_with P st2 st3 → extends_with P st1 st3.
Proof.
  intros (e1 & H1 & F1) (e2 & H2 & F2). exists (e1 ++ e2).
  split; [by rewrite H2, H1, app_assoc|by apply Forall_app].
Qed.

Lemma extends_with_count {W} (P : event → Prop) (ev : event) (st st' : state W) :
  ¬ P ev → extends_with P st st' →
  count_event ev (trace st') = count_event ev (trace st).
Proof.
  intros Hev (evs & -> & Hall). unfold count_event.
  rewrite filter_app, length_app.
  assert (Hnil : filter (λ x, x = ev) evs = []); [|by rewrite Hnil; simpl; lia].
  clear -Hev Hall. induction Hall as [|x l Hx _ IH]; [done|].
  rewrite filter_cons. destruct (decide (x = ev)) as [->|]; [done|exact IH].
Qed.

Create HintDb pres discriminated.

Ltac pres_go :=
  lazymatch goal with
  | |- preserves _ _ (bind _ _) =>
      eapply preserves_bind; [solve [eauto with pres]|pres_go|intros ?; pres_go]
  | |- preserves _ _ (when _ _) =>
      eapply preserves_when; [solve [eauto with pres]|pres_go]
  | |- preserves _ _ (try_finally _ _) =>
      eapply preserves_try_finally; [solve [eauto with pres]|pres_go|pres_go]
  | |- preserves _ _ (try_except _ _) =>
      eapply preserves_try_except; [solve [eauto with pres]|pres_go|intros ?; pres_go]
  | |- preserves _ _ (for_each _ _) =>
      eapply preserves_for_each;
      [solve [eauto with pres]|solve [eauto with pres]|intros ?; pres_go]
  | |- preserves _ _ (if ?b then _ else _) => destruct b; pres_go
  | |- preserves _ _ (match ?v with _ => _ end) => destruct v; pres_go
  | |- preserves _ _ (let _ := _ in _) => cbv zeta; pres_go
  | |- _ => solve [eauto with pres]
  end.

(** ** Which events each method can log

    For a set [P] of events: a method whose own events are in [P] only
    adds events of [P] to the trace, whatever the state. *)

Section Alphabet.
Context {W : Type} `{!Protocol W} `{!Collaborators W}.
Variable P : event → Prop.

Local Abbreviation logs_only := (preserves (λ _ : state W, True) (extends_with P)).

Lemma logs_only_world (st : state W) (w : W) :
  True → True ∧ extends_with P st (mkState (self st) w (trace st)).
Proof. intros _. split; [done|]. exists []. simpl. by rewrite app_nil_r. Qed.

Lemma logs_only_update (f : Duct → Duct) : logs_only (update f).
Proof. intros st _. split; [done|]. exists []. simpl. by rewrite app_nil_r. Qed.

Lemma logs_only_emit (ev : event) : P ev → logs_only (emit ev).
Proof. intros Hev st _. split; [done|]. exists [ev]. simpl. auto. Qed.

Lemma logs_only_read_attr (key : string) : logs_only (read_attr key).
Proof.
  intros st _. unfold read_attr. split; [done|].
  destruct (_ !! _); simpl; apply extends_with_refl.
Qed.

Hint Resolve extends_with_refl extends_with_trans logs_only_world : pres.
Hint Resolve preserves_ret preserves_raise preserves_ask preserves_extern : pres.
Hint Resolve logs_only_update logs_only_emit logs_only_read_attr : pres.

Lemma logs_only_store_attr key v : logs_only (store_attr key v).
Proof. unfold store_attr. pres_go. Qed.
Lemma logs_only_snapshot key v : logs_only (snapshot key v).
Proof. unfold snapshot. pres_go. Qed.
Lemma logs_only_as_remote v : logs_only (as_remote v).
Proof. unfold as_remote. pres_go. Qed.
Lemma logs_only_as_registry v : logs_only (as_registry v).
Proof. unfold as_registry. pres_go. Qed.
Lemma logs_only_to_int v : logs_only (to_int v).
Proof. unfold to_int. pres_go. Qed.
Hint Resolve logs_only_store_attr logs_only_snapshot logs_only_as_remote
  logs_only_as_registry logs_only_to_int : pres.

Hypothesis P_prompt : ∀ masked msg, P (Prompt masked msg).
Hint Resolve P_prompt : pres.

Section Reads.
Variable get : string → M W value.
Hypothesis get_ok : ∀ key, logs_only (get key).
Hint Resolve get_ok : pres.

Lemma logs_only_object_getattribute key : logs_only (object_getattribute get key).
Proof.
  unfold object_getattribute, host_getter, port_getter, username_getter, password_getter.
  pres_go.
Qed.

Variable set : string → value → M W unit.
Hypothesis set_ok : ∀ key v, logs_only (set key v).
Hint Resolve set_ok : pres.

Lemma logs_only_object_setattr key v : logs_only (object_setattr set key v).
Proof. unfold object_setattr. pres_go. Qed.

Hypothesis P_prepare : P CallPrepareHook.
Hint Resolve P_prepare : pres.

Lemma logs_only_prepare_with : logs_only (prepare_with get set).
Proof.
  unfold prepare_with, _prepare_with, assert_none_or, lookup_by_name, prepare_field.
  pres_go.
Qed.
End Reads.

Hint Resolve logs_only_object_getattribute logs_only_object_setattr logs_only_prepare_with : pres.

Hypothesis P_prepare : P CallPrepareHook.

Lemma logs_only_prepare_quiet : logs_only prepare_quiet.
Proof. unfold prepare_quiet, getattr_quiet, setattr_quiet. eauto 10 with pres. Qed.

Lemma logs_only_trigger key : logs_only (trigger key).
Proof.
  intros st _. split; [done|]. unfold trigger.
  destruct (should_prepare key (self st)); [|apply extends_with_refl].
  unfold bind. simpl.
  destruct (logs_only_prepare_quiet
              (mkState (set_getting true (self st)) (world st) (trace st)) Logic.I) as [_ Hext].
  destruct (prepare_quiet _) as [[[]|e] st1]; simpl in *; [done|].
  destruct e; exact Hext.
Qed.
Hint Resolve logs_only_trigger : pres.

Lemma logs_only_getattr_plain key : logs_only (getattr_plain key).
Proof. unfold getattr_plain. pres_go. Qed.
Hint Resolve logs_only_getattr_plain : pres.

Lemma logs_only_getattr key : logs_only (getattr key).
Proof. unfold getattr. pres_go. Qed.
Hint Resolve logs_only_getattr : pres.

Lemma logs_only_remote_probe probe absent : logs_only (remote_probe probe absent).
Proof. unfold remote_probe. pres_go. Qed.
Hint Resolve logs_only_remote_probe : pres.

Hypothesis P_info : ∀ msg, P (LogInfo msg).
Hypothesis P_stop : ∀ r lp, P (PortForwardStop r lp).
Hypothesis P_disconnect_hook : P CallDisconnectHook.
Hint Resolve P_info P_stop P_disconnect_hook : pres.

Lemma logs_only_free_local_port : logs_only free_local_port.
Proof. unfold free_local_port. pres_go. Qed.
Hint Resolve logs_only_free_local_port : pres.

Lemma logs_only_disconnect_guarded : logs_only disconnect_guarded.
Proof. unfold disconnect_guarded. pres_go. Qed.
Hint Resolve logs_only_disconnect_guarded : pres.

Hypothesis P_disconnect : P CallDisconnect.
Hint Resolve P_disconnect : pres.

Lemma logs_only_disconnect : logs_only disconnect.
Proof. unfold disconnect. pres_go. Qed.
Hint Resolve logs_only_disconnect : pres.

Hypothesis P_is_connected_hook : P CallIsConnectedHook.
Hint Resolve P_is_connected_hook : pres.

Lemma logs_only_is_connected : logs_only is_connected.
Proof. unfold is_connected, tunnel_lost. pres_go. Qed.
Hint Resolve logs_only_is_connected : pres.

Hypothesis P_warn : ∀ msg, P (LogWarn msg).
Hint Resolve P_warn : pres.

Lemma logs_only_monitor key : logs_only (monitor key).
Proof. unfold monitor. pres_go. Qed.
Hint Resolve logs_only_monitor : pres.

Lemma logs_only_setattr_plain key v : logs_only (setattr_plain key v).
Proof. unfold setattr_plain. pres_go. Qed.
Hint Resolve logs_only_setattr_plain : pres.

Lemma logs_only_setattr key v : logs_only (setattr key v).
Proof. unfold setattr. pres_go. Qed.
Hint Resolve logs_only_setattr : pres.

Lemma logs_only_assert_server_reachable : logs_only assert_server_reachable.
Proof. unfold assert_server_reachable. pres_go. Qed.

Lemma logs_only_log_connection verb : logs_only (log_connection verb).
Proof. unfold log_connection. pres_go. Qed.

Hypothesis P_reset : P CallReset.
Hint Resolve P_reset : pres.

Lemma logs_only_reset : logs_only reset.
Proof. unfold reset. pres_go. Qed.

End Alphabet.

(** ** Prepared instances

    Once [__prepared] is set, reading an attribute never runs [prepare],
    and the methods that only look at the network configuration leave the
    instance as it is, the [__disconnecting] guard apart. *)

Section Steady.
Context {W : Type} `{!Protocol W} `{!Collaborators W}.
Implicit Types st : state W.

Local Abbreviation steady := (preserves (W := W) is_prepared same_instance).

Lemma same_instance_refl st : same_instance st st.
Proof. done. Qed.

Lemma same_instance_trans st1 st2 st3 :
  same_instance st1 st2 → same_instance st2 st3 → same_instance st1 st3.
Proof. unfold same_instance. congruence. Qed.

Lemma steady_world st (w : W) :
  is_prepared st →
  is_prepared (mkState (self st) w (trace st)) ∧ same_instance st (mkState (self st) w (trace st)).
Proof. done. Qed.

Lemma same_instance_attrs st st' :
  same_instance st st' → attrs (self st') = attrs (self st).
Proof. intros H. apply (f_equal attrs) in H. exact H. Qed.

Lemma same_instance_prepared st st' :
  same_instance st st' → prepared (self st') = prepared (self st).
Proof. intros H. apply (f_equal prepared) in H. exact H. Qed.

Lemma prepared_quiet st : is_prepared st → quiet st.
Proof. unfold is_prepared, quiet. by intros ->. Qed.

Lemma trigger_quiet key st : quiet st → trigger key st = (Return tt, st).
Proof.
  unfold quiet, trigger, should_prepare. intros H.
  destruct (prepared _), (getting _), (disconnecting _); try done.
Qed.

Lemma getattr_plain_quiet key st : quiet st → getattr_plain key st = read_attr key st.
Proof. intros H. unfold getattr_plain, bind. by rewrite trigger_quiet. Qed.

Ltac quiet_reads H :=
  repeat first
    [ rewrite trigger_quiet by exact H
    | progress cbv beta iota delta [bind ret raise read_attr as_remote getattr_plain]
    | reflexivity
    | case_match; simplify_eq ].

(** In a quiet state [__getattribute__] is [object.__getattribute__]. *)
Lemma getattr_quiet_state key st : quiet st → getattr key st = getattr_quiet key st.
Proof.
  intros H. unfold getattr, getattr_quiet, bind. rewrite trigger_quiet by done.
  unfold object_getattribute.
  repeat case_match; try reflexivity.
  - unfold host_getter. quiet_reads H.
  - unfold port_getter. quiet_reads H.
  - unfold username_getter. cbv [ask]. quiet_reads H.
  - unfold password_getter. cbv [ask]. quiet_reads H.
Qed.

Lemma trigger_prepared key st : is_prepared st → trigger key st = (Return tt, st).
Proof. intros H. by apply trigger_quiet, prepared_quiet. Qed.

Lemma getattr_prepared key st :
  is_prepared st → getattr key st = getattr_quiet key st.
Proof. intros H. by apply getattr_quiet_state, prepared_quiet. Qed.

Lemma getattr_plain_name key st :
  is_prepared st → is_property key = false → getattr key st = read_attr key st.
Proof.
  intros H Hk. rewrite getattr_prepared by done.
  unfold getattr_quiet, object_getattribute. unfold is_property in Hk.
  repeat (apply orb_false_elim in Hk as [Hk ?]).
  by repeat match goal with Heq : (_ =? _) = false |- _ => rewrite Heq; clear Heq end.
Qed.

Lemma steady_emit ev : steady (emit ev).
Proof. done. Qed.

Lemma steady_flag b : steady (update (set_disconnecting b)).
Proof. intros st H. split; [exact H|]. unfold same_instance. simpl. by destruct (self st). Qed.

Lemma steady_read_attr key : steady (read_attr key).
Proof. intros st H. unfold read_attr. by destruct (_ !! _). Qed.

Lemma steady_as_remote v : steady (as_remote v).
Proof. by destruct v. Qed.

Hint Resolve same_instance_refl same_instance_trans steady_world : pres.
Hint Resolve preserves_ret preserves_raise preserves_ask preserves_extern : pres.
Hint Resolve steady_emit steady_flag steady_read_attr steady_as_remote : pres.

Lemma steady_getattr_quiet_host : steady (getattr_quiet "host").
Proof.
  change (getattr_quiet "host") with (host_getter (W := W) read_attr).
  unfold host_getter. pres_go.
Qed.

Lemma steady_getattr_quiet_port : steady (getattr_quiet "port").
Proof.
  change (getattr_quiet "port") with (port_getter (W := W) read_attr).
  unfold port_getter. pres_go.
Qed.

Lemma steady_by_quiet key :
  steady (getattr_quiet key) → steady (getattr key).
Proof. intros Hq st H. rewrite getattr_prepared by done. by apply Hq. Qed.

Lemma steady_getattr_host : steady (getattr "host").
Proof. apply steady_by_quiet, steady_getattr_quiet_host. Qed.
Lemma steady_getattr_port : steady (getattr "port").
Proof. apply steady_by_quiet, steady_getattr_quiet_port. Qed.
Lemma steady_getattr_remote : steady (getattr "remote").
Proof. apply steady_by_quiet, steady_read_attr. Qed.
Lemma steady_getattr_raw_host : steady (getattr "_host").
Proof. apply steady_by_quiet, steady_read_attr. Qed.
Lemma steady_getattr_raw_port : steady (getattr "_port").
Proof. apply steady_by_quiet, steady_read_attr. Qed.
Hint Resolve steady_getattr_host steady_getattr_port steady_getattr_remote
  steady_getattr_raw_host steady_getattr_raw_port : pres.

Lemma steady_remote_probe probe absent : steady (remote_probe probe absent).
Proof. unfold remote_probe. pres_go. Qed.
Hint Resolve steady_remote_probe : pres.

Lemma steady_free_local_port : steady free_local_port.
Proof. unfold free_local_port. pres_go. Qed.
Hint Resolve steady_free_local_port : pres.

Lemma steady_disconnect_guarded : steady disconnect_guarded.
Proof. unfold disconnect_guarded. pres_go. Qed.
Hint Resolve steady_disconnect_guarded : pres.

Lemma steady_disconnect : steady disconnect.
Proof. unfold disconnect. pres_go. Qed.
Hint Resolve steady_disconnect : pres.

Lemma steady_is_connected : steady is_connected.
Proof. unfold is_connected, tunnel_lost. pres_go. Qed.

Lemma steady_assert_server_reachable : steady assert_server_reachable.
Proof. unfold assert_server_reachable. pres_go. Qed.

Lemma steady_log_connection verb : steady (log_connection verb).
Proof. unfold log_connection. pres_go. Qed.

End Steady.

(** ** [disconnect] *)

Section DisconnectFacts.
Context {W : Type} `{!Protocol W} `{!Collaborators W}.
Implicit Types st : state W.

Lemma disconnect_unprepared st :
  prepared (self st) = false →
  disconnect st = (Return RNone, mkState (self st) (world st) (trace st ++ [CallDisconnect])).
Proof. intros H. unfold disconnect. cbv [bind emit ask ret]. simpl. by rewrite H. Qed.

(** A prepared [disconnect] is its [try] block run under the guard,
    followed by the [finally] clause. *)
Lemma disconnect_prepared st :
  is_prepared st →
  disconnect st =
    (let '(o, st1) := disconnect_guarded
        (mkState (set_disconnecting true (self st)) (world st) (trace st ++ [CallDisconnect])) in
     (match o with Return _ => Return RSelf | Raise e => Raise e end,
      mkState (set_disconnecting false (self st)) (world st1) (trace st1))).
Proof.
  intros H. unfold disconnect. cbv [bind emit ask ret update try_finally]. simpl.
  rewrite H. simpl.
  pose proof (steady_disconnect_guarded
    (mkState (set_disconnecting true (self st)) (world st) (trace st ++ [CallDisconnect])) H)
    as [_ Hsame].
  destruct (disconnect_guarded _) as [[[]|e] st1]; simpl in *;
    unfold same_instance in Hsame; simpl in Hsame; rewrite Hsame;
    by destruct (self st).
Qed.

Lemma disconnect_self st o st' :
  is_prepared st → disconnect st = (o, st') →
  self st' = set_disconnecting false (self st) ∧ (∀ r, o = Return r → r = RSelf).
Proof.
  intros H. rewrite disconnect_prepared by done.
  destruct (disconnect_guarded _) as [[[]|e] st1]; intros [= <- <-]; simpl;
    split; try done; by intros r [= <-].
Qed.

Lemma count_event_snoc (ev x : event) (t : list event) :
  count_event ev (t ++ [x]) = (count_event ev t + if decide (x = ev) then 1 else 0)%nat.
Proof.
  unfold count_event. rewrite filter_app, length_app.
  rewrite filter_cons, filter_nil. by destruct (decide (x = ev)).
Qed.

(** A prepared [disconnect] is entered once: it never calls itself. *)
Lemma disconnect_trace st o st' :
  is_prepared st → disconnect st = (o, st') →
  ∃ evs, trace st' = trace st ++ CallDisconnect :: evs
         ∧ Forall (λ ev, ev ≠ CallDisconnect) evs.
Proof.
  intros H. rewrite disconnect_prepared by done.
  assert (Hlog : preserves (λ _ : state W, True)
                   (extends_with (λ ev, ev ≠ CallDisconnect)) disconnect_guarded)
    by (apply logs_only_disconnect_guarded; done).
  destruct (Hlog (mkState (set_disconnecting true (self st)) (world st)
                          (trace st ++ [CallDisconnect])) Logic.I) as [_ (evs & Ht & Hall)].
  destruct (disconnect_guarded _) as [o1 st1]. intros [= <- <-]. simpl in *.
  exists evs. split; [|done]. by rewrite Ht, <- app_assoc.
Qed.

Lemma disconnect_starts st :
  ∃ evs, trace (disconnect st).2 = trace st ++ CallDisconnect :: evs.
Proof.
  destruct (prepared (self st)) eqn:Hp.
  - destruct (disconnect st) as [o st'] eqn:Hrun.
    destruct (disconnect_trace _ _ _ Hp Hrun) as (evs & Ht & _). by exists evs.
  - rewrite disconnect_unprepared by done. by exists [].
Qed.

Lemma count_event_none (ev : event) (evs : list event) :
  Forall (λ x, x ≠ ev) evs → count_event ev evs = 0%nat.
Proof.
  unfold count_event. induction 1 as [|x l Hx _ IH]; [done|].
  rewrite filter_cons. by rewrite decide_False.
Qed.

Lemma count_event_app (ev : event) (t1 t2 : list event) :
  count_event ev (t1 ++ t2) = (count_event ev t1 + count_event ev t2)%nat.
Proof. unfold count_event. by rewrite filter_app, length_app. Qed.

Lemma disconnect_count st o st' :
  is_prepared st → disconnect st = (o, st') →
  count_event CallDisconnect (trace st') = S (count_event CallDisconnect (trace st)).
Proof.
  intros H Hrun. destruct (disconnect_trace _ _ _ H Hrun) as (evs & -> & Hall).
  change (CallDisconnect :: evs) with ([CallDisconnect] ++ evs).
  rewrite !count_event_app, (count_event_none _ _ Hall).
  unfold count_event at 2. rewrite filter_cons, decide_True by done. simpl. lia.
Qed.


End DisconnectFacts.



(** ** The guard of triggered access *)

(** C4, at the failing input: the first read of [host] on a client whose
    host callable raises [AttributeError] returns the callable itself,
    with no error, and leaves [__getting] set; from then on no read
    prepares the instance. *)
Theorem getattr_attribute_error_leaves_getting_set :
  let run := getattr "host" (Sim.start Scenario.lazy_host_config Sim.idle) in
  run.1 = Return (VCallable 0)
  ∧ getting (self run.2) = true
  ∧ prepared (self run.2) = false
  ∧ should_prepare "host" (self run.2) = false.
Proof. vm_compute. auto. Qed.

(** ** What a triggered preparation leaves behind *)

Section Triggered.
Context {W : Type} `{!Protocol W} `{!Collaborators W}.
Implicit Types st : state W.

Local Abbreviation keeps_getting := (preserves (λ _ : state W, True) same_getting).

Lemma same_getting_refl st : same_getting st st.
Proof. done. Qed.
Lemma same_getting_trans st1 st2 st3 :
  same_getting st1 st2 → same_getting st2 st3 → same_getting st1 st3.
Proof. unfold same_getting. congruence. Qed.
Lemma keeps_getting_world st (w : W) :
  True → True ∧ same_getting st (mkState (self st) w (trace st)).
Proof. done. Qed.
Lemma keeps_getting_emit ev : keeps_getting (emit ev).
Proof. done. Qed.
Lemma keeps_getting_update (f : Duct → Duct) :
  (∀ d, getting (f d) = getting d) → keeps_getting (update f).
Proof. intros Hf st _. split; [done|]. apply Hf. Qed.
Lemma keeps_getting_read_attr key : keeps_getting (read_attr key).
Proof. intros st _. unfold read_attr. by destruct (_ !! _). Qed.

Hint Resolve same_getting_refl same_getting_trans keeps_getting_world : pres.
Hint Resolve preserves_ret preserves_raise preserves_ask preserves_extern : pres.
Hint Resolve keeps_getting_emit keeps_getting_read_attr : pres.
Hint Extern 1 (preserves _ _ (update _)) =>
  apply keeps_getting_update; intros []; reflexivity : pres.

Lemma keeps_getting_prepare_quiet : keeps_getting prepare_quiet.
Proof.
  unfold prepare_quiet, prepare_with, _prepare_with, assert_none_or, lookup_by_name,
    prepare_field, getattr_quiet, setattr_quiet, object_getattribute, object_setattr,
    host_getter, port_getter, username_getter, password_getter, store_attr, snapshot,
    as_remote, as_registry, to_int.
  pres_go.
Qed.

Lemma prepare_quiet_returns st st' :
  prepare_quiet st = (Return tt, st') → prepared (self st') = true.
Proof.
  unfold prepare_quiet, prepare_with. cbv [bind ask]. simpl.
  destruct (prepared (self st)) eqn:Hp; simpl.
  - by intros [= <-].
  - destruct (_prepare_with _ _ _) as [[[]|e] st1]; [|done].
    by intros [= <-].
Qed.

(** After the guarded block of [__getattribute__] has run on a trigger
    name without raising, no later read prepares. *)
Lemma trigger_leaves_quiet key st st0 :
  key ∈ prepare_triggers (self st) →
  trigger key st = (Return tt, st0) → quiet st0.
Proof.
  intros Hkey. unfold trigger.
  destruct (should_prepare key (self st)) eqn:Hsp.
  - unfold bind. simpl.
    pose proof (keeps_getting_prepare_quiet
      (mkState (set_getting true (self st)) (world st) (trace st)) Logic.I) as [_ Hg].
    pose proof (prepare_quiet_returns
      (mkState (set_getting true (self st)) (world st) (trace st))) as Hp.
    destruct (prepare_quiet _) as [[[]|e] st1]; simpl in *.
    + intros [= <-]. unfold quiet. simpl. by rewrite (Hp st1 eq_refl).
    + unfold same_getting in Hg. simpl in Hg.
      destruct e; intros [= <-]. unfold quiet. rewrite Hg.
      by destruct (prepared _).
  - intros [= <-]. unfold should_prepare in Hsp. unfold quiet.
    rewrite bool_decide_eq_true_2 in Hsp by done.
    destruct (prepared _), (getting _), (disconnecting _); done.
Qed.

End Triggered.

(** ** Preparation leaves the credentials alone *)

Section PreparationOfCredentials.
Context {W : Type} `{!Protocol W} `{!Collaborators W}.
Implicit Types st : state W.
Variable flag : string.
Variable nm : value.
Variable c : gmap string string.
Hypothesis flag_is : flag = "_username" ∨ flag = "_password".

Local Abbreviation kept :=
  (preserves (W := W) (awaiting_credential flag nm c) (extends_with no_prompt)).

Lemma kept_world st (w : W) :
  awaiting_credential flag nm c st →
  awaiting_credential flag nm c (mkState (self st) w (trace st))
  ∧ extends_with no_prompt st (mkState (self st) w (trace st)).
Proof. intros H. split; [exact H|]. exists []. simpl. by rewrite app_nil_r. Qed.

Lemma kept_read_attr key : kept (read_attr key).
Proof.
  intros st H. unfold read_attr. destruct (_ !! _); simpl; split; try done;
    apply extends_with_refl.
Qed.

Lemma kept_store_attr key v : key ≠ flag → key ≠ "name" → kept (store_attr key v).
Proof.
  intros Hk Hn st (Hpf & Hf & Hname & Hc). split.
  - unfold awaiting_credential. simpl. by rewrite !lookup_insert_ne.
  - exists []. simpl. by rewrite app_nil_r.
Qed.

Lemma kept_snapshot key v : kept (snapshot key v).
Proof. intros st H. split; [exact H|]. exists []. simpl. by rewrite app_nil_r. Qed.

Lemma kept_set_prepared b : kept (update (set_prepared b)).
Proof. intros st H. split; [exact H|]. exists []. simpl. by rewrite app_nil_r. Qed.

Lemma kept_emit_prepare : kept (emit CallPrepareHook).
Proof.
  intros st H. split; [exact H|]. exists [CallPrepareHook]. split; [done|].
  apply Forall_singleton. by intros masked.
Qed.

Hint Resolve extends_with_refl extends_with_trans kept_world : pres.
Hint Resolve preserves_ret preserves_raise preserves_ask preserves_extern : pres.
Hint Resolve kept_read_attr kept_snapshot kept_set_prepared kept_emit_prepare : pres.
Hint Extern 1 (preserves _ _ (store_attr _ _)) =>
  apply kept_store_attr;
  first [ assumption
        | discriminate
        | let Hq := fresh in destruct flag_is as [Hq|Hq]; rewrite Hq; discriminate ] : pres.

(** One round of the loop over the constructor's [prepared_fields]. *)
Lemma kept_prepare_field field :
  field ∈ ["_host"; "_port"; "_username"; "_password"] →
  kept (prepare_field getattr_quiet setattr_quiet field).
Proof.
  intros Hin. destruct (decide (field = flag)) as [->|Hne].
  - intros st H. pose proof H as (_ & Hf & _).
    assert (Hread : getattr_quiet flag st = (Return (VBool true), st)).
    { destruct flag_is as [Heq|Heq]; rewrite Heq in *;
        unfold getattr_quiet, object_getattribute, read_attr; simpl; by rewrite Hf. }
    unfold prepare_field, bind. rewrite Hread. simpl. split; [exact H|apply extends_with_refl].
  - repeat (apply elem_of_cons in Hin as [->|Hin]); [| | | |by apply elem_of_nil in Hin];
      unfold prepare_field, getattr_quiet, setattr_quiet, object_getattribute, object_setattr;
      simpl; pres_go.
Qed.

Lemma kept_prepare_quiet : kept prepare_quiet.
Proof.
  assert (Hrest : kept (h <- getattr_quiet "_host";;
    when (is_list h) (
      d <- ask;;
      when (negb (dict_has "_host" (prepreparation_values d))) (
        h1 <- getattr_quiet "_host";;
        snapshot "_host" h1);;
      h2 <- getattr_quiet "_host";;
      p <- getattr_quiet "_port";;
      match h2 with
      | VList hosts =>
          chosen <- extern (naive_load_balancer hosts p);;
          setattr_quiet "_host" chosen
      | _ => raise (TypeError "naive_load_balancer")
      end);;
    h3 <- getattr_quiet "_host";;
    when (negb (is_none h3)) (
      h4 <- getattr_quiet "_host";;
      match h4 with
      | VStr s =>
          when (host_port_match s) (
            h5 <- getattr_quiet "_host";;
            match h5 with
            | VStr s5 =>
                match split_colon s5 with
                | [a; b] => setattr_quiet "_host" (VStr a);; setattr_quiet "_port" (VStr b)
                | _ => raise (ValueError "too many values to unpack")
                end
            | _ => raise (AttributeError "split")
            end)
      | _ => raise (TypeError "expected string or bytes-like object")
      end);;
    p1 <- getattr_quiet "_port";;
    newport <- (if truthy p1 then p2 <- getattr_quiet "_port";; to_int p2 else ret VNone);;
    setattr_quiet "port" newport)%duct).
  { unfold getattr_quiet, setattr_quiet, object_getattribute, object_setattr, to_int;
      simpl; pres_go. }
  unfold prepare_quiet, prepare_with.
  apply preserves_bind; [apply extends_with_trans|apply preserves_ask, extends_with_refl|].
  intros d. destruct (negb (prepared d)); [|apply preserves_ret, extends_with_refl].
  apply preserves_bind; [apply extends_with_trans| |intros _; apply kept_set_prepared].
  unfold _prepare_with.
  do 6 (apply preserves_bind;
        [ apply extends_with_trans
        | unfold assert_none_or, lookup_by_name, getattr_quiet, setattr_quiet,
            object_getattribute, object_setattr, as_registry; simpl; pres_go
        | intros ? ]).
  apply preserves_ask_bind. intros st H.
  pose proof H as (Hpf & _). rewrite Hpf.
  refine (preserves_bind _ _ (extends_with_trans _) _ _ _ (λ _, Hrest) st H).
  apply (preserves_for_each_in _ _ (extends_with_refl _) (extends_with_trans _)).
  intros x Hx. by apply kept_prepare_field.
Qed.

(** The guarded block of [__getattribute__] as a whole. *)
Lemma kept_trigger key : kept (trigger key).
Proof.
  intros st H. unfold trigger.
  destruct (should_prepare key (self st)); [|split; [exact H|apply extends_with_refl]].
  unfold bind. simpl.
  destruct (kept_prepare_quiet
              (mkState (set_getting true (self st)) (world st) (trace st)) H) as [HI Hext].
  destruct (prepare_quiet _) as [[[]|e] st1]; simpl in *.
  - split; [exact HI|exact Hext].
  - destruct e; simpl; split; first [exact HI|exact Hext].
Qed.

End PreparationOfCredentials.

(** ** Credentials *)

Section Credentials.
Context {W : Type} `{!Protocol W} `{!Collaborators W}.
Implicit Types st : state W.

Lemma getattr_after_trigger key st st0 :
  trigger key st = (Return tt, st0) → quiet st0 → getattr key st = getattr_quiet key st0.
Proof.
  intros Ht Hq. rewrite <- (getattr_quiet_state key st0 Hq).
  unfold getattr, bind. by rewrite Ht, (trigger_quiet key st0 Hq).
Qed.

Lemma username_cached st s :
  quiet st →
  attrs (self st) !! "_username" = Some (VBool true) →
  cached_auth (self st) !! "username" = Some s →
  getattr "username" st = (Return (VStr s), st).
Proof.
  intros Hq Hu Hc. rewrite getattr_quiet_state by done.
  change (getattr_quiet "username") with (username_getter (W := W) read_attr).
  unfold username_getter. cbv [bind read_attr ask ret]. rewrite Hu.
  rewrite bool_decide_eq_true_2 by done. by rewrite Hc.
Qed.

Lemma password_cached st s :
  quiet st →
  attrs (self st) !! "_password" = Some (VBool true) →
  cached_auth (self st) !! "password" = Some s →
  getattr "password" st = (Return (VStr s), st).
Proof.
  intros Hq Hu Hc. rewrite getattr_quiet_state by done.
  change (getattr_quiet "password") with (password_getter (W := W) read_attr).
  unfold password_getter. cbv [bind read_attr ask ret]. rewrite Hu.
  rewrite bool_decide_eq_true_2 by done. by rewrite Hc.
Qed.

Lemma read_times_fixed key (v : value) st (n : nat) :
  getattr key st = (Return v, st) →
  read_times n key st = (Return (replicate n v), st).
Proof.
  intros Hread. induction n as [|n IH]; simpl; [done|].
  unfold bind. rewrite Hread, IH. done.
Qed.

Lemma count_prompts_app masked (t : list event) (ev : event) :
  count_prompts masked (t ++ [ev])
  = (count_prompts masked t + if is_prompt masked ev then 1 else 0)%nat.
Proof.
  unfold count_prompts. rewrite List.filter_app, length_app. simpl.
  by destruct (is_prompt masked ev).
Qed.

(** Reads of a credential whose flag is [True] in the state [st0] that
    the preparation step of the first read has left. *)
Lemma credential_reads st st0 (nm : value) (s : string) (w1 : W) (later : nat) :
  (let msg := "Enter username for '" +:+ fmt nm +:+ "':" in
   let st1 := mkState (set_cached_auth (<["username" := s]> (cached_auth (self st0))) (self st0))
                      w1 (trace st0 ++ [Prompt false msg]) in
   "username" ∈ connection_fields (self st) →
   trigger "username" st = (Return tt, st0) →
   attrs (self st0) !! "_username" = Some (VBool true) →
   cached_auth (self st0) !! "username" = None →
   attrs (self st0) !! "name" = Some nm →
   input msg (world st0) = (Return s, w1) →
   read_times (S later) "username" st = (Return (replicate (S later) (VStr s)), st1)
   ∧ cached_auth (self st1) !! "username" = Some s
   ∧ count_prompts false (trace st1) = S (count_prompts false (trace st0)))
  ∧
  (let msg := "Enter password for '" +:+ fmt nm +:+ "':" in
   let st1 := mkState (set_cached_auth (<["password" := s]> (cached_auth (self st0))) (self st0))
                      w1 (trace st0 ++ [Prompt true msg]) in
   "password" ∈ connection_fields (self st) →
   trigger "password" st = (Return tt, st0) →
   attrs (self st0) !! "_password" = Some (VBool true) →
   cached_auth (self st0) !! "password" = None →
   attrs (self st0) !! "name" = Some nm →
   getpass msg (world st0) = (Return s, w1) →
   read_times (S later) "password" st = (Return (replicate (S later) (VStr s)), st1)
   ∧ cached_auth (self st1) !! "password" = Some s
   ∧ count_prompts true (trace st1) = S (count_prompts true (trace st0))).
Proof.
  split; intros msg st1 Hfield Ht Hu Hc Hn Hin.
  - assert (Hq : quiet st0).
    { eapply trigger_leaves_quiet; [|exact Ht]. unfold prepare_triggers. set_solver. }
    assert (Hfirst : getattr "username" st = (Return (VStr s), st1)).
    { rewrite (getattr_after_trigger _ _ _ Ht Hq).
      change (getattr_quiet "username") with (username_getter (W := W) read_attr).
      unfold username_getter. cbv [bind read_attr ask ret emit extern update]. rewrite Hu.
      rewrite bool_decide_eq_true_2 by done. rewrite Hc, Hn. simpl.
      fold msg. rewrite Hin. reflexivity. }
    assert (Hc1 : cached_auth (self st1) !! "username" = Some s).
    { subst st1. simpl. destruct (self st0). simpl. by rewrite lookup_insert_eq. }
    split; [|split; [exact Hc1|]].
    + change (read_times (S later) "username" st)
        with (bind (getattr "username")
                (λ v, bind (read_times later "username") (λ vs, ret (v :: vs))) st).
      unfold bind at 1. rewrite Hfirst. unfold bind.
      rewrite (read_times_fixed "username" (VStr s) st1 later); [done|].
      apply username_cached; [|by subst st1; destruct (self st0)|exact Hc1].
      subst st1. unfold quiet in *. simpl. by destruct (self st0).
    + subst st1. simpl. rewrite count_prompts_app. simpl. lia.
  - assert (Hq : quiet st0).
    { eapply trigger_leaves_quiet; [|exact Ht]. unfold prepare_triggers. set_solver. }
    assert (Hfirst : getattr "password" st = (Return (VStr s), st1)).
    { rewrite (getattr_after_trigger _ _ _ Ht Hq).
      change (getattr_quiet "password") with (password_getter (W := W) read_attr).
      unfold password_getter. cbv [bind read_attr ask ret emit extern update]. rewrite Hu.
      rewrite bool_decide_eq_true_2 by done. rewrite Hc, Hn. simpl.
      fold msg. rewrite Hin. reflexivity. }
    assert (Hc1 : cached_auth (self st1) !! "password" = Some s).
    { subst st1. simpl. destruct (self st0). simpl. by rewrite lookup_insert_eq. }
    split; [|split; [exact Hc1|]].
    + change (read_times (S later) "password" st)
        with (bind (getattr "password")
                (λ v, bind (read_times later "password") (λ vs, ret (v :: vs))) st).
      unfold bind at 1. rewrite Hfirst. unfold bind.
      rewrite (read_times_fixed "password" (VStr s) st1 later); [done|].
      apply password_cached; [|by subst st1; destruct (self st0)|exact Hc1].
      subst st1. unfold quiet in *. simpl. by destruct (self st0).
    + subst st1. simpl. rewrite count_prompts_app. simpl. lia.
Qed.


Lemma count_prompts_kept masked st st' :
  extends_with no_prompt st st' →
  count_prompts masked (trace st') = count_prompts masked (trace st).
Proof.
  intros (evs & -> & Hall). unfold count_prompts. rewrite List.filter_app, length_app.
  assert (Hnil : List.filter (is_prompt masked) evs = []); [|by rewrite Hnil; simpl; lia].
  induction Hall as [|x l Hx _ IH]; [done|]. simpl. by rewrite (Hx masked).
Qed.

(** C9.  Take a client as its constructor leaves it ([prepared_fields]
    untouched) with [_username] set to [True] and nothing cached.  When
    the preparation step of the first read of [username] returns, that
    read shows the visible prompt and caches what was typed; it and every
    read after it return the typed value, and the state stays as the
    first read left it: the prompt has been shown exactly once.  The same
    holds for [password] with the masked prompt. *)
Theorem credentials_prompt_once st st0 (nm : value) (s : string) (w1 : W) (later : nat) :
  prepared_fields (self st) = ["_host"; "_port"; "_username"; "_password"] →
  attrs (self st) !! "name" = Some nm →
  (let msg := "Enter username for '" +:+ fmt nm +:+ "':" in
   let st1 := mkState (set_cached_auth (<["username" := s]> (cached_auth (self st))) (self st0))
                      w1 (trace st0 ++ [Prompt false msg]) in
   "username" ∈ connection_fields (self st) →
   attrs (self st) !! "_username" = Some (VBool true) →
   cached_auth (self st) !! "username" = None →
   trigger "username" st = (Return tt, st0) →
   input msg (world st0) = (Return s, w1) →
   read_times (S later) "username" st = (Return (replicate (S later) (VStr s)), st1)
   ∧ cached_auth (self st1) !! "username" = Some s
   ∧ count_prompts false (trace st1) = S (count_prompts false (trace st)))
  ∧
  (let msg := "Enter password for '" +:+ fmt nm +:+ "':" in
   let st1 := mkState (set_cached_auth (<["password" := s]> (cached_auth (self st))) (self st0))
                      w1 (trace st0 ++ [Prompt true msg]) in
   "password" ∈ connection_fields (self st) →
   attrs (self st) !! "_password" = Some (VBool true) →
   cached_auth (self st) !! "password" = None →
   trigger "password" st = (Return tt, st0) →
   getpass msg (world st0) = (Return s, w1) →
   read_times (S later) "password" st = (Return (replicate (S later) (VStr s)), st1)
   ∧ cached_auth (self st1) !! "password" = Some s
   ∧ count_prompts true (trace st1) = S (count_prompts true (trace st))).
Proof.
  intros Hpf Hn. split; intros msg st1 Hfield Hu Hc Ht Hin.
  - destruct (kept_trigger "_username" nm (cached_auth (self st)) (or_introl eq_refl)
                "username" st) as [(_ & Hu0 & Hn0 & Hc0) Hext]; [done|].
    rewrite Ht in Hu0, Hn0, Hc0, Hext. simpl in Hu0, Hn0, Hc0, Hext.
    rewrite <- Hc0 in Hc.
    destruct (proj1 (credential_reads st st0 nm s w1 later) Hfield Ht Hu0 Hc Hn0 Hin)
      as (Hreads & Hcached & Hcount).
    subst st1. rewrite <- Hc0.
    split; [exact Hreads|]. split; [exact Hcached|].
    rewrite <- (count_prompts_kept false _ _ Hext). exact Hcount.
  - destruct (kept_trigger "_password" nm (cached_auth (self st)) (or_intror eq_refl)
                "password" st) as [(_ & Hu0 & Hn0 & Hc0) Hext]; [done|].
    rewrite Ht in Hu0, Hn0, Hc0, Hext. simpl in Hu0, Hn0, Hc0, Hext.
    rewrite <- Hc0 in Hc.
    destruct (proj2 (credential_reads st st0 nm s w1 later) Hfield Ht Hu0 Hc Hn0 Hin)
      as (Hreads & Hcached & Hcount).
    subst st1. rewrite <- Hc0.
    split; [exact Hreads|]. split; [exact Hcached|].
    rewrite <- (count_prompts_kept true _ _ Hext). exact Hcount.
Qed.

End Credentials.

(** C9, witness: a client built with [username=True], fresh from its
    constructor; the user types "alice" at the first prompt; three reads
    give "alice" three times. *)
Lemma credentials_prompt_once_witness :
  let st := Sim.start Scenario.prompting_config Scenario.typing in
  let st0 := (trigger "username" st).2 in
  let st1 := mkState (set_cached_auth (<["username" := "alice"]> (cached_auth (self st)))
                                      (self st0))
                     (Sim.with_answers ["s3cret"; "mallory"] Scenario.typing)
                     (trace st0 ++ [Prompt false "Enter username for 'PostgresClient':"]) in
  read_times 3 "username" st = (Return [VStr "alice"; VStr "alice"; VStr "alice"], st1)
  ∧ cached_auth (self st1) !! "username" = Some "alice"
  ∧ count_prompts false (trace st1) = S (count_prompts false (trace st)).
Proof.
  intros st st0 st1.
  assert (H1 : prepared_fields (self st) = ["_host"; "_port"; "_username"; "_password"])
    by reflexivity.
  assert (H2 : attrs (self st) !! "name" = Some (VStr "PostgresClient"))
    by (vm_compute; reflexivity).
  assert (H3 : "username" ∈ connection_fields (self st))
    by (apply (bool_decide_unpack _); vm_compute; exact I).
  assert (H4 : attrs (self st) !! "_username" = Some (VBool true))
    by (vm_compute; reflexivity).
  assert (H5 : cached_auth (self st) !! "username" = None) by (vm_compute; reflexivity).
  assert (H6 : trigger "username" st = (Return tt, st0)) by (vm_compute; reflexivity).
  assert (H7 : input "Enter username for 'PostgresClient':" (world st0)
               = (Return "alice", Sim.with_answers ["s3cret"; "mallory"] Scenario.typing))
    by (vm_compute; reflexivity).
  exact (proj1 (credentials_prompt_once st st0 (VStr "PostgresClient") "alice"
                  (Sim.with_answers ["s3cret"; "mallory"] Scenario.typing) 2 H1 H2)
           H3 H4 H5 H6 H7).
Defined.

(** ** The reachability check *)

Section Reachability.
Context {W : Type} `{!Protocol W} `{!Collaborators W}.
Implicit Types st : state W.

#[local] Arguments getattr : simpl never.
#[local] Arguments disconnect : simpl never.

Lemma local_config_flag d r h p b :
  local_config d r h p → local_config (set_disconnecting b d) r h p.
Proof. by destruct d. Qed.

Lemma local_read_host d (w : W) t r h p :
  local_config d r h p → getattr "host" (mkState d w t) = (Return h, mkState d w t).
Proof.
  intros (Hp & Hr & Ht & Hh & _). rewrite getattr_prepared by done.
  change (getattr_quiet "host") with (host_getter (W := W) read_attr).
  unfold host_getter. cbv [bind read_attr ret]. simpl.
  rewrite Hr. simpl. rewrite Ht. simpl. by rewrite Hh.
Qed.

Lemma local_read_port d (w : W) t r h p :
  local_config d r h p → getattr "port" (mkState d w t) = (Return p, mkState d w t).
Proof.
  intros (Hp & Hr & Ht & _ & Hport). rewrite getattr_prepared by done.
  change (getattr_quiet "port") with (port_getter (W := W) read_attr).
  unfold port_getter. cbv [bind read_attr ret]. simpl.
  rewrite Hr. simpl. rewrite Ht. simpl. by rewrite Hport.
Qed.

Lemma local_read_remote d (w : W) t r h p :
  local_config d r h p → getattr "remote" (mkState d w t) = (Return r, mkState d w t).
Proof.
  intros (Hp & Hr & _). rewrite getattr_prepared by done.
  change (getattr_quiet "remote") with (read_attr (W := W) "remote").
  unfold read_attr. simpl. by rewrite Hr.
Qed.

Lemma local_read_raw_host d (w : W) t r h p :
  local_config d r h p → getattr "_host" (mkState d w t) = (Return h, mkState d w t).
Proof.
  intros (Hp & _ & _ & Hh & _). rewrite getattr_plain_name by done.
  unfold read_attr. simpl. by rewrite Hh.
Qed.

Lemma local_read_raw_port d (w : W) t r h p :
  local_config d r h p → getattr "_port" (mkState d w t) = (Return p, mkState d w t).
Proof.
  intros (Hp & _ & _ & _ & Hport). rewrite getattr_plain_name by done.
  unfold read_attr. simpl. by rewrite Hport.
Qed.

Ltac local_reads H :=
  repeat first
    [ rewrite (local_read_host _ _ _ _ _ _ H)
    | rewrite (local_read_raw_host _ _ _ _ _ _ H)
    | rewrite (local_read_raw_port _ _ _ _ _ _ H)
    | rewrite (local_read_port _ _ _ _ _ _ H)
    | rewrite (local_read_remote _ _ _ _ _ _ H)
    | progress cbv beta iota
    | progress simpl ].

(** Both unset: nothing is probed and the state is untouched. *)
Lemma reachable_skipped st r :
  local_config (self st) r VNone VNone →
  assert_server_reachable st = (Return tt, st).
Proof.
  destruct st as [d w t]. simpl. intros H.
  unfold assert_server_reachable. cbv [bind ret]. local_reads H. reflexivity.
Qed.

Lemma not_none_is_none (v : value) : v ≠ VNone → is_none v = false.
Proof. by destruct v. Qed.

Lemma reachable_no_host st r p :
  local_config (self st) r VNone p → p ≠ VNone →
  assert_server_reachable st
  = (Raise (ValueError "Port specified but no host provided."), st).
Proof.
  destruct st as [d w t]. simpl. intros H Hp.
  apply not_none_is_none in Hp.
  unfold assert_server_reachable. cbv [bind ret when raise].
  repeat first [ progress local_reads H | rewrite Hp ].
  reflexivity.
Qed.

Lemma reachable_no_port st r h :
  local_config (self st) r h VNone → h ≠ VNone →
  assert_server_reachable st
  = (Raise (ValueError "Host specified but no port specified."), st).
Proof.
  destruct st as [d w t]. simpl. intros H Hh.
  apply not_none_is_none in Hh.
  unfold assert_server_reachable. cbv [bind ret when raise].
  repeat first [ progress local_reads H | rewrite Hh ].
  reflexivity.
Qed.

Lemma reachable_unbound st r h p (w1 : W) (r' : retval) st2 :
  local_config (self st) r h p → h ≠ VNone → p ≠ VNone →
  is_port_bound h p (world st) = (Return false, w1) →
  disconnect (mkState (self st) w1 (trace st)) = (Return r', st2) →
  assert_server_reachable st
  = (Raise (DuctServerUnreachable (local_unreachable_message h p)), st2).
Proof.
  destruct st as [d w t]. simpl. intros H Hh Hp Hbound Hdisc.
  assert (His : is_prepared (mkState d w1 t)) by apply H.
  destruct (disconnect_self _ _ _ His Hdisc) as [Hself _]. simpl in Hself.
  destruct st2 as [d2 w2 t2]. simpl in Hself. subst d2.
  pose proof (local_config_flag _ _ _ _ false H) as H2.
  pose proof H as (_ & _ & Htr & _).
  apply not_none_is_none in Hh, Hp.
  unfold assert_server_reachable. cbv [bind ret when raise extern].
  repeat first
    [ progress local_reads H
    | progress local_reads H2
    | rewrite Hh | rewrite Hp | rewrite Hbound | rewrite Htr | rewrite Hdisc ].
  reflexivity.
Qed.

End Reachability.

Section ReachabilityOfConnect.
Context {W : Type} `{!Protocol W} `{!Collaborators W}.
Implicit Types st : state W.

#[local] Arguments getattr : simpl never.
#[local] Arguments disconnect : simpl never.
#[local] Arguments is_connected : simpl never.
#[local] Arguments assert_server_reachable : simpl never.

Lemma log_connecting_local st r h p :
  local_config (self st) r h p →
  log_connection "Connecting" st
  = (Return tt, mkState (self st) (world st) (connecting_logged h p (trace st))).
Proof.
  destruct st as [d w t]. simpl. intros H.
  pose proof H as (_ & _ & Htr & _).
  unfold log_connection, connecting_logged. cbv [bind ret when emit].
  rewrite (local_read_host _ _ _ _ _ _ H). cbv beta iota.
  destruct (truthy h); [|done].
  rewrite (local_read_raw_host _ _ _ _ _ _ H). cbv beta iota.
  rewrite (local_read_raw_port _ _ _ _ _ _ H). cbv beta iota.
  rewrite (local_read_remote _ _ _ _ _ _ H). cbv beta iota.
  rewrite Htr. reflexivity.
Qed.

(** The first line of [connect] reads [host]; what that read prepares is
    what the rest of [connect] runs on. *)
Lemma connect_after_trigger st st0 :
  trigger "host" st = (Return tt, st0) → quiet st0 → connect st = connect st0.
Proof.
  intros Ht Hq.
  assert (Hlog : log_connection "Connecting" st = log_connection "Connecting" st0).
  { unfold log_connection, bind.
    by rewrite (getattr_after_trigger _ _ _ Ht Hq), (getattr_quiet_state "host" st0 Hq). }
  unfold connect. unfold bind at 1. unfold bind at 5. by rewrite Hlog.
Qed.

(** C6.  For a client with no tunnel whose effective host and port, once
    the first read of [connect] has prepared it, are [h] and [p]: with
    both [None], [connect] goes on to the liveness test without probing
    anything; with exactly one of them [None] it raises the [ValueError]
    of that case; with both set and the local endpoint not bound, it
    calls [disconnect] and then raises [DuctServerUnreachable] with a
    message that names [h:p]. *)
Theorem connect_reachability_check st st0 (r h p : value) :
  trigger "host" st = (Return tt, st0) →
  local_config (self st0) r h p →
  let st_l := mkState (self st0) (world st0) (connecting_logged h p (trace st0)) in
  (h = VNone → p = VNone →
     connect st
     = (c <- is_connected;;
        when (negb c) guarded_connect;;
        log_connection "Connected";;
        ret RSelf) st0)
  ∧ (h = VNone → p ≠ VNone →
       connect st = (Raise (ValueError "Port specified but no host provided."), st0))
  ∧ (h ≠ VNone → p = VNone →
       connect st = (Raise (ValueError "Host specified but no port specified."), st_l))
  ∧ (h ≠ VNone → p ≠ VNone →
       ∀ (w1 : W) (r' : retval) st2,
         is_port_bound h p (world st0) = (Return false, w1) →
         disconnect (mkState (self st0) w1 (trace st_l)) = (Return r', st2) →
         connect st = (Raise (DuctServerUnreachable (local_unreachable_message h p)), st2)
         ∧ count_event CallDisconnect (trace st2)
           = S (count_event CallDisconnect (trace st0))).
Proof.
  intros Htrig H st_l.
  rewrite (connect_after_trigger st st0 Htrig) by (apply prepared_quiet, H).
  assert (Hlog := log_connecting_local st0 r h p H). fold st_l in Hlog.
  assert (Hl : local_config (self st_l) r h p) by exact H.
  split; [|split; [|split]].
  - intros -> ->. unfold connect. unfold bind at 1. rewrite Hlog.
    unfold bind at 1. rewrite (reachable_skipped st_l r Hl).
    subst st_l. unfold connecting_logged. simpl. by destruct st0.
  - intros -> Hp. unfold connect. unfold bind at 1. rewrite Hlog.
    unfold bind at 1. rewrite (reachable_no_host st_l r p Hl Hp).
    subst st_l. unfold connecting_logged. simpl. by destruct st0.
  - intros Hh ->. unfold connect. unfold bind at 1. rewrite Hlog.
    unfold bind at 1. by rewrite (reachable_no_port st_l r h Hl Hh).
  - intros Hh Hp w1 r' st2 Hbound Hdisc. split.
    + unfold connect. unfold bind at 1. rewrite Hlog.
      unfold bind at 1.
      by rewrite (reachable_unbound st_l r h p w1 r' st2 Hl Hh Hp Hbound Hdisc).
    + assert (His : is_prepared (mkState (self st0) w1 (trace st_l))) by apply H.
      rewrite (disconnect_count _ _ _ His Hdisc). simpl.
      unfold connecting_logged. destruct (truthy h); [|done].
      rewrite count_event_snoc. rewrite decide_False by done. lia.
Qed.

End ReachabilityOfConnect.

(** ** Liveness *)

Section ReadsOnly.
Context {W : Type} `{!Protocol W} `{!Collaborators W}.
Implicit Types st : state W.

Local Abbreviation reads_only := (preserves (W := W) is_prepared untouched).

Lemma untouched_refl st : untouched st st.
Proof. done. Qed.
Lemma untouched_trans st1 st2 st3 : untouched st1 st2 → untouched st2 st3 → untouched st1 st3.
Proof. unfold untouched. intros [-> ->] [-> ->]. done. Qed.
Lemma untouched_world st (w : W) :
  is_prepared st →
  is_prepared (mkState (self st) w (trace st)) ∧ untouched st (mkState (self st) w (trace st)).
Proof. done. Qed.
Lemma reads_only_read_attr key : reads_only (read_attr key).
Proof. intros st H. unfold read_attr. by destruct (_ !! _). Qed.
Lemma reads_only_as_remote v : reads_only (as_remote v).
Proof. by destruct v. Qed.

Hint Resolve untouched_refl untouched_trans untouched_world : pres.
Hint Resolve preserves_ret preserves_raise preserves_ask preserves_extern : pres.
Hint Resolve reads_only_read_attr reads_only_as_remote : pres.

Lemma reads_only_by_quiet key : reads_only (getattr_quiet key) → reads_only (getattr key).
Proof. intros Hq st H. rewrite getattr_prepared by done. by apply Hq. Qed.

Lemma reads_only_getattr_host : reads_only (getattr "host").
Proof.
  apply reads_only_by_quiet.
  change (getattr_quiet "host") with (host_getter (W := W) read_attr).
  unfold host_getter. pres_go.
Qed.
Lemma reads_only_getattr_port : reads_only (getattr "port").
Proof.
  apply reads_only_by_quiet.
  change (getattr_quiet "port") with (port_getter (W := W) read_attr).
  unfold port_getter. pres_go.
Qed.
Lemma reads_only_getattr_remote : reads_only (getattr "remote").
Proof. apply reads_only_by_quiet, reads_only_read_attr. Qed.
Lemma reads_only_getattr_raw_host : reads_only (getattr "_host").
Proof. apply reads_only_by_quiet, reads_only_read_attr. Qed.
Lemma reads_only_getattr_raw_port : reads_only (getattr "_port").
Proof. apply reads_only_by_quiet, reads_only_read_attr. Qed.

(** Running past a step that only reads. *)
Lemma bind_reads_only {A B} (m : M W A) (k : A → M W B) st (o : outcome B) st' :
  reads_only m → is_prepared st → bind m k st = (o, st') →
  (∃ a st1, is_prepared st1 ∧ untouched st st1 ∧ k a st1 = (o, st'))
  ∨ (untouched st st' ∧ ∃ e, o = Raise e).
Proof.
  intros Hm Hp Hrun. destruct (Hm st Hp) as [Hp1 Hu].
  apply bind_inv in Hrun as [(a & st1 & Hm1 & Hk)|(e & Hm1 & ->)];
    rewrite Hm1 in Hp1, Hu; simpl in *; [left|right]; eauto.
Qed.

(** When the tunnel branch lets [is_connected] go on, nothing was
    touched: the implicit [disconnect] only ever precedes [return False]. *)
Lemma tunnel_lost_false st st1 :
  is_prepared st → tunnel_lost st = (Return false, st1) →
  is_prepared st1 ∧ untouched st st1.
Proof.
  intros Hp Hrun. unfold tunnel_lost in Hrun.
  apply (bind_reads_only _ _ _ _ _ reads_only_getattr_remote Hp) in Hrun
    as [(r & s1 & Hp1 & Hu1 & Hrun)|[_ [e ?]]]; [|done].
  destruct (truthy r).
  2:{ injection Hrun as <-. done. }
  apply (bind_reads_only _ _ _ _ _ reads_only_getattr_remote Hp1) in Hrun
    as [(r1 & s2 & Hp2 & Hu2 & Hrun)|[_ [e ?]]]; [|done].
  apply (bind_reads_only _ _ _ _ _ (reads_only_as_remote r1) Hp2) in Hrun
    as [(rc & s3 & Hp3 & Hu3 & Hrun)|[_ [e ?]]]; [|done].
  apply (bind_reads_only _ _ _ _ _ reads_only_getattr_raw_host Hp3) in Hrun
    as [(h & s4 & Hp4 & Hu4 & Hrun)|[_ [e ?]]]; [|done].
  apply (bind_reads_only _ _ _ _ _ reads_only_getattr_raw_port Hp4) in Hrun
    as [(p & s5 & Hp5 & Hu5 & Hrun)|[_ [e ?]]]; [|done].
  apply (bind_reads_only _ _ _ _ _
           (preserves_extern _ _ untouched_world _) Hp5) in Hrun
    as [(fwd & s6 & Hp6 & Hu6 & Hrun)|[_ [e ?]]]; [|done].
  destruct fwd; simpl in Hrun; [|done].
  apply (bind_reads_only _ _ _ _ _ reads_only_getattr_host Hp6) in Hrun
    as [(h1 & s7 & Hp7 & Hu7 & Hrun)|[_ [e ?]]]; [|done].
  apply (bind_reads_only _ _ _ _ _ reads_only_getattr_port Hp7) in Hrun
    as [(p1 & s8 & Hp8 & Hu8 & Hrun)|[_ [e ?]]]; [|done].
  apply (bind_reads_only _ _ _ _ _
           (preserves_extern _ _ untouched_world _) Hp8) in Hrun
    as [(bound & s9 & Hp9 & Hu9 & Hrun)|[_ [e ?]]]; [|done].
  destruct bound; simpl in Hrun.
  - injection Hrun as <-. split; [done|].
    repeat (eapply untouched_trans; [eassumption|]). apply untouched_refl.
  - apply bind_inv in Hrun as [(? & ? & _ & Hret)|(? & _ & ?)]; done.
Qed.

(** [is_connected] on a prepared instance, when it answers [True]: the
    instance is untouched and the protocol's hook was consulted once. *)
Lemma is_connected_true st st1 :
  is_prepared st → is_connected st = (Return true, st1) →
  self st1 = self st ∧ trace st1 = trace st ++ [CallIsConnectedHook].
Proof.
  intros Hp Hrun. unfold is_connected in Hrun.
  unfold bind at 1 in Hrun. simpl in Hrun. rewrite Hp in Hrun. simpl in Hrun.
  apply bind_inv in Hrun as [(lost & s1 & Hlost & Hrun)|(? & _ & ?)]; [|done].
  destruct lost; [done|].
  apply (tunnel_lost_false _ _ Hp) in Hlost as [Hp1 [Hs Ht]].
  cbv [bind emit ask extern] in Hrun. simpl in Hrun.
  destruct (_is_connected _ _) as [o w]. injection Hrun as _ <-. simpl.
  by rewrite Hs, Ht.
Qed.

(** With no tunnel attached [is_connected] is the protocol's answer. *)
Lemma is_connected_local st r :
  is_prepared st → attrs (self st) !! "remote" = Some r → truthy r = false →
  is_connected st
  = (let '(o, w) := _is_connected (self st) (world st) in
     (o, mkState (self st) w (trace st ++ [CallIsConnectedHook]))).
Proof.
  intros Hp Hr Ht. unfold is_connected, tunnel_lost.
  unfold bind at 1. simpl. rewrite Hp. simpl.
  unfold bind at 1. unfold bind at 1.
  rewrite getattr_plain_name by done. unfold read_attr. rewrite Hr, Ht.
  cbv [bind ret emit ask extern]. simpl. reflexivity.
Qed.

Lemma is_connected_unprepared st :
  prepared (self st) = false → is_connected st = (Return false, st).
Proof. intros H. unfold is_connected. cbv [bind ask]. simpl. by rewrite H. Qed.

End ReadsOnly.

(** ** Assigning to a monitored field *)

Section FieldChange.
Context {W : Type} `{!Protocol W} `{!Collaborators W}.
Implicit Types st : state W.

#[local] Arguments is_connected : simpl never.
#[local] Arguments disconnect : simpl never.

Lemma monitored_nonempty (key : string) (fields : list string) :
  key ∈ fields →
  match fields with [] => false | _ => true end && bool_decide (key ∈ fields) = true.
Proof.
  intros Hin. rewrite bool_decide_eq_true_2 by done.
  destruct fields; [by apply elem_of_nil in Hin|done].
Qed.

Lemma monitor_unprepared key st :
  prepared (self st) = false → monitor key st = (Return tt, st).
Proof.
  intros H. unfold monitor, try_except. cbv [bind ask]. simpl. by rewrite H.
Qed.

Lemma monitor_unmonitored key st :
  key ∉ connection_fields (self st) → monitor key st = (Return tt, st).
Proof.
  intros H. unfold monitor, try_except. cbv [bind ask]. simpl.
  rewrite bool_decide_eq_false_2 by done. by rewrite !andb_false_r.
Qed.

Lemma monitor_not_connected key st st1 :
  is_prepared st → key ∈ connection_fields (self st) →
  is_connected st = (Return false, st1) →
  monitor key st = (Return tt, st1).
Proof.
  intros Hp Hkey Hconn. unfold monitor, try_except. cbv [bind ask]. simpl.
  rewrite Hp. simpl. rewrite (monitored_nonempty _ _ Hkey). by rewrite Hconn.
Qed.

Lemma monitor_connected key st st1 (r : retval) st2 :
  is_prepared st → key ∈ connection_fields (self st) →
  is_connected st = (Return true, st1) →
  disconnect (mkState (self st1) (world st1)
                      (trace st1 ++ [LogWarn (field_change_warning key)]))
  = (Return r, st2) →
  monitor key st
  = (Return tt, mkState (set_prepared false (self st2)) (world st2) (trace st2)).
Proof.
  intros Hp Hkey Hconn Hdisc. unfold monitor, try_except. cbv [bind ask]. simpl.
  rewrite Hp. simpl. rewrite (monitored_nonempty _ _ Hkey). rewrite Hconn.
  cbv [when bind emit update]. simpl.
  unfold field_change_warning in Hdisc. by rewrite Hdisc.
Qed.

(** Past the monitor, the assignment is a plain store, when the monitor
    has nothing to say about the underscored attribute of a property. *)
Lemma setattr_stores key v st st1 :
  monitor key st = (Return tt, st1) →
  (is_property key = true → monitor (slot key) st1 = (Return tt, st1)) →
  setattr key v st = (Return tt, stored key v st1).
Proof.
  intros Hmon Hslot. unfold setattr. unfold bind at 1. rewrite Hmon.
  unfold object_setattr, stored, slot.
  destruct (is_property key) eqn:Hprop.
  - unfold setattr_plain, bind. unfold slot in Hslot. rewrite Hprop in Hslot.
    by rewrite (Hslot eq_refl).
  - reflexivity.
Qed.

Lemma monitor_disconnect_fails key st st1 (e : exn) st2 :
  is_prepared st → key ∈ connection_fields (self st) →
  is_connected st = (Return true, st1) →
  disconnect (mkState (self st1) (world st1)
                      (trace st1 ++ [LogWarn (field_change_warning key)]))
  = (Raise e, st2) →
  monitor key st = (if is_attribute_error e then Return tt else Raise e, st2).
Proof.
  intros Hp Hkey Hconn Hdisc. unfold monitor, try_except. cbv [bind ask]. simpl.
  rewrite Hp. simpl. rewrite (monitored_nonempty _ _ Hkey). rewrite Hconn.
  cbv [when bind emit update]. simpl.
  unfold field_change_warning in Hdisc. rewrite Hdisc.
  by destruct (is_attribute_error e).
Qed.


(** C10 (as amended).  On a prepared client that [is_connected] reports
    as not connected, assigning to a field of [connection_fields] is a
    plain store: the monitor logs nothing and calls no [disconnect] of
    its own (with no tunnel attached the liveness test calls none
    either, so none occurs), and [__prepared] stays set.  So in the
    resulting state no read runs [prepare], [prepare] itself does
    nothing, and the attribute holds the value exactly as assigned. *)
Theorem setattr_unconnected_stores_directly st (key : string) (v : value) st1 :
  prepared (self st) = true →
  key ∈ connection_fields (self st) →
  (is_property key = true → slot key ∉ connection_fields (self st)) →
  is_connected st = (Return false, st1) →
  let final := stored key v st1 in
  setattr key v st = (Return tt, final)
  ∧ prepared (self final) = true
  ∧ trace final = trace st1
  ∧ (∀ r, attrs (self st) !! "remote" = Some r → truthy r = false →
       trace final = trace st ++ [CallIsConnectedHook])
  ∧ (∀ k, trigger k final = (Return tt, final))
  ∧ prepare final = (Return tt, final)
  ∧ attrs (self final) !! slot key = Some v.
Proof.
  intros Hp Hkey Hslot Hconn final.
  destruct (steady_is_connected st Hp) as [Hp1 Hsame].
  rewrite Hconn in Hp1, Hsame. simpl in Hp1, Hsame.
  assert (Hcf : connection_fields (self st1) = connection_fields (self st)).
  { apply (f_equal connection_fields) in Hsame. exact Hsame. }
  assert (Hpf : is_prepared final).
  { unfold is_prepared, final, stored. simpl. exact Hp1. }
  split; [|split; [|split; [|split; [|split; [|split]]]]].
  - apply setattr_stores; [by apply monitor_not_connected|].
    intros Hprop. apply monitor_unmonitored. rewrite Hcf. by apply Hslot.
  - exact Hpf.
  - done.
  - intros r Hr Ht. rewrite (is_connected_local st r Hp Hr Ht) in Hconn.
    destruct (_is_connected _ _) as [o w]. injection Hconn as _ <-. done.
  - intros k. by apply trigger_prepared.
  - unfold prepare, prepare_with. cbv [bind ask]. simpl.
    unfold is_prepared in Hp1. by rewrite Hp1.
  - unfold final, stored. simpl. by rewrite lookup_insert_eq.
Qed.

End FieldChange.

(** ** [reset] *)

Section ResetFacts.
Context {W : Type} `{!Protocol W} `{!Collaborators W}.
Implicit Types st : state W.

#[local] Arguments is_connected : simpl never.
#[local] Arguments disconnect : simpl never.
#[local] Arguments monitor : simpl never.

Lemma same_data_refl d : same_data d d.
Proof. done. Qed.
Lemma same_data_trans d1 d2 d3 : same_data d1 d2 → same_data d2 d3 → same_data d1 d3.
Proof. unfold same_data. congruence. Qed.
Lemma same_instance_data st st' : same_instance st st' → same_data (self st) (self st').
Proof. unfold same_instance, same_data. by intros ->. Qed.
Lemma same_data_attrs d d' : same_data d d' → attrs d' = attrs d.
Proof. intros H. apply (f_equal attrs) in H. exact H. Qed.
Lemma same_data_cached d d' : same_data d d' → cached_auth d' = cached_auth d.
Proof. intros H. apply (f_equal cached_auth) in H. exact H. Qed.
Lemma same_data_snapshot d d' :
  same_data d d' → prepreparation_values d' = prepreparation_values d.
Proof. intros H. apply (f_equal prepreparation_values) in H. exact H. Qed.

Lemma disconnect_same_data st : same_data (self st) (self (disconnect st).2).
Proof.
  destruct (prepared (self st)) eqn:Hp.
  - apply same_instance_data. by apply steady_disconnect.
  - by rewrite disconnect_unprepared.
Qed.

Lemma monitor_same_data key st : same_data (self st) (self (monitor key st).2).
Proof.
  destruct (prepared (self st)) eqn:Hp; [|by rewrite monitor_unprepared].
  unfold monitor, try_except. cbv [bind ask]. simpl. rewrite Hp. simpl.
  destruct (_ && _); [|done].
  destruct (steady_is_connected st Hp) as [Hp1 Hs1].
  destruct (is_connected st) as [[c|e] st1]; simpl in *.
  2:{ destruct (is_attribute_error e); by apply same_instance_data. }
  destruct c; simpl; [|by apply same_instance_data].
  cbv [bind emit update]. simpl.
  pose proof (steady_disconnect
    (mkState (self st1) (world st1)
       (trace st1 ++ [LogWarn ("Disconnecting prior to changing field that connection is based on: "
                               +:+ key +:+ ".")])) Hp1) as [_ Hs2].
  destruct (disconnect _) as [[r|e] st2]; simpl in *.
  - unfold same_instance, same_data in *. simpl in *.
    apply (f_equal (set_prepared false)) in Hs1, Hs2.
    rewrite <- Hs1, <- Hs2. by destruct (self st2).
  - apply same_instance_data in Hs1, Hs2. simpl in Hs2.
    destruct (is_attribute_error e); simpl; by eapply same_data_trans.
Qed.

(** An assignment that returns has stored the value in its slot and
    changed nothing else but the two flags. *)
Lemma setattr_returns key v st st' :
  setattr key v st = (Return tt, st') →
  same_data (set_attrs (insert (slot key) v) (self st)) (self st').
Proof.
  unfold setattr. intros Hrun.
  apply bind_return_inv in Hrun as ([] & st1 & Hmon & Hrun).
  pose proof (monitor_same_data key st) as Hd1. rewrite Hmon in Hd1. simpl in Hd1.
  unfold object_setattr, slot in *. destruct (is_property key).
  - unfold setattr_plain in Hrun.
    apply bind_return_inv in Hrun as ([] & st2 & Hmon2 & Hrun).
    pose proof (monitor_same_data ("_" +:+ key) st1) as Hd2.
    rewrite Hmon2 in Hd2. simpl in Hd2.
    injection Hrun as <-. simpl.
    pose proof (same_data_trans _ _ _ Hd1 Hd2) as Hd.
    unfold same_data in *. simpl in *.
    apply (f_equal (set_attrs (insert ("_" +:+ key) v))) in Hd.
    destruct (self st2), (self st). simpl in *. exact Hd.
  - injection Hrun as <-. simpl.
    unfold same_data in *. simpl in *.
    apply (f_equal (set_attrs (insert key v))) in Hd1.
    destruct (self st1), (self st). simpl in *. exact Hd1.
Qed.

Lemma restore_loop (l : list (string * value)) st st' :
  for_each l (λ kv, setattr kv.1 kv.2) st = (Return tt, st') →
  same_data (set_attrs (restore_all l) (self st)) (self st').
Proof.
  revert st. induction l as [|[k v] l IH]; intros st Hrun; simpl in *.
  - injection Hrun as <-. unfold restore_all. simpl. by destruct (self st).
  - apply bind_return_inv in Hrun as ([] & st1 & Hset & Hrun).
    apply setattr_returns in Hset. apply IH in Hrun.
    eapply same_data_trans; [|exact Hrun].
    unfold same_data in *. simpl in *. unfold restore_all in *. simpl.
    apply (f_equal (set_attrs (λ a, fold_left
             (λ acc kv, <[slot kv.1 := kv.2]> acc) l a))) in Hset.
    destruct (self st1), (self st). simpl in *. exact Hset.
Qed.

Lemma restore_all_other (l : list (string * value)) (a : gmap string value) (s : string) :
  s ∉ (slot <$> l.*1) → restore_all l a !! s = a !! s.
Proof.
  revert a. induction l as [|[k v] l IH]; intros a Hs; [done|].
  unfold restore_all in *. simpl in *.
  rewrite IH by set_solver. apply lookup_insert_ne. set_solver.
Qed.

Lemma restore_all_lookup (l : list (string * value)) (a : gmap string value) k v :
  NoDup (slot <$> l.*1) → (k, v) ∈ l → restore_all l a !! slot k = Some v.
Proof.
  revert a. induction l as [|[k0 v0] l IH]; intros a Hnd Hin.
  - by apply elem_of_nil in Hin.
  - simpl in Hnd. apply NoDup_cons in Hnd as [Hfresh Hnd].
    apply elem_of_cons in Hin as [[= -> ->]|Hin].
    + change (restore_all ((k0, v0) :: l) a) with (restore_all l (<[slot k0 := v0]> a)).
      rewrite restore_all_other by done. apply lookup_insert_eq.
    + change (restore_all ((k0, v0) :: l) a) with (restore_all l (<[slot k0 := v0]> a)).
      by apply IH.
Qed.

(** What a [reset] that returns has done. *)
Lemma reset_returns st (r : retval) st' :
  reset st = (Return r, st') →
  r = RSelf
  ∧ (∃ evs, trace st' = trace st ++ CallReset :: CallDisconnect :: evs)
  ∧ cached_auth (self st') = ∅
  ∧ prepreparation_values (self st') = []
  ∧ prepared (self st') = false
  ∧ attrs (self st') = restore_all (prepreparation_values (self st)) (attrs (self st))
  ∧ (NoDup (slot <$> (prepreparation_values (self st)).*1) →
     ∀ k v, (k, v) ∈ prepreparation_values (self st) →
            attrs (self st') !! slot k = Some v).
Proof.
  intros Hrun. unfold reset in Hrun.
  unfold bind at 1 in Hrun. simpl in Hrun.
  apply bind_return_inv in Hrun as (r0 & st1 & Hdisc & Hrun).
  pose proof (disconnect_same_data
    (mkState (self st) (world st) (trace st ++ [CallReset]))) as Hd1.
  assert (Ht1 : ∃ evs, trace st1 = trace st ++ CallReset :: CallDisconnect :: evs).
  { destruct (disconnect_starts (mkState (self st) (world st) (trace st ++ [CallReset])))
      as (evs & Hevs).
    rewrite Hdisc in Hevs. simpl in Hevs. exists evs. by rewrite Hevs, <- app_assoc. }
  rewrite Hdisc in Hd1. simpl in Hd1.
  cbv [bind update ask] in Hrun. simpl in Hrun.
  rewrite (same_data_snapshot _ _ Hd1) in Hrun.
  destruct (for_each _ _ _) as [[[]|e] st2] eqn:Hloop; [|done].
  injection Hrun as <- <-. simpl.
  assert (Hset : ∀ k v, preserves (λ _ : state W, True) (extends_with (λ _, True))
                          (setattr k v))
    by (intros; apply logs_only_setattr; done).
  assert (Ht2 : extends_with (λ _, True)
                  (mkState (set_cached_auth ∅ (self st1)) (world st1) (trace st1)) st2).
  { pose proof (preserves_for_each (λ _ : state W, True) (extends_with (λ _, True))
                  (extends_with_refl _) (extends_with_trans _)
                  (prepreparation_values (self st)) (λ kv, setattr kv.1 kv.2)
                  (λ kv, Hset kv.1 kv.2)
                  (mkState (set_cached_auth ∅ (self st1)) (world st1) (trace st1)) Logic.I)
      as [_ Hext].
    by rewrite Hloop in Hext. }
  apply restore_loop in Hloop. simpl in Hloop.
  destruct Ht1 as (evs1 & Ht1). destruct Ht2 as (evs2 & Ht2 & _). simpl in Ht2.
  assert (Hattrs : attrs (self st2)
                   = restore_all (prepreparation_values (self st)) (attrs (self st))).
  { rewrite (same_data_attrs _ _ Hloop). simpl. by rewrite (same_data_attrs _ _ Hd1). }
  split; [done|]. split.
  { exists (evs1 ++ evs2). rewrite Ht2, Ht1. by rewrite <- app_assoc. }
  split. { rewrite (same_data_cached _ _ Hloop). done. }
  split; [done|]. split; [done|]. split; [exact Hattrs|].
  intros Hnd k v Hin. rewrite Hattrs. by apply restore_all_lookup.
Qed.

(** C7.  A [reset] that returns has called [disconnect] first, cleared
    the cached credentials and the snapshot, cleared [__prepared], put
    back under its attribute every value of the snapshot (callables and
    host lists like any other value), and returns [self]. *)
Theorem reset_restores_snapshot st (r : retval) st' :
  reset st = (Return r, st') →
  r = RSelf
  ∧ (∃ evs, trace st' = trace st ++ CallReset :: CallDisconnect :: evs)
  ∧ cached_auth (self st') = ∅
  ∧ prepreparation_values (self st') = []
  ∧ prepared (self st') = false
  ∧ attrs (self st') = restore_all (prepreparation_values (self st)) (attrs (self st))
  ∧ (NoDup (slot <$> (prepreparation_values (self st)).*1) →
     ∀ k v, (k, v) ∈ prepreparation_values (self st) →
            attrs (self st') !! slot k = Some v).
Proof. exact (reset_returns st r st'). Qed.

End ResetFacts.

(** ** [connect] *)

Section ConnectFacts.
Context {W : Type} `{!Protocol W} `{!Collaborators W}.
Implicit Types st : state W.

#[local] Arguments is_connected : simpl never.
#[local] Arguments reset : simpl never.
#[local] Arguments log_connection : simpl never.
#[local] Arguments assert_server_reachable : simpl never.

Lemma connect_unfold st :
  connect st
  = (c <- connect_until_hook;;
     when (negb c) guarded_connect;;
     log_connection "Connected";;
     ret RSelf) st.
Proof.
  unfold connect, connect_until_hook. cbv [bind].
  destruct (log_connection "Connecting" st) as [[[]|e] st1]; [|done].
  destruct (assert_server_reachable st1) as [[[]|e] st2]; [|done].
  by destruct (is_connected st2) as [[c|e] st3].
Qed.

(** [reset] starts with [disconnect], whatever becomes of it. *)
Lemma reset_starts st :
  ∃ evs, trace (reset st).2 = trace st ++ CallReset :: CallDisconnect :: evs.
Proof.
  unfold reset. unfold bind at 1. simpl.
  destruct (disconnect_starts (mkState (self st) (world st) (trace st ++ [CallReset])))
    as (evs & Hd).
  unfold bind at 1.
  destruct (disconnect _) as [[r|e] st1]; simpl in *.
  2:{ exists evs. by rewrite Hd, <- app_assoc. }
  match goal with
  | |- ∃ l, trace (?m st1).2 = _ =>
      assert (Htail : preserves (λ _ : state W, True) (extends_with (λ _, True)) m)
  end.
  { repeat first
      [ apply preserves_bind; [apply extends_with_trans| |intros ?]
      | apply logs_only_update
      | apply preserves_ask; apply extends_with_refl
      | apply preserves_ret; apply extends_with_refl
      | apply preserves_for_each;
        [apply extends_with_refl|apply extends_with_trans|intros ?; by apply logs_only_setattr] ]. }
  destruct (Htail st1 Logic.I) as [_ (evs2 & Ht & _)].
  exists (evs ++ evs2). rewrite Ht, Hd. by rewrite <- !app_assoc.
Qed.

(** When [_connect] raises an [Exception], [reset] runs and then the
    error is raised again, unless [reset] itself raised. *)
Lemma guarded_connect_failure st (e : exn) (w2 : W) :
  _connect (self st) (world st) = (Raise e, w2) →
  is_exception e = true →
  guarded_connect st
  = (let '(o, st3) := reset (mkState (self st) w2 (trace st ++ [CallConnectHook])) in
     (match o with Return _ => Raise e | Raise e' => Raise e' end, st3)).
Proof.
  intros Hhook He. unfold guarded_connect, try_except. cbv [bind emit ask extern raise].
  simpl. rewrite Hhook, He. by destruct (reset _) as [[r|e'] st3].
Qed.

(** What [except Exception] does not catch leaves [connect] at once. *)
Lemma guarded_connect_escape st (e : exn) (w2 : W) :
  _connect (self st) (world st) = (Raise e, w2) →
  is_exception e = false →
  guarded_connect st = (Raise e, mkState (self st) w2 (trace st ++ [CallConnectHook])).
Proof.
  intros Hhook He. unfold guarded_connect, try_except. cbv [bind emit ask extern raise].
  simpl. by rewrite Hhook, He.
Qed.


Lemma connect_until_hook_quiet :
  preserves (λ _ : state W, True) (extends_with not_connect_hook) connect_until_hook.
Proof.
  unfold connect_until_hook.
  apply preserves_bind; [apply extends_with_trans|by apply logs_only_log_connection|].
  intros _. apply preserves_bind;
    [apply extends_with_trans|by apply logs_only_assert_server_reachable|].
  intros _. by apply logs_only_is_connected.
Qed.

Lemma count_hook_unchanged st st' :
  extends_with not_connect_hook st st' →
  count_event CallConnectHook (trace st') = count_event CallConnectHook (trace st).
Proof. apply extends_with_count. intros Hne. by apply Hne. Qed.

Lemma guarded_connect_count st :
  count_event CallConnectHook (trace (guarded_connect st).2)
  = S (count_event CallConnectHook (trace st)).
Proof.
  unfold guarded_connect, try_except. cbv [bind emit ask extern raise]. simpl.
  destruct (_connect _ _) as [[[]|e] w2]; simpl.
  - rewrite count_event_snoc, decide_True by done. lia.
  - destruct (is_exception e); simpl.
    2:{ rewrite count_event_snoc, decide_True by done. lia. }
    destruct (logs_only_reset not_connect_hook) with
      (st := mkState (self st) w2 (trace st ++ [CallConnectHook])) as [_ Hext]; try done.
    destruct (reset _) as [[r|e'] st3]; simpl in *;
      rewrite (count_hook_unchanged _ _ Hext); simpl;
      rewrite count_event_snoc, decide_True by done; lia.
Qed.

(** One call of [connect] enters [_connect] at most once. *)
Lemma connect_count st :
  (count_event CallConnectHook (trace (connect st).2)
   ≤ S (count_event CallConnectHook (trace st)))%nat.
Proof.
  rewrite connect_unfold. unfold bind at 1.
  destruct (connect_until_hook_quiet st Logic.I) as [_ Hpre].
  destruct (connect_until_hook st) as [[c|e] st1]; simpl in *.
  2:{ rewrite (count_hook_unchanged _ _ Hpre). lia. }
  apply count_hook_unchanged in Hpre.
  unfold bind at 1.
  assert (Hmid : (count_event CallConnectHook (trace (when (negb c) guarded_connect st1).2)
                  ≤ S (count_event CallConnectHook (trace st)))%nat).
  { destruct c; simpl; [lia|]. rewrite guarded_connect_count. lia. }
  destruct (when (negb c) guarded_connect st1) as [[[]|e] st2]; simpl in *; [|done].
  destruct (logs_only_log_connection not_connect_hook) with (verb := "Connected") (st := st2)
    as [_ Hlog]; try done.
  unfold bind. destruct (log_connection "Connected" st2) as [[[]|e] st3]; simpl in *;
    rewrite (count_hook_unchanged _ _ Hlog); done.
Qed.

(** [connect] from the test of [is_connected] on. *)
Lemma connect_after_test st (c : bool) st1 :
  connect_until_hook st = (Return c, st1) →
  count_event CallConnectHook (trace (connect st).2)
  = if c then count_event CallConnectHook (trace st)
    else S (count_event CallConnectHook (trace st)).
Proof.
  intros Hrun. destruct (connect_until_hook_quiet st Logic.I) as [_ Hpre].
  rewrite Hrun in Hpre. simpl in Hpre. apply count_hook_unchanged in Hpre.
  rewrite connect_unfold. unfold bind at 1. rewrite Hrun. simpl.
  unfold bind at 1.
  assert (Hmid : count_event CallConnectHook (trace (when (negb c) guarded_connect st1).2)
                 = if c then count_event CallConnectHook (trace st)
                   else S (count_event CallConnectHook (trace st))).
  { destruct c; simpl; [done|]. rewrite guarded_connect_count. by rewrite Hpre. }
  destruct (when (negb c) guarded_connect st1) as [[[]|e] st2]; simpl in *; [|done].
  destruct (logs_only_log_connection not_connect_hook) with (verb := "Connected") (st := st2)
    as [_ Hlog]; try done.
  unfold bind. destruct (log_connection "Connected" st2) as [[[]|e] st3]; simpl in *;
    by rewrite (count_hook_unchanged _ _ Hlog).
Qed.

Lemma connect_before_test st (e : exn) st1 :
  connect_until_hook st = (Raise e, st1) →
  count_event CallConnectHook (trace (connect st).2) = count_event CallConnectHook (trace st).
Proof.
  intros Hrun. destruct (connect_until_hook_quiet st Logic.I) as [_ Hpre].
  rewrite Hrun in Hpre. simpl in Hpre. apply count_hook_unchanged in Hpre.
  rewrite connect_unfold. unfold bind at 1. by rewrite Hrun.
Qed.


End ConnectFacts.

(** ** The theorems at work on simulated clients *)


(** C1, counterexample: on the same client [_connect] raises error 1
    and the [_disconnect] hook, which [reset] reaches through
    [disconnect], raises error 7.  [connect] raises error 7, not the
    error of [_connect]; the instance is still prepared, the snapshot is
    kept and the callable is not back in [_host]. *)
Lemma connect_failure_can_raise_reset_error :
  let st := Sim.start Scenario.lazy_db_config Cases.refusing_stuck in
  let st1 := (connect_until_hook st).2 in
  let run := connect st in
  (connect_until_hook st).1 = Return false
  ∧ (_connect (self st1) (world st1)).1 = Raise (OtherError 1)
  ∧ run.1 = Raise (OtherError 7)
  ∧ prepared (self run.2) = true
  ∧ prepreparation_values (self run.2) = [("_host", VCallable 1)]
  ∧ attrs (self run.2) !! "_host" = Some (VStr "db.example").
Proof. vm_compute. repeat split; reflexivity. Qed.

(** An interrupt from the keyboard inside [_connect] leaves [connect]
    with no [reset] at all. *)
Example connect_interrupted_skips_reset :
  let run := connect (Sim.start Scenario.lazy_db_config Cases.interrupted) in
  run.1 = Raise (Interrupt 2)
  ∧ count_event CallReset (trace run.2) = 0%nat
  ∧ prepared (self run.2) = true
  ∧ attrs (self run.2) !! "_host" = Some (VStr "db.example").
Proof. vm_compute. repeat split; reflexivity. Qed.


(** C2, counterexample: a protocol whose [_is_connected] answers
    [False] even after [_connect] returned.  Two calls of [connect] in a
    row both return, no [disconnect] is called in between or at all, and
    [_connect] has been entered twice. *)
Lemma connect_twice_can_call_hook_twice :
  let connect' := @connect Sim.sim_world Cases.never_connected Sim.collaborators in
  let st := Sim.start Scenario.local_db_config Scenario.listening in
  let first := connect' st in
  let second := connect' first.2 in
  first.1 = Return RSelf
  ∧ second.1 = Return RSelf
  ∧ count_event CallDisconnect (trace second.2) = 0%nat
  ∧ count_event CallConnectHook (trace first.2) = 1%nat
  ∧ count_event CallConnectHook (trace second.2) = 2%nat.
Proof. vm_compute. repeat split; reflexivity. Qed.

(** The same with the simulated protocol, behind a tunnel whose forward
    has lost its local end: each [connect] finds the client not
    connected and enters [_connect]. *)
Example connect_twice_through_lost_forward :
  let first := connect (Sim.start Scenario.tunnelled_config Scenario.forward_unbound) in
  let second := connect first.2 in
  first.1 = Return RSelf
  ∧ second.1 = Return RSelf
  ∧ count_event CallConnectHook (trace first.2) = 1%nat
  ∧ count_event CallConnectHook (trace second.2) = 2%nat.
Proof. vm_compute. repeat split; reflexivity. Qed.


(** C5, counterexample: the [_disconnect] hook of a connected client
    raises an [AttributeError].  Assigning [host] warns, calls
    [disconnect] once and returns with the new value stored; but
    [__prepared] is still set, so the next read of [host] gives the value
    as assigned and runs no [prepare]; the protocol's connection is still
    up. *)
Lemma setattr_connected_can_stay_prepared :
  let st := (connect (Sim.start Scenario.local_db_config Cases.half_closed)).2 in
  let run := setattr "host" (VStr "replica.example:6543") st in
  let read := getattr "host" run.2 in
  prepared (self st) = true
  ∧ (is_connected st).1 = Return true
  ∧ run.1 = Return tt
  ∧ attrs (self run.2) !! "_host" = Some (VStr "replica.example:6543")
  ∧ count_event CallDisconnect (trace run.2) = S (count_event CallDisconnect (trace st))
  ∧ prepared (self run.2) = true
  ∧ should_prepare "host" (self run.2) = false
  ∧ read.1 = Return (VStr "replica.example:6543")
  ∧ count_event CallPrepareHook (trace read.2) = count_event CallPrepareHook (trace run.2)
  ∧ Sim.connected (world run.2) = true.
Proof. vm_compute. repeat split; reflexivity. Qed.

(** C6, witness: the scenario of the specification, on a client fresh
    from its constructor. *)
Lemma connect_reachability_check_witness :
  let st := Sim.start Scenario.unreachable_config Sim.idle in
  let st0 := (trigger "host" st).2 in
  let st_l := mkState (self st0) (world st0)
                (connecting_logged (VStr "10.0.0.5") (VInt 9999) (trace st0)) in
  let st2 := (disconnect (mkState (self st0) Sim.idle (trace st_l))).2 in
  connect st
  = (Raise (DuctServerUnreachable (local_unreachable_message (VStr "10.0.0.5") (VInt 9999))), st2)
  ∧ count_event CallDisconnect (trace st2) = S (count_event CallDisconnect (trace st0)).
Proof.
  intros st st0 st_l st2.
  assert (H0 : trigger "host" st = (Return tt, st0)) by (vm_compute; reflexivity).
  assert (H1 : local_config (self st0) VNone (VStr "10.0.0.5") (VInt 9999))
    by (unfold local_config; repeat split; vm_compute; reflexivity).
  assert (H2 : is_port_bound (VStr "10.0.0.5") (VInt 9999) (world st0)
               = (Return false, Sim.idle)) by (vm_compute; reflexivity).
  assert (H3 : disconnect (mkState (self st0) Sim.idle (trace st_l)) = (Return RSelf, st2))
    by (vm_compute; reflexivity).
  exact (proj2 (proj2 (proj2 (connect_reachability_check st st0 VNone (VStr "10.0.0.5")
                                (VInt 9999) H0 H1)))
           ltac:(discriminate) ltac:(discriminate) Sim.idle RSelf st2 H2 H3).
Defined.

Example local_unreachable_message_names_endpoint :
  local_unreachable_message (VStr "10.0.0.5") (VInt 9999)
  = "Cannot connect to '10.0.0.5:9999' on your current connection. Please check your connection before trying again.".
Proof. vm_compute. reflexivity. Qed.

(** C7, witness: preparing resolved the host callable to
    "db.example"; [reset] puts the callable back. *)
Lemma reset_restores_snapshot_witness :
  let st := (getattr "host" (Sim.start Scenario.lazy_db_config Sim.idle)).2 in
  let st' := (reset st).2 in
  attrs (self st) !! "_host" = Some (VStr "db.example")
  ∧ prepreparation_values (self st) = [("_host", VCallable 1)]
  ∧ attrs (self st') !! "_host" = Some (VCallable 1)
  ∧ prepared (self st') = false
  ∧ cached_auth (self st') = ∅
  ∧ prepreparation_values (self st') = [].
Proof.
  intros st st'.
  assert (H1 : reset st = (Return RSelf, st')) by (vm_compute; reflexivity).
  assert (H2 : NoDup (slot <$> (prepreparation_values (self st)).*1))
    by (apply (bool_decide_unpack _); vm_compute; exact I).
  assert (H3 : ("_host", VCallable 1) ∈ prepreparation_values (self st))
    by (apply (bool_decide_unpack _); vm_compute; exact I).
  pose proof (reset_restores_snapshot st RSelf st' H1) as H.
  split; [vm_compute; reflexivity|]. split; [vm_compute; reflexivity|].
  split; [exact (proj2 (proj2 (proj2 (proj2 (proj2 (proj2 H))))) H2 "_host" (VCallable 1) H3)|].
  split; [exact (proj1 (proj2 (proj2 (proj2 (proj2 H)))))|].
  split; [exact (proj1 (proj2 (proj2 H)))|exact (proj1 (proj2 (proj2 (proj2 H))))].
Defined.

(** The same with a list of hosts: the load balancer picked
    "a.example"; [reset] puts the list back. *)
Example reset_restores_host_list :
  let st := (getattr "host" (Sim.start Scenario.pooled_db_config Sim.idle)).2 in
  attrs (self st) !! "_host" = Some (VStr "a.example")
  ∧ attrs (self (reset st).2) !! "_host" = Some (VList ["a.example"; "b.example"]).
Proof. vm_compute. auto. Qed.

(** C10, witness: a prepared client that is not connected gets a host
    with a port suffix; it is stored as it is. *)
Lemma setattr_unconnected_stores_directly_witness :
  let st := Scenario.prepared_in Scenario.local_db_config Scenario.listening in
  let st1 := (is_connected st).2 in
  let final := stored "host" (VStr "replica.example:6543") st1 in
  setattr "host" (VStr "replica.example:6543") st = (Return tt, final)
  ∧ prepared (self final) = true
  ∧ trace final = trace st ++ [CallIsConnectedHook]
  ∧ prepare final = (Return tt, final)
  ∧ attrs (self final) !! "_host" = Some (VStr "replica.example:6543").
Proof.
  intros st st1 final.
  assert (H1 : prepared (self st) = true) by (vm_compute; reflexivity).
  assert (H2 : "host" ∈ connection_fields (self st))
    by (apply (bool_decide_unpack _); vm_compute; exact I).
  assert (H3 : is_property "host" = true → slot "host" ∉ connection_fields (self st))
    by (intros _; apply (bool_decide_unpack _); vm_compute; exact I).
  assert (H4 : is_connected st = (Return false, st1)) by (vm_compute; reflexivity).
  assert (H5 : attrs (self st) !! "remote" = Some VNone) by (vm_compute; reflexivity).
  pose proof (setattr_unconnected_stores_directly st "host" (VStr "replica.example:6543")
                st1 H1 H2 H3 H4) as H.
  split; [exact (proj1 H)|]. split; [exact (proj1 (proj2 H))|].
  split; [exact (proj1 (proj2 (proj2 (proj2 H))) VNone H5 eq_refl)|].
  split; [exact (proj1 (proj2 (proj2 (proj2 (proj2 (proj2 H)))))) |].
  exact (proj2 (proj2 (proj2 (proj2 (proj2 (proj2 H)))))).
Defined.

(** C10, counterexample: the tunnel lists a forward whose local end is
    not bound.  The client is prepared and [is_connected] answers
    [False]; assigning [host] stores the value and leaves [__prepared]
    set, and yet [disconnect] has been called, by [is_connected]. *)
Lemma setattr_unconnected_can_disconnect :
  let st := Scenario.tunnelled_unbound in
  let run := setattr "host" (VStr "replica.internal") st in
  prepared (self st) = true
  ∧ (is_connected st).1 = Return false
  ∧ run.1 = Return tt
  ∧ prepared (self run.2) = true
  ∧ attrs (self run.2) !! "_host" = Some (VStr "replica.internal")
  ∧ count_event CallDisconnect (trace st) = 0%nat
  ∧ count_event CallDisconnect (trace run.2) = 1%nat.
Proof. vm_compute. repeat split; reflexivity. Qed.

(** * Further properties *)

(** ** Registration and lookup *)

Section RegistryLookup.
Import Registry.

Lemma register_key_bound (c c1 : class) (reg : t) (k key : string) :
  _protocols reg !! key = Some c1 →
  _protocols (register_key c reg k) !! key = Some c1
  ∨ (_protocols (register_key c reg k) !! key = Some c ∧ cls_name c = cls_name c1).
Proof.
  intros Hkey. destruct (decide (k = key)) as [->|Hne].
  - unfold register_key. rewrite Hkey.
    destruct (String.eqb_spec (cls_name c) (cls_name c1)) as [Heq|Hneq]; simpl.
    + right. by rewrite lookup_insert_eq.
    + by left.
  - left. by rewrite register_key_other.
Qed.

Lemma fold_register_bound (c c1 : class) (keys : list string) (reg : t) (key : string) :
  _protocols reg !! key = Some c1 →
  _protocols (fold_left (register_key c) keys reg) !! key = Some c1
  ∨ (_protocols (fold_left (register_key c) keys reg) !! key = Some c
     ∧ cls_name c = cls_name c1).
Proof.
  revert reg c1. induction keys as [|k keys IH]; intros reg c1 Hkey; simpl; [by left|].
  destruct (register_key_bound c c1 reg k key Hkey) as [Hsame|[Hnew Hname]].
  - by apply IH.
  - destruct (IH _ _ Hnew) as [H|[H _]]; right; done.
Qed.

Lemma fold_register_other (c : class) (keys : list string) (reg : t) (key : string) :
  key ∉ keys →
  _protocols (fold_left (register_key c) keys reg) !! key = _protocols reg !! key.
Proof.
  revert reg. induction keys as [|k keys IH]; intros reg Hout; simpl; [done|].
  rewrite IH by set_solver. apply register_key_other. set_solver.
Qed.

(** A registry in which every key of [keys] is settled for [c]: held by
    [c] itself or by a class of another name. *)
Lemma fold_register_settled (c : class) (keys : list string) (reg : t) :
  (∀ key, key ∈ keys →
     _protocols reg !! key = Some c
     ∨ ∃ c0, _protocols reg !! key = Some c0 ∧ cls_name c ≠ cls_name c0) →
  _protocols (fold_left (register_key c) keys reg) = _protocols reg.
Proof.
  revert reg. induction keys as [|k keys IH]; intros reg Hall; simpl; [done|].
  assert (Hstep : _protocols (register_key c reg k) = _protocols reg).
  { unfold register_key.
    destruct (Hall k) as [Hk|(c0 & Hk & Hname)]; [set_solver| |]; rewrite Hk.
    - rewrite String.eqb_refl. simpl. by apply insert_id.
    - by destruct (String.eqb_spec (cls_name c) (cls_name c0)). }
  rewrite IH; [done|].
  intros key Hin. rewrite Hstep. apply Hall. set_solver.
Qed.

Lemma fold_register_settles (c : class) (keys : list string) (reg : t) (key : string) :
  key ∈ keys →
  _protocols (fold_left (register_key c) keys reg) !! key = Some c
  ∨ ∃ c0, _protocols (fold_left (register_key c) keys reg) !! key = Some c0
          ∧ cls_name c ≠ cls_name c0.
Proof.
  intros Hin. destruct (_protocols reg !! key) as [c0|] eqn:Hkey.
  - destruct (decide (cls_name c = cls_name c0)) as [Heq|Hne].
    + left. apply fold_register_binds; [done|]. intros c1. rewrite Hkey. by intros [= <-].
    + right. exists c0. split; [|done]. by apply fold_register_keeps.
  - left. apply fold_register_binds; [done|]. intros c1. by rewrite Hkey.
Qed.

(** X1.  Once a class has been created, each of the keys in its
    [PROTOCOLS] resolves: [for_protocol] gives, with [protocol=key]
    bound, the new class when the key was free or held by a class of the
    same name, and the class that held it otherwise. *)
Theorem register_resolves_own_keys (c : class) (reg : t) (keys : list string) (key : string) :
  PROTOCOLS c = Some keys → key ∈ keys →
  for_protocol (register c reg) key
  = Return (match _protocols reg !! key with
            | Some c0 => if String.eqb (cls_name c) (cls_name c0) then c else c0
            | None => c
            end, VStr key).
Proof.
  intros Hp Hin. unfold for_protocol, _for_protocol, register. rewrite Hp. simpl.
  destruct (_protocols reg !! key) as [c0|] eqn:Hkey.
  - destruct (String.eqb_spec (cls_name c) (cls_name c0)) as [Heq|Hne].
    + rewrite (fold_register_binds c key keys reg Hin); [done|].
      intros c1. rewrite Hkey. by intros [= <-].
    + by rewrite (proj1 (fold_register_keeps c c0 key keys reg Hne Hkey)).
  - rewrite (fold_register_binds c key keys reg Hin); [done|].
    intros c1. by rewrite Hkey.
Qed.

(** X2.  Creating a class leaves every key outside its [PROTOCOLS] as it
    was: such a key resolves, or fails to, exactly as before (a class
    with no [PROTOCOLS] changes nothing). *)
Theorem register_leaves_other_keys (c : class) (reg : t) (key : string) :
  key ∉ default [] (PROTOCOLS c) →
  _protocols (register c reg) !! key = _protocols reg !! key
  ∧ for_protocol (register c reg) key = for_protocol reg key.
Proof.
  intros Hout.
  assert (Hsame : _protocols (register c reg) !! key = _protocols reg !! key)
    by (by apply fold_register_other).
  split; [done|]. unfold for_protocol, _for_protocol. by rewrite Hsame.
Qed.

(** X3.  Creating the same class a second time changes no binding. *)
Theorem register_again_same_bindings (c : class) (reg : t) :
  _protocols (register c (register c reg)) = _protocols (register c reg).
Proof.
  unfold register at 1. apply fold_register_settled.
  intros key Hin. unfold register. by apply fold_register_settles.
Qed.

(** X4.  Registration never unbinds a key: a protocol that resolved to a
    class still resolves afterwards, to that class or, when the new
    class bears the same name, to the new class. *)
Theorem register_keeps_resolving (c c1 : class) (reg : t) (key : string) :
  _for_protocol reg key = Return c1 →
  _for_protocol (register c reg) key = Return c1
  ∨ (_for_protocol (register c reg) key = Return c ∧ cls_name c = cls_name c1).
Proof.
  unfold _for_protocol at 1. destruct (_protocols reg !! key) as [c0|] eqn:Hkey; [|done].
  intros [= ->]. unfold _for_protocol, register.
  destruct (fold_register_bound c c1 (default [] (PROTOCOLS c)) reg key Hkey) as [H|[H Hname]];
    rewrite H; auto.
Qed.

End RegistryLookup.

(** X1, witness: [presto] is created after [postgres_a]; "presto" goes to
    it, "postgres" stays where it was. *)
Lemma register_resolves_own_keys_witness :
  for_protocol (Registry.register Scenario.presto
                  (Registry.register Scenario.postgres_a Registry.empty)) "postgres"
  = Return (Scenario.postgres_a, VStr "postgres").
Proof.
  apply (register_resolves_own_keys Scenario.presto
           (Registry.register Scenario.postgres_a Registry.empty)
           ["presto"; "postgres"] "postgres").
  - reflexivity.
  - apply (bool_decide_unpack _). vm_compute. exact I.
Defined.

(** X2, witness: creating [presto] does not touch the key "mysql". *)
Lemma register_leaves_other_keys_witness :
  Registry._protocols (Registry.register Scenario.presto Registry.empty) !! "mysql"
  = Registry._protocols Registry.empty !! "mysql"
  ∧ for_protocol (Registry.register Scenario.presto Registry.empty) "mysql"
    = for_protocol Registry.empty "mysql".
Proof.
  apply (register_leaves_other_keys Scenario.presto Registry.empty "mysql").
  apply (bool_decide_unpack _). vm_compute. exact I.
Defined.

(** X4, witness: "postgres" still resolves to [postgres_a] once [presto]
    exists. *)
Lemma register_keeps_resolving_witness :
  Registry._for_protocol
    (Registry.register Scenario.presto (Registry.register Scenario.postgres_a Registry.empty))
    "postgres" = Return Scenario.postgres_a
  ∨ (Registry._for_protocol
       (Registry.register Scenario.presto (Registry.register Scenario.postgres_a Registry.empty))
       "postgres" = Return Scenario.presto
     ∧ Registry.cls_name Scenario.presto = Registry.cls_name Scenario.postgres_a).
Proof.
  apply (register_keeps_resolving Scenario.presto Scenario.postgres_a
           (Registry.register Scenario.postgres_a Registry.empty) "postgres").
  vm_compute. reflexivity.
Defined.

(** ** Host names with a port *)

Lemma host_port_match_from_app (a b : string) (seen : bool) :
  colon_free a = true → starts_with_digit b = true →
  (seen = true ∨ a ≠ EmptyString) →
  host_port_match_from seen (a +:+ ":" +:+ b) = true.
Proof.
  revert seen. induction a as [|c a IH]; intros seen Ha Hb Hseen; simpl in *.
  - destruct Hseen as [->|]; [|done]. by destruct b.
  - apply andb_true_iff in Ha as [Hc Ha]. apply negb_true_iff in Hc. rewrite Hc.
    apply IH; auto.
Qed.

Lemma host_port_match_app (a b : string) :
  a ≠ EmptyString → colon_free a = true → starts_with_digit b = true →
  host_port_match (a +:+ ":" +:+ b) = true.
Proof. intros Hne Ha Hb. apply host_port_match_from_app; auto. Qed.

Lemma split_colon_nonempty (s : string) : split_colon s ≠ [].
Proof.
  induction s as [|c s IH]; simpl; [done|].
  destruct (is_colon c); [done|]. by destruct (split_colon s).
Qed.

Lemma split_colon_free (s : string) : colon_free s = true → split_colon s = [s].
Proof.
  induction s as [|c s IH]; simpl; [done|].
  intros H. apply andb_true_iff in H as [Hc Hs]. apply negb_true_iff in Hc.
  by rewrite Hc, IH.
Qed.

Lemma split_colon_app (a rest : string) :
  colon_free a = true → split_colon (a +:+ ":" +:+ rest) = a :: split_colon rest.
Proof.
  induction a as [|c a IH]; simpl; [done|].
  intros H. apply andb_true_iff in H as [Hc Ha]. apply negb_true_iff in Hc.
  by rewrite Hc, IH.
Qed.

Lemma split_colon_length (s : string) : length (split_colon s) = S (colons s).
Proof.
  induction s as [|c s IH]; simpl; [done|].
  destruct (is_colon c); simpl; [by rewrite IH|].
  pose proof (split_colon_nonempty s). destruct (split_colon s); [done|]. simpl in *. lia.
Qed.

Lemma host_port_match_from_colons (s : string) (seen : bool) :
  host_port_match_from seen s = true → (1 ≤ colons s)%nat.
Proof.
  revert seen. induction s as [|c s IH]; intros seen; simpl; [done|].
  destruct (is_colon c); [lia|]. intros H. apply IH in H. lia.
Qed.

Lemma colons_app (x y : string) : colons (x +:+ y) = (colons x + colons y)%nat.
Proof. induction x as [|c x IH]; simpl; [done|]. rewrite IH. lia. Qed.

Lemma starts_with_digit_app (b c : string) :
  starts_with_digit b = true → starts_with_digit (b +:+ c) = true.
Proof. by destruct b. Qed.

(** ** Running [_prepare] on a client without collaborators *)

Section PreparationRuns.
Context {W : Type} `{!Protocol W} `{!Collaborators W}.
Implicit Types st : state W.

#[local] Arguments host_port_match : simpl never.
#[local] Arguments split_colon : simpl never.

Lemma _prepare_with_body st :
  _prepare_with getattr_quiet setattr_quiet st
  = _prepare_body getattr_quiet setattr_quiet
      (mkState (self st) (world st) (trace st ++ [CallPrepareHook])).
Proof. reflexivity. Qed.

Lemma read_attr_is key (v : value) st :
  attrs (self st) !! key = Some v → read_attr key st = (Return v, st).
Proof. intros Hv. unfold read_attr. by rewrite Hv. Qed.

Lemma getattr_quiet_raw key (v : value) st :
  is_property key = false → attrs (self st) !! key = Some v →
  getattr_quiet key st = (Return v, st).
Proof.
  intros Hk Hv. unfold getattr_quiet, object_getattribute. unfold is_property in Hk.
  repeat (apply orb_false_elim in Hk as [Hk ?]).
  repeat match goal with Heq : (_ =? _) = false |- _ => rewrite Heq; clear Heq end.
  by apply read_attr_is.
Qed.

Lemma prepare_field_plain field (v : value) st :
  is_property field = false → attrs (self st) !! field = Some v → callable v = false →
  prepare_field getattr_quiet setattr_quiet field st = (Return tt, st).
Proof.
  intros Hk Hv Hc. unfold prepare_field, bind.
  rewrite (getattr_quiet_raw field v) by done. by destruct v.
Qed.

Lemma assert_none_or_passes key (v : value) (isinstance : value → bool) msg st :
  is_property key = false → attrs (self st) !! key = Some v →
  is_none v || isinstance v = true →
  assert_none_or getattr_quiet key isinstance msg st = (Return tt, st).
Proof.
  intros Hk Hv Hok. unfold assert_none_or, bind.
  rewrite (getattr_quiet_raw key v) by done.
  destruct (is_none v); [done|]. rewrite (getattr_quiet_raw key v) by done.
  simpl in Hok. by rewrite Hok.
Qed.

Lemma assert_none_or_fails key (v : value) (isinstance : value → bool) msg st :
  is_property key = false → attrs (self st) !! key = Some v →
  is_none v = false → isinstance v = false →
  assert_none_or getattr_quiet key isinstance msg st = (Raise (AssertionError msg), st).
Proof.
  intros Hk Hv Hn Hi. unfold assert_none_or, bind.
  rewrite (getattr_quiet_raw key v) by done. rewrite Hn.
  rewrite (getattr_quiet_raw key v) by done. by rewrite Hi.
Qed.

(** Up to the loop over [prepared_fields], a client with no registry,
    whose [remote] is [None] or a tunnel, runs through [_prepare]
    without a change. *)
Lemma prepare_reaches_host st (r h p u pw : value) :
  configured (self st) r h p u pw →
  is_none r || is_remote r = true →
  callable h = false → callable p = false → callable u = false → callable pw = false →
  _prepare_with getattr_quiet setattr_quiet st
  = prepare_host_and_port getattr_quiet setattr_quiet
      (mkState (self st) (world st) (trace st ++ [CallPrepareHook])).
Proof.
  intros (Hpf & Hg & Hr & Hc & Hh & Hp & Hu & Hpw) Hrok Hch Hcp Hcu Hcpw.
  unfold _prepare_with. unfold bind at 1. simpl.
  set (st1 := mkState (self st) (world st) (trace st ++ [CallPrepareHook])).
  unfold bind at 1.
  rewrite (assert_none_or_passes "registry" VNone) by done.
  unfold bind at 1. rewrite (getattr_quiet_raw "registry" VNone) by done. simpl.
  unfold bind at 1. simpl.
  unfold bind at 1. rewrite (assert_none_or_passes "remote" r) by done.
  unfold bind at 1. rewrite (assert_none_or_passes "cache" VNone) by done.
  unfold bind at 1. simpl. rewrite Hpf. simpl.
  unfold bind at 1. unfold bind at 1.
  rewrite (prepare_field_plain "_host" h) by done.
  unfold bind at 1. rewrite (prepare_field_plain "_port" p) by done.
  unfold bind at 1. rewrite (prepare_field_plain "_username" u) by done.
  unfold bind at 1. rewrite (prepare_field_plain "_password" pw) by done.
  reflexivity.
Qed.

Lemma store_attr_is key (v : value) st :
  store_attr key v st = (Return tt, mkState (set_attrs (insert key v) (self st)) (world st) (trace st)).
Proof. reflexivity. Qed.

Lemma balance_hosts_skipped (h : value) st :
  is_list h = false → balance_hosts getattr_quiet setattr_quiet h st = (Return tt, st).
Proof. intros Hl. unfold balance_hosts. by rewrite Hl. Qed.

Lemma split_host_port_none st :
  split_host_port getattr_quiet setattr_quiet VNone st = (Return tt, st).
Proof. reflexivity. Qed.

Lemma split_host_port_no_match (s : string) st :
  attrs (self st) !! "_host" = Some (VStr s) → host_port_match s = false →
  split_host_port getattr_quiet setattr_quiet (VStr s) st = (Return tt, st).
Proof.
  intros Hh Hm. unfold split_host_port. simpl. unfold bind.
  rewrite (getattr_quiet_raw "_host" (VStr s)) by done. by rewrite Hm.
Qed.

Lemma split_host_port_two (s a b : string) st :
  attrs (self st) !! "_host" = Some (VStr s) → host_port_match s = true →
  split_colon s = [a; b] →
  split_host_port getattr_quiet setattr_quiet (VStr s) st
  = (Return tt,
     mkState (set_attrs (λ m, <["_port" := VStr b]> (<["_host" := VStr a]> m)) (self st))
             (world st) (trace st)).
Proof.
  intros Hh Hm Hs. unfold split_host_port. simpl. unfold bind at 1.
  rewrite (getattr_quiet_raw "_host" (VStr s)) by done. rewrite Hm. simpl.
  unfold bind at 1. rewrite (getattr_quiet_raw "_host" (VStr s)) by done. rewrite Hs.
  reflexivity.
Qed.

Lemma split_host_port_many (s : string) st :
  attrs (self st) !! "_host" = Some (VStr s) → host_port_match s = true →
  (2 ≤ colons s)%nat →
  split_host_port getattr_quiet setattr_quiet (VStr s) st
  = (Raise (ValueError "too many values to unpack"), st).
Proof.
  intros Hh Hm Hs. unfold split_host_port. simpl. unfold bind at 1.
  rewrite (getattr_quiet_raw "_host" (VStr s)) by done. rewrite Hm. simpl.
  unfold bind at 1. rewrite (getattr_quiet_raw "_host" (VStr s)) by done.
  pose proof (split_colon_length s) as Hlen.
  destruct (split_colon s) as [|x [|y [|z l]]]; simpl in Hlen; try lia. reflexivity.
Qed.

Lemma split_host_port_not_str (v : value) st :
  attrs (self st) !! "_host" = Some v → is_none v = false → is_str v = false →
  split_host_port getattr_quiet setattr_quiet v st
  = (Raise (TypeError "expected string or bytes-like object"), st).
Proof.
  intros Hh Hn Hs. unfold split_host_port. rewrite Hn. simpl. unfold bind.
  rewrite (getattr_quiet_raw "_host" v) by done. by destruct v.
Qed.

Lemma set_port_falsy (p : value) st :
  attrs (self st) !! "_port" = Some p → truthy p = false →
  set_port getattr_quiet setattr_quiet st
  = (Return tt, mkState (set_attrs (insert "_port" VNone) (self st)) (world st) (trace st)).
Proof.
  intros Hp Ht. unfold set_port. unfold bind at 1.
  rewrite (getattr_quiet_raw "_port" p) by done. rewrite Ht. reflexivity.
Qed.

Lemma set_port_converts (p v : value) st :
  attrs (self st) !! "_port" = Some p → truthy p = true →
  to_int p st = (Return v, st) →
  set_port getattr_quiet setattr_quiet st
  = (Return tt, mkState (set_attrs (insert "_port" v) (self st)) (world st) (trace st)).
Proof.
  intros Hp Ht Hi. unfold set_port. unfold bind at 1.
  rewrite (getattr_quiet_raw "_port" p) by done. rewrite Ht.
  unfold bind at 1. unfold bind at 1. rewrite (getattr_quiet_raw "_port" p) by done.
  rewrite Hi. reflexivity.
Qed.

Lemma set_port_refuses (p : value) (e : exn) st :
  attrs (self st) !! "_port" = Some p → truthy p = true →
  to_int p st = (Raise e, st) →
  set_port getattr_quiet setattr_quiet st = (Raise e, st).
Proof.
  intros Hp Ht Hi. unfold set_port. unfold bind at 1.
  rewrite (getattr_quiet_raw "_port" p) by done. rewrite Ht.
  unfold bind at 1. unfold bind at 1. rewrite (getattr_quiet_raw "_port" p) by done.
  by rewrite Hi.
Qed.

(** *** From [_prepare] to the read that triggered it *)

Lemma prepare_quiet_unprepared st :
  prepared (self st) = false →
  prepare_quiet st
  = (_prepare_with getattr_quiet setattr_quiet;; update (set_prepared true)) st.
Proof. intros Hp. unfold prepare_quiet, prepare_with. cbv [bind ask]. simpl. by rewrite Hp. Qed.

Lemma should_prepare_at_rest key (d : Duct) :
  at_rest d → key ∈ prepare_triggers d → should_prepare key d = true.
Proof.
  intros (Hp & Hg & Hd) Hk. unfold should_prepare. rewrite Hp, Hg, Hd. simpl.
  by apply bool_decide_eq_true_2.
Qed.

Lemma trigger_prepares key st st1 :
  at_rest (self st) → key ∈ prepare_triggers (self st) →
  _prepare_with getattr_quiet setattr_quiet
    (mkState (set_getting true (self st)) (world st) (trace st)) = (Return tt, st1) →
  trigger key st
  = (Return tt, mkState (set_getting false (set_prepared true (self st1))) (world st1) (trace st1)).
Proof.
  intros Hrest Hk Hrun. unfold trigger. rewrite should_prepare_at_rest by done.
  unfold bind at 1. simpl. rewrite prepare_quiet_unprepared by (simpl; apply Hrest).
  unfold bind. by rewrite Hrun.
Qed.

Lemma trigger_fails key st st1 (e : exn) :
  at_rest (self st) → key ∈ prepare_triggers (self st) →
  _prepare_with getattr_quiet setattr_quiet
    (mkState (set_getting true (self st)) (world st) (trace st)) = (Raise e, st1) →
  is_attribute_error e = false → is_exception e = true →
  trigger key st = (Raise e, mkState (set_getting false (self st1)) (world st1) (trace st1)).
Proof.
  intros Hrest Hk Hrun He Hx. unfold trigger. rewrite should_prepare_at_rest by done.
  unfold bind at 1. simpl. rewrite prepare_quiet_unprepared by (simpl; apply Hrest).
  unfold bind at 1. rewrite Hrun. by destruct e.
Qed.

Lemma configured_getting (d : Duct) (b : bool) (r h p u pw : value) :
  configured d r h p u pw → configured (set_getting b d) r h p u pw.
Proof. by destruct d. Qed.

Lemma getattr_fails key st st1 (e : exn) :
  trigger key st = (Raise e, st1) → getattr key st = (Raise e, st1).
Proof. intros Ht. unfold getattr, bind. by rewrite Ht. Qed.

Lemma trigger_prepares_as key st (f : gmap string value → gmap string value) (w1 : W) t1 :
  at_rest (self st) → key ∈ prepare_triggers (self st) →
  _prepare_with getattr_quiet setattr_quiet
    (mkState (set_getting true (self st)) (world st) (trace st))
  = (Return tt, mkState (set_attrs f (set_getting true (self st))) w1 t1) →
  trigger key st = (Return tt, mkState (prepared_as f (self st)) w1 t1).
Proof.
  intros Hrest Hk Hrun. rewrite (trigger_prepares key st _ Hrest Hk Hrun).
  destruct Hrest as (_ & Hg & _). destruct st as [[] w t]. simpl in *. by subst.
Qed.

Lemma trigger_fails_at key st (e : exn) (w1 : W) t1 :
  at_rest (self st) → key ∈ prepare_triggers (self st) →
  _prepare_with getattr_quiet setattr_quiet
    (mkState (set_getting true (self st)) (world st) (trace st))
  = (Raise e, mkState (set_getting true (self st)) w1 t1) →
  is_attribute_error e = false → is_exception e = true →
  trigger key st = (Raise e, mkState (self st) w1 t1).
Proof.
  intros Hrest Hk Hrun He Hx. rewrite (trigger_fails key st _ e Hrest Hk Hrun He Hx).
  destruct Hrest as (_ & Hg & _). destruct st as [[] w t]. simpl in *. by subst.
Qed.

Lemma trigger_key_of_field key (d : Duct) :
  key ∈ connection_fields d → key ∈ prepare_triggers d.
Proof. unfold prepare_triggers. set_solver. Qed.

Lemma prepared_as_quiet (f : gmap string value → gmap string value) (d : Duct) (w : W) t :
  quiet (mkState (prepared_as f d) w t).
Proof. done. Qed.

(** Reads of [host] and [port] on a prepared instance without tunnel. *)
Lemma prepared_as_local (f : gmap string value → gmap string value) (d : Duct) (h p : value) :
  f (attrs d) !! "remote" = Some VNone →
  f (attrs d) !! "_host" = Some h →
  f (attrs d) !! "_port" = Some p →
  local_config (prepared_as f d) VNone h p.
Proof. intros Hr Hh Hp. by repeat split. Qed.

(** The preparation that the first read runs on a host of the form
    [a:b]. *)
Lemma host_with_port_run (key : string) st (a b : string) (z : Z) (p u pw : value) :
  at_rest (self st) →
  key ∈ connection_fields (self st) →
  configured (self st) VNone (VStr (a +:+ ":" +:+ b)) p u pw →
  callable p = false → callable u = false → callable pw = false →
  a ≠ EmptyString → colon_free a = true → colon_free b = true → starts_with_digit b = true →
  int_of_str b = Some z →
  trigger key st
  = (Return tt,
     mkState (prepared_as (λ m, <["_port" := VInt z]> (<["_host" := VStr a]> m)) (self st))
             (world st) (trace st ++ [CallPrepareHook])).
Proof.
  intros Hrest Hfield Hconf Hcp Hcu Hcpw Ha Hfa Hfb Hdb Hint.
  assert (Hm : host_port_match (a +:+ ":" +:+ b) = true) by by apply host_port_match_app.
  assert (Hs : split_colon (a +:+ ":" +:+ b) = [a; b])
    by (by rewrite split_colon_app, split_colon_free).
  assert (Hb : truthy (VStr b) = true) by (by destruct b).
  apply trigger_prepares_as; [done|by apply trigger_key_of_field|].
  rewrite (prepare_reaches_host _ VNone (VStr (a +:+ ":" +:+ b)) p u pw)
    by (try apply configured_getting; done).
  simpl. destruct Hconf as (_ & _ & _ & _ & Hh & Hp & _).
  unfold prepare_host_and_port.
  unfold bind at 1. rewrite (getattr_quiet_raw "_host" (VStr (a +:+ ":" +:+ b))) by done.
  unfold bind at 1. rewrite balance_hosts_skipped by done.
  unfold bind at 1. rewrite (getattr_quiet_raw "_host" (VStr (a +:+ ":" +:+ b))) by done.
  unfold bind at 1. rewrite (split_host_port_two _ a b) by done.
  rewrite (set_port_converts (VStr b) (VInt z)).
  - simpl. do 2 f_equal. destruct (self st). unfold set_attrs. simpl.
    by rewrite insert_insert_eq.
  - simpl. by rewrite lookup_insert_eq.
  - done.
  - simpl. by rewrite Hint.
Qed.

(** X5.  A client built with a host of the form [a:b], where [b] starts
    with a digit and reads as the integer [z]: the first read of [host]
    prepares the instance, gives [a], and from then on [port] gives [z],
    whatever port the client was built with. *)
Theorem read_splits_host_and_port st (a b : string) (z : Z) (p u pw : value) :
  at_rest (self st) →
  "host" ∈ connection_fields (self st) →
  configured (self st) VNone (VStr (a +:+ ":" +:+ b)) p u pw →
  callable p = false → callable u = false → callable pw = false →
  a ≠ EmptyString → colon_free a = true → colon_free b = true → starts_with_digit b = true →
  int_of_str b = Some z →
  let st' := mkState (prepared_as (λ m, <["_port" := VInt z]> (<["_host" := VStr a]> m)) (self st))
                     (world st) (trace st ++ [CallPrepareHook]) in
  getattr "host" st = (Return (VStr a), st')
  ∧ getattr "port" st' = (Return (VInt z), st').
Proof.
  intros Hrest Hfield Hconf Hcp Hcu Hcpw Ha Hfa Hfb Hdb Hint st'.
  pose proof (host_with_port_run "host" st a b z p u pw Hrest Hfield Hconf Hcp Hcu Hcpw
                Ha Hfa Hfb Hdb Hint) as Htrig.
  destruct Hconf as (_ & _ & Hr & _).
  assert (Hlocal : local_config (self st') VNone (VStr a) (VInt z)).
  { apply prepared_as_local.
    - by rewrite !lookup_insert_ne.
    - by rewrite lookup_insert_ne, lookup_insert_eq.
    - by rewrite lookup_insert_eq. }
  split.
  - rewrite (getattr_after_trigger "host" st st' Htrig) by done.
    rewrite <- (getattr_quiet_state "host" st') by done.
    exact (local_read_host _ _ _ _ _ _ Hlocal).
  - exact (local_read_port _ _ _ _ _ _ Hlocal).
Qed.

(** X6.  A host with a second colon, [a:b:c] with [b] starting with a
    digit, passes the test on the host pattern, which looks at the start
    of the string only; the split then gives more than two parts, and the
    first read of [host] raises [ValueError], leaving the instance
    unprepared and its attributes as they were. *)
Theorem read_rejects_second_colon st (a b c : string) (p u pw : value) :
  at_rest (self st) →
  "host" ∈ connection_fields (self st) →
  configured (self st) VNone (VStr (a +:+ ":" +:+ b +:+ ":" +:+ c)) p u pw →
  callable p = false → callable u = false → callable pw = false →
  a ≠ EmptyString → colon_free a = true → starts_with_digit b = true →
  getattr "host" st
  = (Raise (ValueError "too many values to unpack"),
     mkState (self st) (world st) (trace st ++ [CallPrepareHook])).
Proof.
  intros Hrest Hfield Hconf Hcp Hcu Hcpw Ha Hfa Hdb.
  set (s := a +:+ ":" +:+ b +:+ ":" +:+ c) in *.
  assert (Hm : host_port_match s = true)
    by (apply host_port_match_app; [done|done|by apply starts_with_digit_app]).
  assert (Hcount : (2 ≤ colons s)%nat).
  { unfold s. rewrite !colons_app. simpl. lia. }
  apply getattr_fails.
  apply (trigger_fails_at "host" st); [done|by apply trigger_key_of_field| |done|done].
  rewrite (prepare_reaches_host _ VNone (VStr s) p u pw)
    by (try apply configured_getting; done).
  simpl. destruct Hconf as (_ & _ & _ & _ & Hh & _).
  unfold prepare_host_and_port.
  unfold bind at 1. rewrite (getattr_quiet_raw "_host" (VStr s)) by done.
  unfold bind at 1. rewrite balance_hosts_skipped by done.
  unfold bind at 1. rewrite (getattr_quiet_raw "_host" (VStr s)) by done.
  unfold bind at 1. by rewrite split_host_port_many.
Qed.

(** The end of [_prepare] when the host carries no port. *)
Lemma prepare_keeps_host st (h : value) :
  attrs (self st) !! "_host" = Some h →
  h = VNone ∨ (∃ s, h = VStr s ∧ host_port_match s = false) →
  prepare_host_and_port getattr_quiet setattr_quiet st
  = set_port getattr_quiet setattr_quiet st.
Proof.
  intros Hh Hcase. unfold prepare_host_and_port.
  unfold bind at 1. rewrite (getattr_quiet_raw "_host" h) by done.
  unfold bind at 1. rewrite balance_hosts_skipped by (by destruct Hcase as [->|(s & -> & _)]).
  unfold bind at 1. rewrite (getattr_quiet_raw "_host" h) by done.
  unfold bind at 1. destruct Hcase as [->|(s & -> & Hm)].
  - by rewrite split_host_port_none.
  - by rewrite split_host_port_no_match.
Qed.

(** X7.  Preparation leaves a port of [int] type alone, turns a port
    given as a string of digits into the integer it reads as, and turns
    every falsy port (the integer 0 and the empty string included) into
    [None]; a string that [int] refuses makes the first read raise
    [ValueError].  The client has no tunnel and a host without port. *)
Theorem read_normalises_port st (h p u pw : value) :
  at_rest (self st) →
  "port" ∈ connection_fields (self st) →
  configured (self st) VNone h p u pw →
  callable p = false → callable u = false → callable pw = false →
  h = VNone ∨ (∃ s, h = VStr s ∧ host_port_match s = false) →
  let becomes v := mkState (prepared_as (insert "_port" v) (self st))
                           (world st) (trace st ++ [CallPrepareHook]) in
  (truthy p = false → getattr "port" st = (Return VNone, becomes VNone))
  ∧ (∀ z, p = VInt z → z ≠ 0%Z → getattr "port" st = (Return (VInt z), becomes (VInt z)))
  ∧ (∀ s z, p = VStr s → s ≠ EmptyString → int_of_str s = Some z →
       getattr "port" st = (Return (VInt z), becomes (VInt z)))
  ∧ (∀ s, p = VStr s → s ≠ EmptyString → int_of_str s = None →
       getattr "port" st
       = (Raise (ValueError "invalid literal for int()"),
          mkState (self st) (world st) (trace st ++ [CallPrepareHook]))).
Proof.
  intros Hrest Hfield Hconf Hcp Hcu Hcpw Hcase becomes.
  assert (Hch : callable h = false) by (by destruct Hcase as [->|(s & -> & _)]).
  pose proof (trigger_key_of_field _ _ Hfield) as Hkey.
  assert (Hhead : _prepare_with getattr_quiet setattr_quiet
                    (mkState (set_getting true (self st)) (world st) (trace st))
                  = set_port getattr_quiet setattr_quiet
                      (mkState (set_getting true (self st)) (world st)
                               (trace st ++ [CallPrepareHook]))).
  { rewrite (prepare_reaches_host _ VNone h p u pw) by (try apply configured_getting; done).
    simpl. apply (prepare_keeps_host _ h); [|done]. simpl. apply Hconf. }
  assert (Hp : attrs (set_getting true (self st)) !! "_port" = Some p) by apply Hconf.
  assert (Hgood : ∀ v, set_port getattr_quiet setattr_quiet
                         (mkState (set_getting true (self st)) (world st)
                                  (trace st ++ [CallPrepareHook]))
                       = (Return tt, mkState (set_attrs (insert "_port" v)
                                                (set_getting true (self st)))
                                             (world st) (trace st ++ [CallPrepareHook])) →
                       getattr "port" st = (Return v, becomes v)).
  { intros v Hset. rewrite <- Hhead in Hset.
    pose proof (trigger_prepares_as "port" st _ _ _ Hrest Hkey Hset) as Htrig.
    rewrite (getattr_after_trigger "port" st _ Htrig) by done.
    rewrite <- (getattr_quiet_state "port") by done.
    apply (local_read_port _ _ _ VNone h v). apply prepared_as_local.
    - rewrite lookup_insert_ne by done. apply Hconf.
    - rewrite lookup_insert_ne by done. apply Hconf.
    - by rewrite lookup_insert_eq. }
  split; [|split; [|split]].
  - intros Ht. apply Hgood. by apply (set_port_falsy p).
  - intros z -> Hz. apply Hgood. apply (set_port_converts (VInt z) (VInt z) (mkState _ _ _)); [done| |done].
    simpl. by apply negb_true_iff, Z.eqb_neq.
  - intros s z -> Hs Hint. apply Hgood. apply (set_port_converts (VStr s) (VInt z) (mkState _ _ _)); [done| |].
    + simpl. apply negb_true_iff. by apply String.eqb_neq.
    + simpl. by rewrite Hint.
  - intros s -> Hs Hint. apply getattr_fails.
    apply (trigger_fails_at "port" st); [done|done| |done|done].
    rewrite Hhead. apply (set_port_refuses (VStr s) _ (mkState _ _ _)); [done| |].
    + simpl. apply negb_true_iff. by apply String.eqb_neq.
    + simpl. by rewrite Hint.
Qed.

(** X8.  [_prepare] starts with the types of the collaborators: a
    [registry] that is neither [None] nor a registry, then a [remote]
    that is neither [None] nor a tunnel (a remote given by name when
    there is no registry, for one), then a [cache] that is neither [None]
    nor a cache, makes the first read of a trigger attribute raise
    [AssertionError]; nothing of the instance has changed by then. *)
Theorem read_checks_collaborator_types st (key : string) :
  at_rest (self st) →
  key ∈ prepare_triggers (self st) →
  let failed msg := (Raise (AssertionError msg),
                     mkState (self st) (world st) (trace st ++ [CallPrepareHook])) in
  (∀ g, attrs (self st) !! "registry" = Some g → is_none g = false → is_registry g = false →
     getattr key st
     = failed "Provided registry is not an instance of `omniduct.registry.DuctRegistry`.")
  ∧ (∀ r, attrs (self st) !! "registry" = Some VNone →
       attrs (self st) !! "remote" = Some r → is_none r = false → is_remote r = false →
       getattr key st
       = failed "Provided remote is not an instance of `omniduct.remotes.base.RemoteClient`.")
  ∧ (∀ r c, attrs (self st) !! "registry" = Some VNone →
       attrs (self st) !! "remote" = Some r → is_none r || is_remote r = true →
       attrs (self st) !! "cache" = Some c → is_none c = false → is_cache c = false →
       getattr key st
       = failed "Provided cache is not an instance of `omniduct.caches.base.Cache`.").
Proof.
  intros Hrest Hkey failed.
  assert (Hfail : ∀ msg,
            _prepare_with getattr_quiet setattr_quiet
              (mkState (set_getting true (self st)) (world st) (trace st))
            = (Raise (AssertionError msg),
               mkState (set_getting true (self st)) (world st) (trace st ++ [CallPrepareHook])) →
            getattr key st = failed msg).
  { intros msg Hrun. apply getattr_fails. by apply (trigger_fails_at key st). }
  split; [|split].
  - intros g Hg Hn Hi. apply Hfail. unfold _prepare_with. unfold bind at 1. simpl.
    unfold bind at 1. by rewrite (assert_none_or_fails "registry" g).
  - intros r Hg Hr Hn Hi. apply Hfail. unfold _prepare_with. unfold bind at 1. simpl.
    unfold bind at 1. rewrite (assert_none_or_passes "registry" VNone) by done.
    unfold bind at 1. rewrite (getattr_quiet_raw "registry" VNone) by done. simpl.
    unfold bind at 1. simpl.
    unfold bind at 1. by rewrite (assert_none_or_fails "remote" r).
  - intros r c Hg Hr Hrok Hc Hn Hi. apply Hfail. unfold _prepare_with. unfold bind at 1. simpl.
    unfold bind at 1. rewrite (assert_none_or_passes "registry" VNone) by done.
    unfold bind at 1. rewrite (getattr_quiet_raw "registry" VNone) by done. simpl.
    unfold bind at 1. simpl.
    unfold bind at 1. rewrite (assert_none_or_passes "remote" r) by done.
    unfold bind at 1. by rewrite (assert_none_or_fails "cache" c).
Qed.

End PreparationRuns.

(** ** Lazy hosts, lists of hosts and remotes given by name *)

Section PreparationPaths.
Context {W : Type} `{!Protocol W} `{!Collaborators W}.
Implicit Types st : state W.

#[local] Arguments host_port_match : simpl never.
#[local] Arguments split_colon : simpl never.
#[local] Arguments dict_set : simpl never.
#[local] Arguments dict_has : simpl never.

(** The end of [_prepare] for a host that carries no port and a port
    that is a non-zero integer already. *)
Lemma prepare_host_and_port_plain st (s : string) (z : Z) :
  attrs (self st) !! "_host" = Some (VStr s) → host_port_match s = false →
  attrs (self st) !! "_port" = Some (VInt z) → z ≠ 0%Z →
  prepare_host_and_port getattr_quiet setattr_quiet st
  = (Return tt, mkState (set_attrs (insert "_port" (VInt z)) (self st)) (world st) (trace st)).
Proof.
  intros Hh Hm Hp Hz. rewrite (prepare_keeps_host st (VStr s)) by eauto.
  apply (set_port_converts (VInt z)); [done| |done].
  simpl. by apply negb_true_iff, Z.eqb_neq.
Qed.

Lemma prepare_reaches_fields st (r : value) :
  attrs (self st) !! "registry" = Some VNone →
  attrs (self st) !! "remote" = Some r → is_none r || is_remote r = true →
  attrs (self st) !! "cache" = Some VNone →
  _prepare_with getattr_quiet setattr_quiet st
  = (for_each (prepared_fields (self st)) (prepare_field getattr_quiet setattr_quiet);;
     prepare_host_and_port getattr_quiet setattr_quiet)
      (mkState (self st) (world st) (trace st ++ [CallPrepareHook])).
Proof.
  intros Hg Hr Hrok Hc.
  unfold _prepare_with. unfold bind at 1. simpl.
  unfold bind at 1.
  rewrite (assert_none_or_passes "registry" VNone) by done.
  unfold bind at 1. rewrite (getattr_quiet_raw "registry" VNone) by done. simpl.
  unfold bind at 1. simpl.
  unfold bind at 1. rewrite (assert_none_or_passes "remote" r) by done.
  unfold bind at 1. rewrite (assert_none_or_passes "cache" VNone) by done.
  reflexivity.
Qed.

(** The preparation that the first read runs on a callable host. *)
Lemma lazy_host_run (key : string) st (f : nat) (h : value) (z : Z) (u pw : value) (w1 : W) :
  at_rest (self st) →
  key ∈ connection_fields (self st) →
  configured (self st) VNone (VCallable f) (VInt z) u pw →
  callable u = false → callable pw = false → z ≠ 0%Z →
  call_value f
    (set_prepreparation_values
       (dict_set "_host" (VCallable f) (prepreparation_values (self st)))
       (set_getting true (self st)))
    (world st) = (Return h, w1) →
  h = VNone ∨ (∃ s, h = VStr s ∧ host_port_match s = false) →
  trigger key st
  = (Return tt,
     mkState (prepared_saving "_host" (VCallable f)
                (λ m, <["_port" := VInt z]> (<["_host" := h]> m)) (self st))
             w1 (trace st ++ [CallPrepareHook])).
Proof.
  intros Hrest Hfield Hconf Hcu Hcpw Hz Hcall Hcase.
  pose proof Hconf as (Hpf & Hg & Hr & Hc & Hh & Hp & Hu & Hpw).
  set (d1 := set_prepreparation_values
               (dict_set "_host" (VCallable f) (prepreparation_values (self st)))
               (set_getting true (self st))) in *.
  assert (Hrun : _prepare_with getattr_quiet setattr_quiet
                   (mkState (set_getting true (self st)) (world st) (trace st))
                 = (Return tt,
                    mkState (set_attrs (λ m, <["_port" := VInt z]> (<["_host" := h]> m)) d1)
                            w1 (trace st ++ [CallPrepareHook]))).
  { rewrite (prepare_reaches_fields _ VNone) by done. simpl. rewrite Hpf.
    unfold bind at 1. simpl for_each.
    unfold bind at 1. unfold prepare_field at 1.
    unfold bind at 1. rewrite (getattr_quiet_raw "_host" (VCallable f)) by done.
    cbv [bind snapshot update ask extern]. cbn [self world trace].
    match goal with |- context [call_value f ?d (world st)] => change d with d1 end.
    rewrite Hcall.
    change (setattr_quiet "_host" h) with (store_attr (W := W) "_host" h).
    rewrite store_attr_is. cbn [self world trace].
    rewrite (prepare_field_plain "_port" (VInt z))
      by (try done; simpl; by rewrite lookup_insert_ne).
    rewrite (prepare_field_plain "_username" u)
      by (try done; simpl; by rewrite lookup_insert_ne).
    rewrite (prepare_field_plain "_password" pw)
      by (try done; simpl; by rewrite lookup_insert_ne).
    cbn [ret].
    rewrite (prepare_keeps_host _ h) by (try done; simpl; by rewrite lookup_insert_eq).
    rewrite (set_port_converts (VInt z) (VInt z));
      [reflexivity|simpl; by rewrite lookup_insert_ne| |done].
    simpl. by apply negb_true_iff, Z.eqb_neq. }
  pose proof (trigger_prepares key st _ Hrest (trigger_key_of_field _ _ Hfield) Hrun) as Htrig.
  cbn [self world trace] in Htrig. rewrite Htrig. do 2 f_equal.
  destruct Hrest as (_ & Hgt & _). unfold d1, prepared_saving.
  destruct (self st). simpl in *. by subst.
Qed.

(** X19.  A client built with a callable as host: the first read of
    [host] saves the callable in [__prepreparation_values], calls it
    with the instance and stores what it returns, here [None] or a host
    name without port, which the read then gives. *)
Theorem read_calls_lazy_host st (f : nat) (h : value) (z : Z) (u pw : value) (w1 : W) :
  at_rest (self st) →
  "host" ∈ connection_fields (self st) →
  configured (self st) VNone (VCallable f) (VInt z) u pw →
  callable u = false → callable pw = false → z ≠ 0%Z →
  call_value f
    (set_prepreparation_values
       (dict_set "_host" (VCallable f) (prepreparation_values (self st)))
       (set_getting true (self st)))
    (world st) = (Return h, w1) →
  h = VNone ∨ (∃ s, h = VStr s ∧ host_port_match s = false) →
  getattr "host" st
  = (Return h,
     mkState (prepared_saving "_host" (VCallable f)
                (λ m, <["_port" := VInt z]> (<["_host" := h]> m)) (self st))
             w1 (trace st ++ [CallPrepareHook])).
Proof.
  intros Hrest Hfield Hconf Hcu Hcpw Hz Hcall Hcase.
  pose proof (lazy_host_run "host" st f h z u pw w1 Hrest Hfield Hconf Hcu Hcpw Hz Hcall Hcase)
    as Htrig.
  destruct Hconf as (_ & _ & Hr & _).
  rewrite (getattr_after_trigger "host" st _ Htrig) by done.
  rewrite <- (getattr_quiet_state "host") by done.
  apply (local_read_host _ _ _ VNone h (VInt z)).
  repeat split; simpl.
  - by rewrite !lookup_insert_ne.
  - by rewrite lookup_insert_ne, lookup_insert_eq.
  - by rewrite lookup_insert_eq.
Qed.

(** X20.  A client built with a list of hosts: the first read of [host]
    saves the list in [__prepreparation_values], hands it to
    [naive_load_balancer] together with the port, and stores the host
    that comes back, which the read then gives. *)
Theorem read_balances_host_list st (hosts : list string) (s : string) (z : Z)
    (u pw : value) (w1 : W) :
  at_rest (self st) →
  "host" ∈ connection_fields (self st) →
  configured (self st) VNone (VList hosts) (VInt z) u pw →
  callable u = false → callable pw = false → z ≠ 0%Z →
  dict_has "_host" (prepreparation_values (self st)) = false →
  naive_load_balancer hosts (VInt z) (world st) = (Return (VStr s), w1) →
  host_port_match s = false →
  getattr "host" st
  = (Return (VStr s),
     mkState (prepared_saving "_host" (VList hosts)
                (λ m, <["_port" := VInt z]> (<["_host" := VStr s]> m)) (self st))
             w1 (trace st ++ [CallPrepareHook])).
Proof.
  intros Hrest Hfield Hconf Hcu Hcpw Hz Hfresh Hpick Hm.
  pose proof Hconf as (Hpf & Hg & Hr & Hc & Hh & Hp & Hu & Hpw).
  set (d1 := set_prepreparation_values
               (dict_set "_host" (VList hosts) (prepreparation_values (self st)))
               (set_getting true (self st))) in *.
  assert (Hrun : _prepare_with getattr_quiet setattr_quiet
                   (mkState (set_getting true (self st)) (world st) (trace st))
                 = (Return tt,
                    mkState (set_attrs (λ m, <["_port" := VInt z]> (<["_host" := VStr s]> m)) d1)
                            w1 (trace st ++ [CallPrepareHook]))).
  { rewrite (prepare_reaches_host _ VNone (VList hosts) (VInt z) u pw)
      by (try apply configured_getting; done).
    cbn [self world trace]. unfold prepare_host_and_port.
    unfold bind at 1. rewrite (getattr_quiet_raw "_host" (VList hosts)) by done.
    unfold bind at 1. unfold balance_hosts at 1. cbn [is_list when].
    unfold bind at 1. cbn [ask self]. cbn [prepreparation_values set_getting].
    rewrite Hfresh. cbn [negb when].
    unfold bind at 1. unfold bind at 1.
    rewrite (getattr_quiet_raw "_host" (VList hosts)) by done.
    unfold snapshot, update. cbn [self world trace].
    unfold bind at 1. rewrite (getattr_quiet_raw "_host" (VList hosts)) by done.
    unfold bind at 1. rewrite (getattr_quiet_raw "_port" (VInt z)) by done.
    unfold bind at 1. unfold extern. cbn [self world trace]. rewrite Hpick.
    change (setattr_quiet "_host" (VStr s)) with (store_attr (W := W) "_host" (VStr s)).
    rewrite store_attr_is. cbn [self world trace].
    unfold bind at 1.
    rewrite (getattr_quiet_raw "_host" (VStr s)) by (try done; simpl; by rewrite lookup_insert_eq).
    unfold bind at 1.
    rewrite split_host_port_no_match by (try done; simpl; by rewrite lookup_insert_eq).
    rewrite (set_port_converts (VInt z) (VInt z));
      [reflexivity|simpl; by rewrite lookup_insert_ne| |done].
    simpl. by apply negb_true_iff, Z.eqb_neq. }
  pose proof (trigger_prepares "host" st _ Hrest (trigger_key_of_field _ _ Hfield) Hrun) as Htrig.
  cbn [self world trace] in Htrig.
  assert (Hfinal : set_getting false (set_prepared true
                     (set_attrs (λ m, <["_port" := VInt z]> (<["_host" := VStr s]> m)) d1))
                   = prepared_saving "_host" (VList hosts)
                       (λ m, <["_port" := VInt z]> (<["_host" := VStr s]> m)) (self st)).
  { destruct Hrest as (_ & Hgt & _). unfold d1, prepared_saving.
    destruct (self st). simpl in *. by subst. }
  rewrite Hfinal in Htrig.
  rewrite (getattr_after_trigger "host" st _ Htrig) by done.
  rewrite <- (getattr_quiet_state "host") by done.
  apply (local_read_host _ _ _ VNone (VStr s) (VInt z)).
  repeat split; simpl.
  - by rewrite !lookup_insert_ne.
  - by rewrite lookup_insert_ne, lookup_insert_eq.
  - by rewrite lookup_insert_eq.
Qed.

Lemma lookup_by_name_skips key (kind : DuctType) (v : value) st :
  is_property key = false → attrs (self st) !! key = Some v →
  truthy v && is_str v = false →
  lookup_by_name getattr_quiet setattr_quiet key kind st = (Return tt, st).
Proof.
  intros Hk Hv Hskip. unfold lookup_by_name.
  unfold bind at 1. rewrite (getattr_quiet_raw key v) by done.
  destruct (truthy v); simpl in Hskip.
  - unfold bind at 1. unfold bind at 1. rewrite (getattr_quiet_raw key v) by done.
    cbn [ret]. by rewrite Hskip.
  - reflexivity.
Qed.

Lemma lookup_by_name_resolves key (kind : DuctType) (n : string) (g : nat) (found : value)
    (w1 : W) st :
  is_property key = false → key ≠ "registry" →
  attrs (self st) !! key = Some (VStr n) → n ≠ EmptyString →
  attrs (self st) !! "registry" = Some (VRegistry g) →
  registry_lookup g (VStr n) kind (world st) = (Return found, w1) →
  lookup_by_name getattr_quiet setattr_quiet key kind st
  = (Return tt,
     mkState (set_attrs (insert key found)
                (set_prepreparation_values
                   (dict_set key (VStr n) (prepreparation_values (self st))) (self st)))
             w1 (trace st)).
Proof.
  intros Hk Hne Hv Hn Hg Hfound. unfold lookup_by_name.
  assert (Ht : truthy (VStr n) = true) by (simpl; apply negb_true_iff; by apply String.eqb_neq).
  unfold bind at 1. rewrite (getattr_quiet_raw key (VStr n)) by done. rewrite Ht.
  unfold bind at 1. unfold bind at 1. rewrite (getattr_quiet_raw key (VStr n)) by done.
  cbn [ret is_str when].
  unfold bind at 1. rewrite (getattr_quiet_raw key (VStr n)) by done.
  unfold bind at 1. unfold snapshot, update. cbn [self world trace].
  unfold bind at 1. rewrite (getattr_quiet_raw "registry" (VRegistry g)) by done.
  unfold bind at 1. cbn [as_registry ret].
  unfold bind at 1. rewrite (getattr_quiet_raw key (VStr n)) by done.
  unfold bind at 1. unfold extern. cbn [self world trace]. rewrite Hfound.
  unfold setattr_quiet, object_setattr. rewrite Hk. reflexivity.
Qed.

(** X21.  A client built with a registry and the name of a remote: the
    first read of [host] saves the name in [__prepreparation_values],
    replaces it by what the registry's [lookup] gives for that name
    among the remotes, here a tunnel, and the read then gives the
    loopback address. *)
Theorem read_resolves_remote_name st (g rc : nat) (n s : string) (z : Z)
    (u pw : value) (w1 : W) :
  at_rest (self st) →
  "host" ∈ connection_fields (self st) →
  prepared_fields (self st) = ["_host"; "_port"; "_username"; "_password"] →
  attrs (self st) !! "registry" = Some (VRegistry g) →
  attrs (self st) !! "remote" = Some (VStr n) → n ≠ EmptyString →
  attrs (self st) !! "cache" = Some VNone →
  attrs (self st) !! "_host" = Some (VStr s) → host_port_match s = false →
  attrs (self st) !! "_port" = Some (VInt z) → z ≠ 0%Z →
  attrs (self st) !! "_username" = Some u → callable u = false →
  attrs (self st) !! "_password" = Some pw → callable pw = false →
  registry_lookup g (VStr n) REMOTE (world st) = (Return (VRemote rc), w1) →
  getattr "host" st
  = (Return (VStr "127.0.0.1"),
     mkState (prepared_saving "remote" (VStr n)
                (λ m, <["_port" := VInt z]> (<["remote" := VRemote rc]> m)) (self st))
             w1 (trace st ++ [CallPrepareHook])).
Proof.
  intros Hrest Hfield Hpf Hg Hr Hn Hc Hh Hm Hp Hz Hu Hcu Hpw Hcpw Hfound.
  set (d1 := set_prepreparation_values
               (dict_set "remote" (VStr n) (prepreparation_values (self st)))
               (set_getting true (self st))) in *.
  assert (Hrun : _prepare_with getattr_quiet setattr_quiet
                   (mkState (set_getting true (self st)) (world st) (trace st))
                 = (Return tt,
                    mkState (set_attrs (λ m, <["_port" := VInt z]> (<["remote" := VRemote rc]> m))
                                       d1)
                            w1 (trace st ++ [CallPrepareHook]))).
  { rewrite _prepare_with_body. unfold _prepare_body. cbn [self world trace].
    unfold bind at 1.
    rewrite (assert_none_or_passes "registry" (VRegistry g)) by done.
    unfold bind at 1. rewrite (getattr_quiet_raw "registry" (VRegistry g)) by done.
    cbn [is_none negb when].
    unfold bind at 1. unfold bind at 1.
    rewrite (lookup_by_name_resolves "remote" REMOTE n g (VRemote rc) w1) by done.
    cbn [self world trace].
    rewrite (lookup_by_name_skips "cache" CACHE VNone)
      by (try done; simpl; by rewrite lookup_insert_ne).
    unfold bind at 1.
    rewrite (assert_none_or_passes "remote" (VRemote rc))
      by (try done; simpl; by rewrite lookup_insert_eq).
    unfold bind at 1.
    rewrite (assert_none_or_passes "cache" VNone)
      by (try done; simpl; by rewrite lookup_insert_ne).
    unfold bind at 1. cbn [ask self]. cbn [prepared_fields set_attrs set_prepreparation_values
      set_getting]. rewrite Hpf. cbn [for_each].
    unfold bind at 1. unfold bind at 1.
    rewrite (prepare_field_plain "_host" (VStr s))
      by (try done; simpl; by rewrite lookup_insert_ne).
    unfold bind at 1.
    rewrite (prepare_field_plain "_port" (VInt z))
      by (try done; simpl; by rewrite lookup_insert_ne).
    unfold bind at 1.
    rewrite (prepare_field_plain "_username" u)
      by (try done; simpl; by rewrite lookup_insert_ne).
    unfold bind at 1.
    rewrite (prepare_field_plain "_password" pw)
      by (try done; simpl; by rewrite lookup_insert_ne).
    cbn [ret].
    rewrite (prepare_host_and_port_plain _ s z)
      by first [done|simpl; by rewrite lookup_insert_ne].
    reflexivity. }
  pose proof (trigger_prepares "host" st _ Hrest (trigger_key_of_field _ _ Hfield) Hrun) as Htrig.
  cbn [self world trace] in Htrig.
  assert (Hfinal : set_getting false (set_prepared true
                     (set_attrs (λ m, <["_port" := VInt z]> (<["remote" := VRemote rc]> m)) d1))
                   = prepared_saving "remote" (VStr n)
                       (λ m, <["_port" := VInt z]> (<["remote" := VRemote rc]> m)) (self st)).
  { destruct Hrest as (_ & Hgt & _). unfold d1, prepared_saving.
    destruct (self st). simpl in *. by subst. }
  rewrite Hfinal in Htrig.
  rewrite (getattr_after_trigger "host" st _ Htrig) by done.
  change (getattr_quiet "host") with (host_getter (W := W) read_attr).
  unfold host_getter, bind.
  rewrite (read_attr_is "remote" (VRemote rc)); [done|].
  simpl. by rewrite lookup_insert_ne, lookup_insert_eq.
Qed.

End PreparationPaths.

(** ** Reconnecting and resetting *)

Section LifecycleFacts.
Context {W : Type} `{!Protocol W} `{!Collaborators W}.
Implicit Types st : state W.

#[local] Arguments getattr : simpl never.
#[local] Arguments disconnect : simpl never.
#[local] Arguments is_connected : simpl never.
#[local] Arguments connect : simpl never.

(** X9.  [reconnect] is [self.disconnect().connect()].  On an instance
    that has not been prepared [disconnect] returns [None], so
    [reconnect] raises [AttributeError] without calling a hook; on a
    prepared instance whose [disconnect] returns, it is [connect] run on
    what [disconnect] has left. *)
Theorem reconnect_needs_preparation st :
  (prepared (self st) = false →
     reconnect st
     = (Raise (AttributeError "connect"),
        mkState (self st) (world st) (trace st ++ [CallDisconnect])))
  ∧ (prepared (self st) = true → ∀ r st1,
       disconnect st = (Return r, st1) → reconnect st = connect st1).
Proof.
  split.
  - intros Hp. unfold reconnect, bind. by rewrite disconnect_unprepared.
  - intros Hp r st1 Hrun. unfold reconnect, bind. rewrite Hrun.
    destruct (disconnect_self st (Return r) st1 Hp Hrun) as [_ Hr].
    by rewrite (Hr r eq_refl).
Qed.

(** X10.  A second [reset] right after one that returned finds nothing
    to undo: it returns [self], calls no hook and leaves the instance as
    it was. *)
Theorem reset_again_changes_nothing st (r : retval) st1 :
  reset st = (Return r, st1) →
  reset st1
  = (Return RSelf, mkState (self st1) (world st1) (trace st1 ++ [CallReset; CallDisconnect])).
Proof.
  intros Hrun.
  destruct (reset_returns st r st1 Hrun) as (_ & _ & Hc & Hs & Hp & _).
  unfold reset. unfold bind at 1. simpl. unfold bind at 1.
  rewrite disconnect_unprepared by done. simpl.
  cbv [bind update ask ret]. simpl. rewrite Hs. simpl.
  rewrite <- app_assoc. simpl. do 2 f_equal.
  destruct (self st1). simpl in *. by subst.
Qed.

(** ** Assignments that leave the connection alone *)

(** X11.  Assigning an attribute of the instance dictionary on an
    instance that is not prepared, or one that is not listed in
    [connection_fields] (a property counting with the underscored
    attribute it writes), stores the value and does nothing else: no
    liveness test, no [disconnect], no preparation.  The private
    attributes, [connection_fields] and [prepared_fields] are left out:
    they are fields of [Duct], which [stored] does not reach. *)
Theorem setattr_stores_directly st (key : string) (v : value) :
  in_dictionary key = true →
  (prepared (self st) = false
   ∨ ((key ∉ connection_fields (self st)) ∧ (slot key ∉ connection_fields (self st)))) →
  setattr key v st = (Return tt, stored key v st).
Proof.
  intros _ [Hp|[Hk Hs]].
  - apply setattr_stores; [by apply monitor_unprepared|].
    intros _. by apply monitor_unprepared.
  - apply setattr_stores; [by apply monitor_unmonitored|].
    intros _. by apply monitor_unmonitored.
Qed.

End LifecycleFacts.

(** ** The flags through a preparation *)

Section GuardFacts.
Context {W : Type} `{!Protocol W} `{!Collaborators W}.
Implicit Types st : state W.

Local Abbreviation keeps_guards := (preserves (λ _ : state W, True) same_guards).

Lemma same_guards_refl st : same_guards st st.
Proof. done. Qed.
Lemma same_guards_trans st1 st2 st3 :
  same_guards st1 st2 → same_guards st2 st3 → same_guards st1 st3.
Proof. unfold same_guards. intros (-> & -> & -> & ->) (-> & -> & -> & ->). done. Qed.
Lemma keeps_guards_world st (w : W) :
  True → True ∧ same_guards st (mkState (self st) w (trace st)).
Proof. done. Qed.
Lemma keeps_guards_emit ev : keeps_guards (emit ev).
Proof. done. Qed.
Lemma keeps_guards_update (f : Duct → Duct) :
  (∀ d, prepared (f d) = prepared d ∧ getting (f d) = getting d
        ∧ disconnecting (f d) = disconnecting d
        ∧ connection_fields (f d) = connection_fields d) →
  keeps_guards (update f).
Proof. intros Hf st _. split; [done|]. apply Hf. Qed.
Lemma keeps_guards_read_attr key : keeps_guards (read_attr key).
Proof. intros st _. unfold read_attr. by destruct (_ !! _). Qed.

Hint Resolve same_guards_refl same_guards_trans keeps_guards_world : pres.
Hint Resolve preserves_ret preserves_raise preserves_ask preserves_extern : pres.
Hint Resolve keeps_guards_emit keeps_guards_read_attr : pres.
Hint Extern 1 (preserves _ _ (update _)) =>
  apply keeps_guards_update; intros []; repeat split : pres.

(** [_prepare] sets none of the three flags. *)
Lemma keeps_guards__prepare : keeps_guards (_prepare_with getattr_quiet setattr_quiet).
Proof.
  unfold _prepare_with, assert_none_or, lookup_by_name,
    prepare_field, getattr_quiet, setattr_quiet, object_getattribute, object_setattr,
    host_getter, port_getter, username_getter, password_getter, store_attr, snapshot,
    as_remote, as_registry, to_int.
  pres_go.
Qed.


End GuardFacts.

(** ** Connecting to a service that is up *)

Section ConnectRuns.
Context {W : Type} `{!Protocol W} `{!Collaborators W}.
Implicit Types st : state W.

#[local] Arguments getattr : simpl never.
#[local] Arguments disconnect : simpl never.
#[local] Arguments is_connected : simpl never.
#[local] Arguments assert_server_reachable : simpl never.
#[local] Arguments log_connection : simpl never.
#[local] Arguments guarded_connect : simpl never.

Lemma log_connection_local (verb : string) st r h p :
  local_config (self st) r h p →
  log_connection verb st
  = (Return tt, mkState (self st) (world st) (connection_logged verb h p (trace st))).
Proof.
  destruct st as [d w t]. simpl. intros H.
  pose proof H as (_ & _ & Htr & _).
  unfold log_connection, connection_logged. cbv [bind ret when emit].
  rewrite (local_read_host _ _ _ _ _ _ H). cbv beta iota.
  destruct (truthy h); [|done].
  rewrite (local_read_raw_host _ _ _ _ _ _ H). cbv beta iota.
  rewrite (local_read_raw_port _ _ _ _ _ _ H). cbv beta iota.
  rewrite (local_read_remote _ _ _ _ _ _ H). cbv beta iota.
  rewrite Htr. reflexivity.
Qed.

Lemma reachable_bound st r h p (w1 : W) :
  local_config (self st) r h p → h ≠ VNone → p ≠ VNone →
  is_port_bound h p (world st) = (Return true, w1) →
  assert_server_reachable st = (Return tt, mkState (self st) w1 (trace st)).
Proof.
  destruct st as [d w t]. simpl. intros H Hh Hp Hbound.
  apply not_none_is_none in Hh, Hp.
  unfold assert_server_reachable. cbv [bind ret when raise extern].
  repeat first
    [ rewrite (local_read_host _ _ _ _ _ _ H)
    | rewrite (local_read_port _ _ _ _ _ _ H)
    | rewrite Hh | rewrite Hp | rewrite Hbound
    | progress cbv beta iota
    | progress simpl ].
  reflexivity.
Qed.

Lemma guarded_connect_success st (w3 : W) :
  _connect (self st) (world st) = (Return tt, w3) →
  guarded_connect st = (Return tt, mkState (self st) w3 (trace st ++ [CallConnectHook])).
Proof.
  intros Hhook. unfold guarded_connect, try_except. cbv [bind emit ask extern]. simpl.
  by rewrite Hhook.
Qed.

(** X13.  [connect] on a prepared client without tunnel whose endpoint is
    bound: it logs "Connecting", asks the protocol whether it is
    connected, calls [_connect] exactly when the answer is [False] (and
    [_connect] returning), logs "Connected" and returns [self]; the
    instance is as before. *)
Theorem connect_to_bound_endpoint st (r h p : value) (w1 w2 : W) (c : bool) :
  local_config (self st) r h p → h ≠ VNone → p ≠ VNone →
  is_port_bound h p (world st) = (Return true, w1) →
  _is_connected (self st) w1 = (Return c, w2) →
  let asked := connection_logged "Connecting" h p (trace st) ++ [CallIsConnectedHook] in
  (c = true →
     connect st
     = (Return RSelf, mkState (self st) w2 (connection_logged "Connected" h p asked)))
  ∧ (c = false → ∀ w3, _connect (self st) w2 = (Return tt, w3) →
       connect st
       = (Return RSelf,
          mkState (self st) w3
                  (connection_logged "Connected" h p (asked ++ [CallConnectHook])))).
Proof.
  intros H Hh Hp Hbound Hconn asked.
  assert (Hstart : ∀ k : bool → M W retval,
            (log_connection "Connecting";; assert_server_reachable;;
             c0 <- is_connected;; k c0) st
            = k c (mkState (self st) w2 asked)).
  { intros k. unfold bind at 1. rewrite (log_connection_local _ _ r h p H).
    unfold bind at 1.
    rewrite (reachable_bound _ r h p w1) by done. simpl.
    unfold bind at 1.
    rewrite (is_connected_local _ r) by (simpl; apply H). simpl.
    by rewrite Hconn. }
  split.
  - intros ->. unfold connect. rewrite Hstart. simpl.
    unfold bind at 1. simpl. unfold bind at 1.
    by rewrite (log_connection_local "Connected" (mkState (self st) w2 asked) r h p H).
  - intros -> w3 Hhook. unfold connect. rewrite Hstart. simpl.
    unfold bind at 1.
    rewrite (guarded_connect_success (mkState (self st) w2 asked) w3) by done.
    unfold bind at 1. simpl.
    by rewrite (log_connection_local "Connected"
                  (mkState (self st) w3 (asked ++ [CallConnectHook])) r h p H).
Qed.

(** ** Clients behind a tunnel *)

Lemma tunnel_read_remote st (rc : nat) :
  is_prepared st → attrs (self st) !! "remote" = Some (VRemote rc) →
  getattr "remote" st = (Return (VRemote rc), st).
Proof.
  intros Hp Hr. rewrite getattr_plain_name by done. by apply read_attr_is.
Qed.

Lemma tunnel_read_raw key (v : value) st :
  is_prepared st → is_property key = false → attrs (self st) !! key = Some v →
  getattr key st = (Return v, st).
Proof.
  intros Hp Hk Hv. rewrite getattr_plain_name by done. by apply read_attr_is.
Qed.

(** X14.  [is_connected] on a prepared client behind a tunnel that holds
    no forward for the client's host and port: the answer is [False], and
    neither the protocol nor [disconnect] is called. *)
Theorem is_connected_without_forward st (rc : nat) (h p : value) (w1 : W) :
  prepared (self st) = true →
  attrs (self st) !! "remote" = Some (VRemote rc) →
  attrs (self st) !! "_host" = Some h →
  attrs (self st) !! "_port" = Some p →
  remote_has_port_forward rc h p (world st) = (Return false, w1) →
  is_connected st = (Return false, mkState (self st) w1 (trace st)).
Proof.
  intros Hp Hr Hh Hport Hfwd. unfold is_connected, tunnel_lost.
  unfold bind at 1. simpl. rewrite Hp. simpl.
  unfold bind at 1. unfold bind at 1.
  rewrite (tunnel_read_remote st rc) by done. simpl.
  unfold bind at 1. rewrite (tunnel_read_remote st rc) by done.
  unfold bind at 1. simpl.
  unfold bind at 1. rewrite (tunnel_read_raw "_host" h) by done.
  unfold bind at 1. rewrite (tunnel_read_raw "_port" p) by done.
  unfold bind at 1. unfold extern. rewrite Hfwd. reflexivity.
Qed.

Lemma tunnel_read_host st (rc : nat) :
  is_prepared st → attrs (self st) !! "remote" = Some (VRemote rc) →
  getattr "host" st = (Return (VStr "127.0.0.1"), st).
Proof.
  intros Hp Hr. rewrite getattr_prepared by done.
  change (getattr_quiet "host") with (host_getter (W := W) read_attr).
  unfold host_getter, bind. by rewrite (read_attr_is "remote" (VRemote rc)).
Qed.

Lemma tunnel_read_port st (rc : nat) (h p : value) :
  is_prepared st → attrs (self st) !! "remote" = Some (VRemote rc) →
  attrs (self st) !! "_host" = Some h → attrs (self st) !! "_port" = Some p →
  getattr "port" st
  = (let '(o, w) := remote_port_forward rc (fmt h +:+ ":" +:+ fmt p) (world st) in
     (o, mkState (self st) w (trace st))).
Proof.
  intros Hp Hr Hh Hport. rewrite getattr_prepared by done.
  change (getattr_quiet "port") with (port_getter (W := W) read_attr).
  unfold port_getter. unfold bind at 1. rewrite (read_attr_is "remote" (VRemote rc)) by done.
  simpl. unfold bind at 1. rewrite (read_attr_is "remote" (VRemote rc)) by done.
  unfold bind at 1. simpl.
  unfold bind at 1. rewrite (read_attr_is "_host" h) by done.
  unfold bind at 1. rewrite (read_attr_is "_port" p) by done.
  reflexivity.
Qed.

(** X15.  Behind a tunnel, a prepared client's [host] is the loopback
    address whatever [_host] holds, and each read of [port] asks the
    tunnel for the local port forwarded to [_host:_port]. *)
Theorem tunnel_endpoint_is_local st (rc : nat) (h p : value) :
  prepared (self st) = true →
  attrs (self st) !! "remote" = Some (VRemote rc) →
  attrs (self st) !! "_host" = Some h →
  attrs (self st) !! "_port" = Some p →
  getattr "host" st = (Return (VStr "127.0.0.1"), st)
  ∧ getattr "port" st
    = (let '(o, w) := remote_port_forward rc (fmt h +:+ ":" +:+ fmt p) (world st) in
       (o, mkState (self st) w (trace st))).
Proof.
  intros Hp Hr Hh Hport. split.
  - by apply (tunnel_read_host st rc).
  - by apply tunnel_read_port.
Qed.

(** The reachability check of [connect] behind a tunnel: the local end
    of the forward is not bound. *)
Lemma tunnel_reachable_start st (rc : nat) (h p lp1 lp2 : value) (w1 w2 w3 w4 : W) (b : bool) :
  prepared (self st) = true →
  attrs (self st) !! "remote" = Some (VRemote rc) →
  attrs (self st) !! "_host" = Some h →
  attrs (self st) !! "_port" = Some p →
  remote_port_forward rc (fmt h +:+ ":" +:+ fmt p) (world st) = (Return lp1, w1) →
  lp1 ≠ VNone →
  remote_port_forward rc (fmt h +:+ ":" +:+ fmt p) w1 = (Return lp2, w2) →
  is_port_bound (VStr "127.0.0.1") lp2 w2 = (Return false, w3) →
  remote_is_port_bound rc h p w3 = (Return b, w4) →
  assert_server_reachable st
  = (if negb b then
       disconnect;;
       r2 <- getattr "remote";;
       rc2 <- as_remote r2;;
       h4 <- getattr "_host";;
       p4 <- getattr "_port";;
       raise (DuctServerUnreachable
                ("Remote '" +:+ fmt (remote_name rc2) +:+ "' cannot connect to '"
                 +:+ fmt h4 +:+ ":" +:+ fmt p4
                 +:+ "'. Please check your settings before trying again."))
     else ret tt) (mkState (self st) w4 (trace st)).
Proof.
  intros Hp Hr Hh Hport Hf1 Hlp Hf2 Hbound Hrb.
  apply not_none_is_none in Hlp.
  assert (Hhost : ∀ w, getattr "host" (mkState (self st) w (trace st))
                       = (Return (VStr "127.0.0.1"), mkState (self st) w (trace st))).
  { intros w. by apply (tunnel_read_host (mkState (self st) w (trace st)) rc). }
  assert (Hport' : ∀ w, getattr "port" (mkState (self st) w (trace st))
                        = (let '(o, w') := remote_port_forward rc (fmt h +:+ ":" +:+ fmt p) w in
                           (o, mkState (self st) w' (trace st)))).
  { intros w. by apply (tunnel_read_port (mkState (self st) w (trace st)) rc). }
  assert (Hrem : ∀ w, getattr "remote" (mkState (self st) w (trace st))
                      = (Return (VRemote rc), mkState (self st) w (trace st))).
  { intros w. by apply (tunnel_read_remote (mkState (self st) w (trace st)) rc). }
  assert (Hrh : ∀ w, getattr "_host" (mkState (self st) w (trace st))
                     = (Return h, mkState (self st) w (trace st))).
  { intros w. by apply (tunnel_read_raw "_host" h (mkState (self st) w (trace st))). }
  assert (Hrp : ∀ w, getattr "_port" (mkState (self st) w (trace st))
                     = (Return p, mkState (self st) w (trace st))).
  { intros w. by apply (tunnel_read_raw "_port" p (mkState (self st) w (trace st))). }
  destruct st as [d w t]. simpl in *.
  unfold assert_server_reachable.
  unfold bind at 1. rewrite Hhost. cbn [is_none negb].
  unfold bind at 1. cbn [ret].
  unfold bind at 1. rewrite Hhost. cbn [is_none when].
  unfold bind at 1. cbn [ret].
  unfold bind at 1. rewrite Hport', Hf1. rewrite Hlp. cbn [when].
  unfold bind at 1. cbn [ret].
  unfold bind at 1. rewrite Hhost.
  unfold bind at 1. rewrite Hport', Hf2.
  unfold bind at 1. unfold extern at 1. cbn [world self trace]. rewrite Hbound.
  cbn [negb when].
  unfold bind at 1. unfold bind at 1. rewrite Hrem. cbn [truthy].
  unfold bind at 1. rewrite Hrem.
  unfold bind at 1. cbn [as_remote ret].
  unfold bind at 1. rewrite Hrh.
  unfold bind at 1. rewrite Hrp.
  unfold bind at 1. unfold extern at 1. cbn [world self trace]. rewrite Hrb.
  cbn [ret]. destruct b; cbn [negb]; [|reflexivity].
  unfold bind at 1. rewrite Hrem. reflexivity.
Qed.

(** X22.  The reachability check of [connect] behind a tunnel, when the
    local end of the forward is not bound: if the tunnel can reach
    [_host:_port] the check passes; if it cannot, [disconnect] is called
    and then [DuctServerUnreachable] is raised, with a message that
    names the remote and the remote endpoint. *)
Theorem tunnel_reachability_check st (rc : nat) (h p lp1 lp2 : value) (w1 w2 w3 w4 : W)
    (b : bool) :
  prepared (self st) = true →
  attrs (self st) !! "remote" = Some (VRemote rc) →
  attrs (self st) !! "_host" = Some h →
  attrs (self st) !! "_port" = Some p →
  remote_port_forward rc (fmt h +:+ ":" +:+ fmt p) (world st) = (Return lp1, w1) →
  lp1 ≠ VNone →
  remote_port_forward rc (fmt h +:+ ":" +:+ fmt p) w1 = (Return lp2, w2) →
  is_port_bound (VStr "127.0.0.1") lp2 w2 = (Return false, w3) →
  remote_is_port_bound rc h p w3 = (Return b, w4) →
  (b = true → assert_server_reachable st = (Return tt, mkState (self st) w4 (trace st)))
  ∧ (b = false → ∀ r' st2,
       disconnect (mkState (self st) w4 (trace st)) = (Return r', st2) →
       assert_server_reachable st
       = (Raise (DuctServerUnreachable
                   ("Remote '" +:+ fmt (remote_name rc) +:+ "' cannot connect to '"
                    +:+ fmt h +:+ ":" +:+ fmt p
                    +:+ "'. Please check your settings before trying again.")), st2)).
Proof.
  intros Hp Hr Hh Hport Hf1 Hlp Hf2 Hbound Hrb.
  rewrite (tunnel_reachable_start st rc h p lp1 lp2 w1 w2 w3 w4 b) by done.
  split; intros ->; cbn [negb]; [reflexivity|].
  intros r' st2 Hdisc.
  destruct (disconnect_self (mkState (self st) w4 (trace st)) (Return r') st2 Hp Hdisc)
    as [Hself _]. cbn [self] in Hself.
  assert (Hp2 : is_prepared st2) by (unfold is_prepared; rewrite Hself; by destruct (self st)).
  assert (Hr2 : attrs (self st2) !! "remote" = Some (VRemote rc))
    by (rewrite Hself; by destruct (self st)).
  assert (Hh2 : attrs (self st2) !! "_host" = Some h)
    by (rewrite Hself; by destruct (self st)).
  assert (Hport2 : attrs (self st2) !! "_port" = Some p)
    by (rewrite Hself; by destruct (self st)).
  unfold bind at 1. rewrite Hdisc.
  unfold bind at 1. rewrite (tunnel_read_remote st2 rc) by done.
  unfold bind at 1. cbn [as_remote ret].
  unfold bind at 1. rewrite (tunnel_read_raw "_host" h st2) by done.
  unfold bind at 1. rewrite (tunnel_read_raw "_port" p st2) by done.
  reflexivity.
Qed.

(** ** Credentials that need no prompt *)

(** X16.  On an instance whose reads no longer prepare: a [_username] or
    [_password] of [False] reads as [None]; a [_username] that is falsy
    without being [False] ([None], the empty string) reads as the login
    name of the operating system; any other value that is not [True] is
    returned as it is, a [_password] of [None] included.  None of these
    reads prompts or touches the instance. *)
Theorem credentials_without_prompt st :
  quiet st →
  (attrs (self st) !! "_username" = Some (VBool false) →
     getattr "username" st = (Return VNone, st))
  ∧ (∀ u s w1, attrs (self st) !! "_username" = Some u →
       u ≠ VBool false → truthy u = false →
       getlogin (world st) = (Return s, w1) →
       getattr "username" st = (Return (VStr s), mkState (self st) w1 (trace st)))
  ∧ (∀ u, attrs (self st) !! "_username" = Some u →
       u ≠ VBool true → truthy u = true →
       getattr "username" st = (Return u, st))
  ∧ (attrs (self st) !! "_password" = Some (VBool false) →
       getattr "password" st = (Return VNone, st))
  ∧ (∀ v, attrs (self st) !! "_password" = Some v →
       v ≠ VBool true → v ≠ VBool false →
       getattr "password" st = (Return v, st)).
Proof.
  intros Hq.
  assert (Hu : getattr "username" st = username_getter read_attr st).
  { by rewrite getattr_quiet_state. }
  assert (Hw : getattr "password" st = password_getter read_attr st).
  { by rewrite getattr_quiet_state. }
  split; [|split; [|split; [|split]]].
  - intros Hv. rewrite Hu. unfold username_getter.
    unfold bind at 1. rewrite (read_attr_is "_username" (VBool false)) by done.
    rewrite bool_decide_eq_false_2 by done.
    unfold bind at 1. rewrite (read_attr_is "_username" (VBool false)) by done.
    by rewrite bool_decide_eq_true_2.
  - intros u s w1 Hv Hnf Hfalsy Hlogin. rewrite Hu. unfold username_getter.
    assert (Hnt : u ≠ VBool true) by (intros ->; done).
    unfold bind at 1. rewrite (read_attr_is "_username" u) by done.
    rewrite bool_decide_eq_false_2 by done.
    unfold bind at 1. rewrite (read_attr_is "_username" u) by done.
    rewrite bool_decide_eq_false_2 by done.
    unfold bind at 1. rewrite (read_attr_is "_username" u) by done.
    rewrite Hfalsy. simpl. unfold bind, extern. by rewrite Hlogin.
  - intros u Hv Hnt Htruthy. rewrite Hu. unfold username_getter.
    assert (Hnf : u ≠ VBool false) by (intros ->; done).
    unfold bind at 1. rewrite (read_attr_is "_username" u) by done.
    rewrite bool_decide_eq_false_2 by done.
    unfold bind at 1. rewrite (read_attr_is "_username" u) by done.
    rewrite bool_decide_eq_false_2 by done.
    unfold bind at 1. rewrite (read_attr_is "_username" u) by done.
    rewrite Htruthy. simpl. by apply read_attr_is.
  - intros Hv. rewrite Hw. unfold password_getter.
    unfold bind at 1. rewrite (read_attr_is "_password" (VBool false)) by done.
    rewrite bool_decide_eq_false_2 by done.
    unfold bind at 1. rewrite (read_attr_is "_password" (VBool false)) by done.
    by rewrite bool_decide_eq_true_2.
  - intros v Hv Hnt Hnf. rewrite Hw. unfold password_getter.
    unfold bind at 1. rewrite (read_attr_is "_password" v) by done.
    rewrite bool_decide_eq_false_2 by done.
    unfold bind at 1. rewrite (read_attr_is "_password" v) by done.
    rewrite bool_decide_eq_false_2 by done.
    by apply read_attr_is.
Qed.

End ConnectRuns.

(** ** After a reset *)

Section AfterReset.
Context {W : Type} `{!Protocol W} `{!Collaborators W}.
Implicit Types st : state W.

#[local] Arguments is_connected : simpl never.
#[local] Arguments disconnect : simpl never.
#[local] Arguments monitor : simpl never.
#[local] Arguments getattr : simpl never.

Local Abbreviation calm :=
  (preserves (W := W) (λ st, is_prepared st ∧ disconnecting (self st) = false) (λ _ _, True)).

Lemma calm_reads {A} (m : M W A) : preserves is_prepared untouched m → calm m.
Proof.
  intros Hm st [Hp Hd]. destruct (Hm st Hp) as [Hp1 [Hself _]].
  split; [|done]. split; [done|]. by rewrite Hself.
Qed.

Lemma calm_world st (w : W) :
  is_prepared st ∧ disconnecting (self st) = false →
  (is_prepared (mkState (self st) w (trace st))
   ∧ disconnecting (self (mkState (self st) w (trace st))) = false) ∧ True.
Proof. done. Qed.

Lemma calm_emit ev : calm (emit ev).
Proof. done. Qed.

Lemma calm_as_remote v : calm (as_remote v).
Proof. by destruct v. Qed.

Lemma disconnect_clears_flag st :
  disconnecting (self st) = false → disconnecting (self (disconnect st).2) = false.
Proof.
  intros Hd. destruct (prepared (self st)) eqn:Hp.
  - rewrite disconnect_prepared by done.
    destruct (disconnect_guarded _) as [o st1]. simpl. by destruct (self st).
  - by rewrite disconnect_unprepared.
Qed.

Lemma calm_disconnect : calm disconnect.
Proof.
  intros st [Hp Hd]. split; [|done]. split.
  - by apply steady_disconnect.
  - by apply disconnect_clears_flag.
Qed.

Hint Resolve calm_world calm_emit calm_as_remote calm_disconnect : pres.
Hint Resolve preserves_ret preserves_raise preserves_ask preserves_extern : pres.
Hint Extern 1 (preserves _ _ (getattr "host")) =>
  apply calm_reads, reads_only_getattr_host : pres.
Hint Extern 1 (preserves _ _ (getattr "port")) =>
  apply calm_reads, reads_only_getattr_port : pres.
Hint Extern 1 (preserves _ _ (getattr "remote")) =>
  apply calm_reads, reads_only_getattr_remote : pres.
Hint Extern 1 (preserves _ _ (getattr "_host")) =>
  apply calm_reads, reads_only_getattr_raw_host : pres.
Hint Extern 1 (preserves _ _ (getattr "_port")) =>
  apply calm_reads, reads_only_getattr_raw_port : pres.
Hint Extern 1 (∀ _ : state W, True) => done : pres.
Hint Extern 1 (∀ _ _ _ : state W, True → True → True) => done : pres.

Lemma calm_is_connected : calm is_connected.
Proof. unfold is_connected, tunnel_lost. pres_go. Qed.

Lemma monitor_clears_flag key st :
  disconnecting (self st) = false → disconnecting (self (monitor key st).2) = false.
Proof.
  intros Hd. destruct (prepared (self st)) eqn:Hp; [|by rewrite monitor_unprepared].
  unfold monitor, try_except. cbv [bind ask]. cbn [self]. rewrite Hp. cbn [andb].
  destruct (_ && _); [|done].
  destruct (calm_is_connected st (conj Hp Hd)) as [[Hp1 Hd1] _].
  destruct (is_connected st) as [[c|e] st1]; cbn [snd self] in *.
  2:{ by destruct (is_attribute_error e). }
  destruct c; cbn [when ret]; [|done].
  cbv [bind emit update]. cbn [self world trace].
  pose proof (disconnect_clears_flag
    (mkState (self st1) (world st1)
       (trace st1 ++ [LogWarn ("Disconnecting prior to changing field that connection is based on: "
                               +:+ key +:+ ".")])) Hd1) as Hd2.
  destruct (disconnect _) as [[r|e] st2]; cbn [snd self] in *.
  - by destruct (self st2).
  - by destruct (is_attribute_error e).
Qed.

Lemma setattr_clears_flag key v st :
  disconnecting (self st) = false → disconnecting (self (setattr key v st).2) = false.
Proof.
  intros Hd. unfold setattr. unfold bind at 1.
  pose proof (monitor_clears_flag key st Hd) as Hd1.
  destruct (monitor key st) as [[[]|e] st1]; cbn [snd] in *; [|done].
  unfold object_setattr. destruct (is_property key).
  - unfold setattr_plain. unfold bind at 1.
    pose proof (monitor_clears_flag ("_" +:+ key) st1 Hd1) as Hd2.
    destruct (monitor _ st1) as [[[]|e] st2]; cbn [snd] in *; [|done].
    simpl. exact Hd2.
  - simpl. exact Hd1.
Qed.

Lemma restore_clears_flag (l : list (string * value)) st :
  disconnecting (self st) = false →
  disconnecting (self (for_each l (λ kv, setattr kv.1 kv.2) st).2) = false.
Proof.
  revert st. induction l as [|[k v] l IH]; intros st Hd; [done|].
  cbn [for_each]. unfold bind at 1.
  pose proof (setattr_clears_flag k v st Hd) as Hd1. cbn [fst snd] in *.
  destruct (setattr k v st) as [[[]|e] st1]; cbn [snd] in *; [|done].
  by apply IH.
Qed.

Lemma reset_clears_flag st :
  disconnecting (self st) = false → disconnecting (self (reset st).2) = false.
Proof.
  intros Hd. unfold reset. unfold bind at 1. cbn [emit self world trace].
  unfold bind at 1.
  pose proof (disconnect_clears_flag
                (mkState (self st) (world st) (trace st ++ [CallReset])) Hd) as Hd1.
  destruct (disconnect _) as [[r|e] st1]; cbn [snd] in *; [|done].
  unfold bind at 1. cbn [update self world trace].
  unfold bind at 1. cbn [ask self].
  unfold bind at 1.
  pose proof (restore_clears_flag (prepreparation_values (set_cached_auth ∅ (self st1)))
                (mkState (set_cached_auth ∅ (self st1)) (world st1) (trace st1))) as Hd2.
  destruct (for_each _ _ _) as [[[]|e] st2]; cbn [snd] in *.
  - cbv [bind update ret]. cbn [self]. destruct (self st2). simpl in *.
    apply Hd2. by destruct (self st1).
  - apply Hd2. by destruct (self st1).
Qed.

Lemma reset_same_data st (r : retval) st' :
  reset st = (Return r, st') →
  getting (self st') = getting (self st)
  ∧ connection_fields (self st') = connection_fields (self st).
Proof.
  intros Hrun. unfold reset in Hrun.
  unfold bind at 1 in Hrun. simpl in Hrun.
  apply bind_return_inv in Hrun as (r0 & st1 & Hdisc & Hrun).
  pose proof (disconnect_same_data
    (mkState (self st) (world st) (trace st ++ [CallReset]))) as Hd1.
  rewrite Hdisc in Hd1. simpl in Hd1.
  cbv [bind update ask] in Hrun. simpl in Hrun.
  destruct (for_each _ _ _) as [[[]|e] st2] eqn:Hloop; [|done].
  injection Hrun as <- <-. simpl.
  apply restore_loop in Hloop. simpl in Hloop.
  unfold same_data in *.
  apply (f_equal (λ d, (getting d, connection_fields d))) in Hd1, Hloop.
  simpl in *. injection Hd1 as Hg1 Hf1. injection Hloop as Hg2 Hf2.
  split; congruence.
Qed.

Lemma reset_lets_again st (r : retval) st' (key : string) :
  getting (self st) = false → disconnecting (self st) = false →
  key ∈ prepare_triggers (self st) →
  reset st = (Return r, st') →
  should_prepare key (self st') = true.
Proof.
  intros Hg Hd Hkey Hrun.
  destruct (reset_returns st r st' Hrun) as (_ & _ & _ & _ & Hp & _).
  destruct (reset_same_data st r st' Hrun) as [Hg' Hf'].
  pose proof (reset_clears_flag st Hd) as Hd'. rewrite Hrun in Hd'. cbn [snd] in Hd'.
  unfold should_prepare, prepare_triggers in *. rewrite Hp, Hg', Hg, Hd', Hf'. simpl.
  by apply bool_decide_eq_true_2.
Qed.

(** X23.  After a [reset] that returns, on an instance that was neither
    inside a read nor inside a [disconnect], the next read of any trigger
    attribute prepares the instance again. *)
Theorem reset_lets_reads_prepare_again st (r : retval) st' (key : string) :
  getting (self st) = false → disconnecting (self st) = false →
  key ∈ prepare_triggers (self st) →
  reset st = (Return r, st') →
  should_prepare key (self st') = true.
Proof. apply reset_lets_again. Qed.

(** X27.  Reading and resetting a client built with a callable host:
    the [reset] puts the callable back in [_host], and the next read of
    a trigger attribute prepares again, so that the callable is called
    anew. *)
Theorem reset_restores_lazy_host st (f : nat) (h : value) (z : Z) (u pw : value) (w1 : W)
    (r : retval) st2 :
  at_rest (self st) →
  "host" ∈ connection_fields (self st) →
  configured (self st) VNone (VCallable f) (VInt z) u pw →
  callable u = false → callable pw = false → z ≠ 0%Z →
  prepreparation_values (self st) = [] →
  call_value f
    (set_prepreparation_values [("_host", VCallable f)] (set_getting true (self st)))
    (world st) = (Return h, w1) →
  h = VNone ∨ (∃ s, h = VStr s ∧ host_port_match s = false) →
  reset (getattr "host" st).2 = (Return r, st2) →
  attrs (self st2) !! "_host" = Some (VCallable f)
  ∧ should_prepare "host" (self st2) = true.
Proof.
  intros Hrest Hfield Hconf Hcu Hcpw Hz Hempty Hcall Hcase Hreset.
  assert (Hcall' : call_value f
            (set_prepreparation_values
               (dict_set "_host" (VCallable f) (prepreparation_values (self st)))
               (set_getting true (self st)))
            (world st) = (Return h, w1)) by (by rewrite Hempty).
  pose proof (lazy_host_run "host" st f h z u pw w1 Hrest Hfield Hconf Hcu Hcpw Hz Hcall' Hcase)
    as Htrig.
  set (st1 := mkState (prepared_saving "_host" (VCallable f)
                         (λ m, <["_port" := VInt z]> (<["_host" := h]> m)) (self st))
                      w1 (trace st ++ [CallPrepareHook])) in *.
  assert (Hread : (getattr "host" st).2 = st1).
  { rewrite (getattr_after_trigger "host" st st1 Htrig) by done.
    rewrite <- (getattr_quiet_state "host") by done.
    destruct Hconf as (_ & _ & Hr & _). unfold st1.
    rewrite (local_read_host _ _ _ VNone h (VInt z)); [done|].
    repeat split; simpl.
    - by rewrite !lookup_insert_ne.
    - by rewrite lookup_insert_ne, lookup_insert_eq.
    - by rewrite lookup_insert_eq. }
  rewrite Hread in Hreset.
  assert (Hsnap : prepreparation_values (self st1) = [("_host", VCallable f)]).
  { unfold st1, prepared_saving. simpl. by rewrite Hempty. }
  destruct (reset_returns st1 r st2 Hreset) as (_ & _ & _ & _ & _ & _ & Hback).
  split.
  - apply (Hback ltac:(rewrite Hsnap; simpl; apply NoDup_singleton) "_host" (VCallable f)).
    rewrite Hsnap. constructor.
  - destruct Hrest as (_ & Hg & Hd).
    apply (reset_lets_again st1 r st2 "host"); [exact Hg|exact Hd| |exact Hreset].
    apply trigger_key_of_field. exact Hfield.
Qed.

(** X28.  Reading and resetting a client built with a host of the form
    [a:b]: nothing was saved when the host was split, so the [reset]
    leaves [_host] at [a] and [_port] at the integer read from [b]; the
    string the client was built with does not come back. *)
Theorem reset_keeps_split_host st (a b : string) (z : Z) (p u pw : value)
    (r : retval) st2 :
  at_rest (self st) →
  "host" ∈ connection_fields (self st) →
  configured (self st) VNone (VStr (a +:+ ":" +:+ b)) p u pw →
  callable p = false → callable u = false → callable pw = false →
  a ≠ EmptyString → colon_free a = true → colon_free b = true → starts_with_digit b = true →
  int_of_str b = Some z →
  prepreparation_values (self st) = [] →
  reset (getattr "host" st).2 = (Return r, st2) →
  attrs (self st2) !! "_host" = Some (VStr a)
  ∧ attrs (self st2) !! "_port" = Some (VInt z).
Proof.
  intros Hrest Hfield Hconf Hcp Hcu Hcpw Ha Hfa Hfb Hdb Hint Hempty Hreset.
  pose proof (host_with_port_run "host" st a b z p u pw Hrest Hfield Hconf Hcp Hcu Hcpw
                Ha Hfa Hfb Hdb Hint) as Htrig.
  set (st1 := mkState (prepared_as (λ m, <["_port" := VInt z]> (<["_host" := VStr a]> m))
                         (self st))
                      (world st) (trace st ++ [CallPrepareHook])) in *.
  assert (Hread : (getattr "host" st).2 = st1).
  { rewrite (getattr_after_trigger "host" st st1 Htrig) by done.
    rewrite <- (getattr_quiet_state "host") by done.
    destruct Hconf as (_ & _ & Hr & _). unfold st1.
    rewrite (local_read_host _ _ _ VNone (VStr a) (VInt z)); [done|].
    apply prepared_as_local.
    - by rewrite !lookup_insert_ne.
    - by rewrite lookup_insert_ne, lookup_insert_eq.
    - by rewrite lookup_insert_eq. }
  rewrite Hread in Hreset.
  destruct (reset_returns st1 r st2 Hreset) as (_ & _ & _ & _ & _ & Hattrs & _).
  rewrite Hattrs. unfold st1, prepared_as. simpl. rewrite Hempty. unfold restore_all. simpl.
  split.
  - by rewrite lookup_insert_ne, lookup_insert_eq.
  - by rewrite lookup_insert_eq.
Qed.

End AfterReset.

(** ** [prepare] called as a method *)

Section PrepareDirectly.
Context {W : Type} `{!Protocol W} `{!Collaborators W}.
Implicit Types st : state W.

#[local] Arguments host_port_match : simpl never.
#[local] Arguments getattr : simpl never.
#[local] Arguments setattr : simpl never.
#[local] Arguments is_connected : simpl never.
#[local] Arguments monitor : simpl never.
#[local] Arguments trigger : simpl never.

(** The preparation that a read runs on a client whose host carries no
    port and whose port is a non-zero integer. *)
Lemma plain_run (key : string) st (s : string) (z : Z) (u pw : value) :
  at_rest (self st) → key ∈ prepare_triggers (self st) →
  configured (self st) VNone (VStr s) (VInt z) u pw →
  host_port_match s = false → z ≠ 0%Z →
  callable u = false → callable pw = false →
  trigger key st
  = (Return tt,
     mkState (prepared_as (insert "_port" (VInt z)) (self st))
             (world st) (trace st ++ [CallPrepareHook])).
Proof.
  intros Hrest Hkey Hconf Hm Hz Hcu Hcpw.
  apply trigger_prepares_as; [done|done|].
  rewrite (prepare_reaches_host _ VNone (VStr s) (VInt z) u pw)
    by (try apply configured_getting; done).
  cbn [self world trace].
  apply (prepare_host_and_port_plain (mkState _ _ _) s z); try done; apply Hconf.
Qed.

Lemma getattr_untriggered key st :
  key ∉ prepare_triggers (self st) → is_property key = false →
  getattr key st = read_attr key st.
Proof.
  intros Hkey Hprop. unfold getattr, bind, trigger, should_prepare.
  rewrite (bool_decide_eq_false_2 _ Hkey), andb_false_r.
  unfold object_getattribute. unfold is_property in Hprop.
  repeat (apply orb_false_elim in Hprop as [Hprop ?]).
  by repeat match goal with Heq : (_ =? _) = false |- _ => rewrite Heq; clear Heq end.
Qed.

Lemma prepare_field_reads (get : string → M W value) (set : string → value → M W unit)
    field (v : value) st :
  get field st = (Return v, st) → callable v = false →
  prepare_field get set field st = (Return tt, st).
Proof. intros Hv Hc. unfold prepare_field, bind. rewrite Hv. by destruct v. Qed.

(** X29.  [prepare] called as a method on a fresh client does more than
    the preparation a read triggers: [_prepare] reads [self.remote],
    that read finds the instance unprepared and runs the whole
    preparation inside it, and the outer [_prepare] then goes on over
    the prepared instance, where its last assignment, to [port], asks
    the protocol whether it is connected.  So [_prepare] is entered
    twice and [_is_connected] once; the instance ends as a read would
    have left it. *)
Theorem prepare_called_directly st (s : string) (z : Z) (u pw : value) (w1 : W) :
  at_rest (self st) →
  connection_fields (self st) = ["host"; "port"; "remote"; "username"; "password"] →
  configured (self st) VNone (VStr s) (VInt z) u pw →
  host_port_match s = false → z ≠ 0%Z →
  callable u = false → callable pw = false →
  _is_connected (prepared_as (insert "_port" (VInt z)) (self st)) (world st)
  = (Return false, w1) →
  prepare st
  = (Return tt,
     mkState (prepared_as (insert "_port" (VInt z)) (self st)) w1
             (trace st ++ [CallPrepareHook; CallPrepareHook; CallIsConnectedHook])).
Proof.
  intros Hrest Hfields Hconf Hm Hz Hcu Hcpw Hhook.
  pose proof Hconf as (Hpf & Hg & Hr & Hc & Hh & Hp & Hu & Hpw).
  set (d1 := prepared_as (insert "_port" (VInt z)) (self st)).
  set (t1 := (trace st ++ [CallPrepareHook]) ++ [CallPrepareHook]).
  assert (Hd1 : is_prepared (mkState d1 (world st) t1)) by done.
  assert (Hraw : ∀ key v (w : W) t, is_property key = false → key ≠ "_port" →
            attrs (self st) !! key = Some v →
            getattr key (mkState d1 w t) = (Return v, mkState d1 w t)).
  { intros key v w t Hk Hne Hv. apply tunnel_read_raw; [done|done|].
    simpl. by rewrite lookup_insert_ne. }
  assert (Hrawp : ∀ (w : W) t,
            getattr "_port" (mkState d1 w t) = (Return (VInt z), mkState d1 w t)).
  { intros w t. apply tunnel_read_raw; [done|done|]. simpl. by rewrite lookup_insert_eq. }
  unfold prepare, prepare_with. unfold bind at 1. cbn [ask].
  destruct Hrest as (Hnp & Hng & Hnd). rewrite Hnp. cbn [negb].
  unfold bind at 1. unfold _prepare_with.
  unfold bind at 1. cbn [emit].
  set (sta := mkState (self st) (world st) (trace st ++ [CallPrepareHook])).
  assert (Hreg : getattr "registry" sta = (Return VNone, sta)).
  { rewrite getattr_untriggered; [by apply read_attr_is| |done].
    unfold prepare_triggers. simpl. rewrite Hfields.
    apply (bool_decide_unpack _). vm_compute. exact I. }
  assert (Hrem : getattr "remote" sta = (Return VNone, mkState d1 (world st) t1)).
  { assert (Htrig : trigger "remote" sta = (Return tt, mkState d1 (world st) t1)).
    { apply (plain_run "remote" sta s z u pw); try done.
      unfold prepare_triggers. simpl. rewrite Hfields.
      apply (bool_decide_unpack _). vm_compute. exact I. }
    rewrite (getattr_after_trigger "remote" sta _ Htrig) by done.
    apply read_attr_is. simpl. by rewrite lookup_insert_ne. }
  unfold bind at 1. unfold assert_none_or at 1. unfold bind at 1. rewrite Hreg.
  cbn [is_none ret].
  unfold bind at 1. rewrite Hreg. cbn [is_none negb when].
  unfold bind at 1. cbn [ret].
  unfold bind at 1. unfold assert_none_or at 1. unfold bind at 1. rewrite Hrem.
  cbn [is_none ret].
  unfold bind at 1. unfold assert_none_or at 1. unfold bind at 1.
  rewrite (Hraw "cache" VNone) by done. cbn [is_none ret].
  unfold bind at 1. cbn [ask self]. unfold d1 at 1. cbn [prepared_fields prepared_as
    set_prepared set_attrs]. rewrite Hpf. cbn [for_each].
  fold d1.
  unfold bind at 1. unfold bind at 1.
  rewrite (prepare_field_reads _ _ "_host" (VStr s)) by (try done; by apply Hraw).
  unfold bind at 1.
  rewrite (prepare_field_reads _ _ "_port" (VInt z)) by (try done; by apply Hrawp).
  unfold bind at 1.
  rewrite (prepare_field_reads _ _ "_username" u) by (try done; by apply Hraw).
  unfold bind at 1.
  rewrite (prepare_field_reads _ _ "_password" pw) by (try done; by apply Hraw).
  cbn [ret].
  unfold bind at 1. rewrite (Hraw "_host" (VStr s)) by done. cbn [is_list when].
  unfold bind at 1. cbn [ret].
  unfold bind at 1. rewrite (Hraw "_host" (VStr s)) by done. cbn [is_none negb when].
  unfold bind at 1. unfold bind at 1. rewrite (Hraw "_host" (VStr s)) by done.
  rewrite Hm. cbn [when ret].
  unfold bind at 1. rewrite Hrawp.
  assert (Htz : truthy (VInt z) = true) by (simpl; by apply negb_true_iff, Z.eqb_neq).
  rewrite Htz.
  unfold bind at 1. unfold bind at 1. rewrite Hrawp. cbn [to_int ret].
  assert (Hconn : is_connected (mkState d1 (world st) t1)
                  = (Return false, mkState d1 w1 (t1 ++ [CallIsConnectedHook]))).
  { rewrite (is_connected_local _ VNone); [|done| |done].
    - cbn [self world trace]. unfold d1. by rewrite Hhook.
    - simpl. by rewrite lookup_insert_ne. }
  assert (Hport : "port" ∈ connection_fields d1).
  { unfold d1. simpl. rewrite Hfields. apply (bool_decide_unpack _). vm_compute. exact I. }
  assert (Hslot : "_port" ∉ connection_fields d1).
  { unfold d1. simpl. rewrite Hfields. apply (bool_decide_unpack _). vm_compute. exact I. }
  rewrite (setattr_stores "port" (VInt z) _ (mkState d1 w1 (t1 ++ [CallIsConnectedHook])));
    [|by apply monitor_not_connected|intros _; by apply monitor_unmonitored].
  unfold update, stored. cbn [self world trace].
  change (slot "port") with "_port".
  assert (Hd : set_prepared true (set_attrs (insert "_port" (VInt z)) d1) = d1).
  { unfold d1, prepared_as. destruct (self st) as [a0 cf pf pr gt dc ca pv].
    unfold set_attrs, set_prepared.
    cbn [attrs connection_fields prepared_fields prepared getting disconnecting cached_auth
         prepreparation_values].
    by rewrite insert_insert_eq. }
  rewrite Hd. unfold t1. by rewrite <- !app_assoc.
Qed.

End PrepareDirectly.

(** ** What a preparation establishes *)

Section Established.
Context {W : Type} `{!Protocol W} `{!Collaborators W}.
Implicit Types st : state W.

#[local] Arguments host_port_match : simpl never.
#[local] Arguments split_colon : simpl never.

Lemma read_attr_inv key (v : value) st st' :
  read_attr key st = (Return v, st') → st' = st ∧ attrs (self st) !! key = Some v.
Proof. unfold read_attr. destruct (_ !! _); intros [= <- <-]; done. Qed.

Lemma to_int_inv (v v' : value) st st' :
  to_int v st = (Return v', st') → st' = st ∧ ∃ z, v' = VInt z.
Proof.
  unfold to_int. destruct v; try discriminate.
  - intros [= <- <-]. eauto.
  - intros [= <- <-]. eauto.
  - destruct (int_of_str s); intros [= <- <-]. eauto.
Qed.

Lemma set_port_establishes st st' :
  set_port getattr_quiet setattr_quiet st = (Return tt, st') →
  attrs (self st') !! "_host" = attrs (self st) !! "_host"
  ∧ ∃ p, attrs (self st') !! "_port" = Some p ∧ (p = VNone ∨ ∃ z, p = VInt z).
Proof.
  unfold set_port. intros Hrun.
  apply bind_return_inv in Hrun as (p1 & s1 & Hread & Hrun).
  apply read_attr_inv in Hread as [-> _].
  apply bind_return_inv in Hrun as (newport & s2 & Hconv & Hrun).
  assert (Hnew : s2 = st ∧ (newport = VNone ∨ ∃ z, newport = VInt z)).
  { destruct (truthy p1).
    - apply bind_return_inv in Hconv as (p2 & s3 & Hread & Hconv).
      apply read_attr_inv in Hread as [-> _].
      apply to_int_inv in Hconv as [-> Hz]. auto.
    - injection Hconv as <- <-. auto. }
  destruct Hnew as [-> Hnew]. injection Hrun as <-. simpl.
  rewrite lookup_insert_ne by done. split; [done|].
  exists newport. by rewrite lookup_insert_eq.
Qed.

Lemma split_host_port_establishes (h3 : value) st st' :
  attrs (self st) !! "_host" = Some h3 →
  split_host_port getattr_quiet setattr_quiet h3 st = (Return tt, st') →
  ∃ h, attrs (self st') !! "_host" = Some h ∧ (h = VNone ∨ is_str h = true).
Proof.
  intros Hh. unfold split_host_port. destruct (is_none h3) eqn:Hn; simpl.
  - intros [= <-]. exists h3. split; [done|]. left. by destruct h3.
  - intros Hrun. apply bind_return_inv in Hrun as (h4 & s1 & Hread & Hrun).
    apply read_attr_inv in Hread as [-> Hh4].
    destruct h4; try discriminate.
    destruct (host_port_match s); simpl in Hrun.
    + apply bind_return_inv in Hrun as (h5 & s2 & Hread & Hrun).
      apply read_attr_inv in Hread as [-> Hh5].
      destruct h5; try discriminate.
      destruct (split_colon s0) as [|a [|b [|c l]]]; try discriminate.
      injection Hrun as <-. simpl. exists (VStr a). split; [|by right].
      by rewrite lookup_insert_ne, lookup_insert_eq.
    + injection Hrun as <-. exists (VStr s). split; [done|by right].
Qed.

Lemma prepare_host_and_port_establishes st st' :
  prepare_host_and_port getattr_quiet setattr_quiet st = (Return tt, st') →
  (∃ h, attrs (self st') !! "_host" = Some h ∧ (h = VNone ∨ is_str h = true))
  ∧ ∃ p, attrs (self st') !! "_port" = Some p ∧ (p = VNone ∨ ∃ z, p = VInt z).
Proof.
  unfold prepare_host_and_port. intros Hrun.
  apply bind_return_inv in Hrun as (h & s1 & _ & Hrun).
  apply bind_return_inv in Hrun as ([] & s2 & _ & Hrun).
  apply bind_return_inv in Hrun as (h3 & s3 & Hread & Hrun).
  apply read_attr_inv in Hread as [-> Hh3].
  apply bind_return_inv in Hrun as ([] & s4 & Hsplit & Hrun).
  destruct (split_host_port_establishes h3 s2 s4 Hh3 Hsplit) as (h' & Hh' & Hok).
  destruct (set_port_establishes s4 st' Hrun) as [Hsame Hport].
  split; [|done]. exists h'. by rewrite Hsame.
Qed.

Lemma _prepare_establishes st st' :
  _prepare_with getattr_quiet setattr_quiet st = (Return tt, st') →
  (∃ h, attrs (self st') !! "_host" = Some h ∧ (h = VNone ∨ is_str h = true))
  ∧ ∃ p, attrs (self st') !! "_port" = Some p ∧ (p = VNone ∨ ∃ z, p = VInt z).
Proof.
  rewrite _prepare_with_body. unfold _prepare_body. intros Hrun.
  do 7 (apply bind_return_inv in Hrun as (? & ? & _ & Hrun)).
  by apply prepare_host_and_port_establishes in Hrun.
Qed.

(** X17.  When the read of a trigger attribute has prepared an instance,
    [_host] holds [None] or a string and [_port] holds [None] or an
    integer, whatever the client was built with. *)
Theorem prepared_host_and_port_types (key : string) st st' :
  prepared (self st) = false →
  trigger key st = (Return tt, st') →
  prepared (self st') = true →
  (∃ h, attrs (self st') !! "_host" = Some h ∧ (h = VNone ∨ is_str h = true))
  ∧ ∃ p, attrs (self st') !! "_port" = Some p ∧ (p = VNone ∨ ∃ z, p = VInt z).
Proof.
  intros Hp. unfold trigger. destruct (should_prepare key (self st)).
  2:{ intros [= <-]. by rewrite Hp. }
  unfold bind at 1. simpl. rewrite prepare_quiet_unprepared by done.
  pose proof (keeps_guards__prepare
    (mkState (set_getting true (self st)) (world st) (trace st)) Logic.I) as [_ Hsame].
  pose proof (_prepare_establishes
    (mkState (set_getting true (self st)) (world st) (trace st))) as Hest.
  unfold bind. destruct (_prepare_with _ _ _) as [[[]|e] st1]; simpl in *.
  - intros [= <-] _. simpl. by apply Hest.
  - destruct Hsame as (Hp1 & _). simpl in Hp1. rewrite Hp in Hp1.
    destruct e; try discriminate. intros [= <-]. by rewrite Hp1.
Qed.

End Established.

(** ** One preparation per read *)

Section GuardedRuns.
Context {W A : Type}.
Variable J E : state W → Prop.
Hypothesis J_E : ∀ st, J st → E st.

Lemma guarded_ret (a : A) : guarded J E (ret a).
Proof. intros st HJ. done. Qed.

Lemma guarded_raise (e : exn) : guarded J E (raise (A := A) e).
Proof. intros st HJ. simpl. auto. Qed.

Lemma guarded_bind {B} (m : M W B) (k : B → M W A) :
  guarded J E m → (∀ b, guarded J E (k b)) → guarded J E (bind m k).
Proof.
  intros Hm Hk st HJ. unfold bind. specialize (Hm st HJ).
  destruct (m st) as [[b|e] st1]; [|done]. by apply Hk.
Qed.

End GuardedRuns.

Create HintDb once discriminated.

Section PreparedOnce.
Context {W : Type} `{!Protocol W} `{!Collaborators W}.
Implicit Types st : state W.
Variable c0 : nat.

Local Abbreviation once := (guarded (W := W) (prepared_so_far c0) (one_more_at_most c0)).

Lemma so_far_at_most st : prepared_so_far c0 st → one_more_at_most c0 st.
Proof. unfold prepared_so_far, one_more_at_most. intros [->|[-> _]]; lia. Qed.

Lemma once_ask : once ask.
Proof. intros st HJ. done. Qed.

Lemma once_read_attr key : once (read_attr key).
Proof.
  intros st HJ. unfold read_attr. destruct (_ !! _); [done|]. by apply so_far_at_most.
Qed.

Lemma once_extern {A} (f : W → outcome A * W) : once (extern f).
Proof.
  intros st HJ. unfold extern. destruct (f (world st)) as [[a|e] w]; [done|].
  by apply so_far_at_most.
Qed.

Lemma once_as_remote v : once (as_remote v).
Proof. intros st HJ. destruct v; simpl; try done; by apply so_far_at_most. Qed.

Lemma once_prompt masked msg : once (emit (Prompt masked msg)).
Proof.
  intros st HJ. simpl. unfold prepared_so_far, quiet in *. simpl.
  by rewrite count_event_snoc, decide_False, Nat.add_0_r.
Qed.

Lemma once_update (f : Duct → Duct) :
  (∀ d, prepared (f d) = prepared d ∧ getting (f d) = getting d
        ∧ disconnecting (f d) = disconnecting d) →
  once (update f).
Proof.
  intros Hf st HJ. simpl. unfold prepared_so_far, quiet in *. simpl.
  destruct (Hf (self st)) as (-> & -> & ->). done.
Qed.

Hint Resolve extends_with_refl extends_with_trans logs_only_world : pres.
Hint Resolve preserves_ret preserves_raise preserves_ask preserves_extern : pres.
Hint Resolve logs_only_update logs_only_read_attr logs_only_store_attr logs_only_snapshot
  logs_only_as_remote logs_only_as_registry logs_only_to_int : pres.

(** The body of [_prepare] never enters [_prepare] again. *)
Lemma _prepare_body_logs :
  preserves (λ _ : state W, True) (extends_with (λ ev, ev ≠ CallPrepareHook))
    (_prepare_body getattr_quiet setattr_quiet).
Proof.
  assert (Hget : ∀ key, preserves (λ _ : state W, True)
                          (extends_with (λ ev, ev ≠ CallPrepareHook)) (getattr_quiet key)).
  { intros key. apply logs_only_object_getattribute; [done|]. apply logs_only_read_attr. }
  assert (Hset : ∀ key v, preserves (λ _ : state W, True)
                            (extends_with (λ ev, ev ≠ CallPrepareHook)) (setattr_quiet key v)).
  { intros key v. apply logs_only_object_setattr. apply logs_only_store_attr. }
  unfold _prepare_body, prepare_host_and_port, balance_hosts, split_host_port, set_port,
    assert_none_or, lookup_by_name, prepare_field.
  pres_go.
Qed.

Lemma _prepare_counts st :
  ∃ evs, trace (_prepare_with getattr_quiet setattr_quiet st).2
         = trace st ++ CallPrepareHook :: evs
         ∧ Forall (λ ev, ev ≠ CallPrepareHook) evs.
Proof.
  rewrite _prepare_with_body.
  destruct (_prepare_body_logs (mkState (self st) (world st) (trace st ++ [CallPrepareHook]))
              Logic.I) as [_ (evs & Ht & Hall)].
  exists evs. split; [|done]. rewrite Ht. simpl. by rewrite <- app_assoc.
Qed.

Lemma count_after_prepare (t evs : list event) :
  Forall (λ ev, ev ≠ CallPrepareHook) evs →
  count_event CallPrepareHook (t ++ CallPrepareHook :: evs)
  = S (count_event CallPrepareHook t).
Proof.
  intros Hall. change (CallPrepareHook :: evs) with ([CallPrepareHook] ++ evs).
  rewrite !count_event_app, (count_event_none _ _ Hall).
  unfold count_event at 2. rewrite filter_cons, decide_True by done. simpl. lia.
Qed.

Lemma once_trigger key : once (trigger key).
Proof.
  intros st HJ. unfold trigger. destruct (should_prepare key (self st)) eqn:Hsp; [|done].
  unfold should_prepare in Hsp.
  apply andb_true_iff in Hsp as [Hsp _]. apply andb_true_iff in Hsp as [Hsp Hd].
  apply andb_true_iff in Hsp as [Hp Hg].
  apply negb_true_iff in Hp, Hg, Hd.
  assert (Hc : count_event CallPrepareHook (trace st) = c0).
  { destruct HJ as [Hc|[_ Hq]]; [done|]. unfold quiet in Hq. by rewrite Hp, Hg, Hd in Hq. }
  unfold bind at 1. simpl. rewrite prepare_quiet_unprepared by done.
  pose proof (keeps_guards__prepare
    (mkState (set_getting true (self st)) (world st) (trace st)) Logic.I) as [_ Hsame].
  destruct (_prepare_counts (mkState (set_getting true (self st)) (world st) (trace st)))
    as (evs & Ht & Hall).
  unfold bind. destruct (_prepare_with _ _ _) as [o st1].
  cbn [snd trace] in Ht.
  assert (Hcount : count_event CallPrepareHook (trace st1) = S c0)
    by (by rewrite Ht, count_after_prepare, Hc).
  destruct Hsame as (_ & Hg1 & _). cbn [snd self getting set_getting] in Hg1.
  destruct o as [[]|e].
  - right. split; [exact Hcount|done].
  - destruct e; cbn [update raise bind is_exception]; unfold one_more_at_most; cbn [trace].
    all: try (rewrite Hcount; lia).
    right. split; [done|]. unfold quiet. rewrite Hg1. by rewrite orb_true_r.
Qed.

Hint Resolve so_far_at_most once_ask once_read_attr once_extern once_as_remote once_prompt
  once_trigger : once.
Hint Resolve guarded_ret guarded_raise : once.
Hint Extern 1 (guarded _ _ (update _)) =>
  apply once_update; intros []; repeat split : once.

Ltac once_go :=
  lazymatch goal with
  | |- guarded _ _ (bind _ _) =>
      apply guarded_bind; [once_go|intros ?; once_go]
  | |- guarded _ _ (if ?b then _ else _) => destruct b; once_go
  | |- guarded _ _ (match ?v with _ => _ end) => destruct v; once_go
  | |- guarded _ _ (let _ := _ in _) => cbv zeta; once_go
  | |- _ => solve [eauto with once]
  end.

Lemma once_getattr_plain key : once (getattr_plain key).
Proof. unfold getattr_plain. once_go. Qed.
Hint Resolve once_getattr_plain : once.

Lemma once_getattr key : once (getattr key).
Proof.
  unfold getattr, object_getattribute, host_getter, port_getter, username_getter,
    password_getter.
  once_go.
Qed.

End PreparedOnce.

Section OneRunPerRead.
Context {W : Type} `{!Protocol W} `{!Collaborators W}.
Implicit Types st : state W.

(** X18.  Reading an attribute, whichever it is and whatever the state
    of the instance, runs [_prepare] at most once; and while the instance
    is prepared or one of its two guards is set, it never does. *)
Theorem read_prepares_at_most_once (key : string) st :
  (count_event CallPrepareHook (trace (getattr key st).2)
   ≤ S (count_event CallPrepareHook (trace st)))%nat
  ∧ (quiet st →
     count_event CallPrepareHook (trace (getattr key st).2)
     = count_event CallPrepareHook (trace st)).
Proof.
  split.
  - pose proof (once_getattr (count_event CallPrepareHook (trace st)) key st
                  (or_introl eq_refl)) as Hrun.
    destruct (getattr key st) as [[v|e] st']; simpl.
    + by apply so_far_at_most in Hrun.
    + exact Hrun.
  - intros Hq. rewrite getattr_quiet_state by done.
    apply (extends_with_count (λ ev, ev ≠ CallPrepareHook)); [by intros Hne|].
    apply (logs_only_object_getattribute (λ ev, ev ≠ CallPrepareHook)); [done| |done].
    apply logs_only_read_attr.
Qed.

End OneRunPerRead.

(** ** Joined documentation *)

Section DocJoinFacts.
Variable dedent : string → string.
Variable strip : string → string.

Lemma doc_entry_seq (header x : doc) (rest : list doc) :
  doc_entry dedent strip (DSeq (header :: x :: rest))
  = match doc_entries dedent strip (x :: rest) with
    | Raise e => Raise e
    | Return out =>
        let body := join_with (newline +:+ newline) out in
        if String.eqb body EmptyString then Return None
        else
          match header with
          | DStr h =>
              Return (Some (strip h +:+ newline +:+ "    " +:+ indent_continuation body))
          | _ => Raise (AttributeError "strip")
          end
    end.
Proof.
  assert (Hsame : ∀ l,
            (fix entries (l : list doc) : outcome (list string) :=
               match l with
               | [] => Return []
               | x :: r =>
                   match doc_entry dedent strip x with
                   | Raise e => Raise e
                   | Return o =>
                       match entries r with
                       | Raise e => Raise e
                       | Return out => Return (option_list o ++ out)
                       end
                   end
               end) l = doc_entries dedent strip l).
  { induction l as [|y l IH]; [done|]. simpl. by rewrite IH. }
  cbn [doc_entry]. by rewrite Hsame.
Qed.

Lemma doc_entry_passed_over (d : doc) :
  passed_over d = true → doc_entry dedent strip d = Return None.
Proof.
  destruct d as [|s|[|x [|y l]]|t]; simpl; try done.
  by intros ->.
Qed.

Lemma doc_entries_passing (docs : list doc) :
  doc_entries dedent strip (List.filter (λ d, negb (passed_over d)) docs)
  = doc_entries dedent strip docs.
Proof.
  induction docs as [|d docs IH]; [done|].
  cbn [List.filter]. destruct (passed_over d) eqn:Hd; cbn [negb].
  - cbn [doc_entries]. rewrite (doc_entry_passed_over d Hd), IH.
    by destruct (doc_entries dedent strip docs).
  - cbn [doc_entries]. by rewrite IH.
Qed.

(** X24.  [__doc_join] passes over [None], the empty string and every
    list or tuple of fewer than two items: with or without them among
    its arguments the result, or the error, is the same; with nothing
    else among them the result is the empty string. *)
Theorem doc_join_passes_over_blanks (docs : list doc) :
  doc_join dedent strip (List.filter (λ d, negb (passed_over d)) docs)
  = doc_join dedent strip docs
  ∧ (forallb passed_over docs = true → doc_join dedent strip docs = Return EmptyString).
Proof.
  split.
  - unfold doc_join. by rewrite doc_entries_passing.
  - intros Hall. unfold doc_join.
    assert (Hnone : doc_entries dedent strip docs = Return []).
    { induction docs as [|d docs IH]; [done|].
      cbn [forallb] in Hall. apply andb_true_iff in Hall as [Hd Hall].
      cbn [doc_entries]. by rewrite (doc_entry_passed_over d Hd), (IH Hall). }
    by rewrite Hnone.
Qed.

Lemma lines_nonempty (s : string) : lines s ≠ [].
Proof.
  induction s as [|c s IH]; simpl; [done|].
  destruct (is_newline c); [done|]. by destruct (lines s).
Qed.

Lemma lines_indent_continuation (d : string) :
  lines (indent_continuation d)
  = match lines d with
    | h :: t => h :: map (λ l, "    " +:+ l) t
    | [] => []
    end.
Proof.
  induction d as [|c d IH]; [done|].
  cbn [indent_continuation lines]. destruct (is_newline c) eqn:Hc.
  - cbn [lines]. rewrite Hc. f_equal.
    change ("    " +:+ indent_continuation d)
      with (String " " (String " " (String " " (String " " (indent_continuation d))))).
    cbn [lines]. simpl is_newline. cbn iota. rewrite IH.
    pose proof (lines_nonempty d). by destruct (lines d).
  - cbn [lines]. rewrite Hc, IH.
    pose proof (lines_nonempty d). by destruct (lines d).
Qed.

Lemma lines_indented (d : string) :
  lines ("    " +:+ indent_continuation d) = map (λ l, "    " +:+ l) (lines d).
Proof.
  change ("    " +:+ indent_continuation d)
    with (String " " (String " " (String " " (String " " (indent_continuation d))))).
  cbn [lines]. simpl is_newline. cbn iota. rewrite lines_indent_continuation.
  pose proof (lines_nonempty d). by destruct (lines d).
Qed.

(** X25.  A list [[header, doc, ...]] whose items after the header join
    to a non-empty text [body] contributes the stripped header on a line
    of its own, followed by [body] with four blanks in front of each of
    its lines; when they join to the empty text it contributes nothing,
    and the header is not even looked at. *)
Theorem doc_join_indents_body (header x : doc) (rest : list doc) (out : list string) :
  doc_entries dedent strip (x :: rest) = Return out →
  let body := join_with (newline +:+ newline) out in
  (body = EmptyString → doc_entry dedent strip (DSeq (header :: x :: rest)) = Return None)
  ∧ (body ≠ EmptyString → ∀ h, header = DStr h →
       ∃ block, doc_entry dedent strip (DSeq (header :: x :: rest))
                = Return (Some (strip h +:+ newline +:+ block))
                ∧ lines block = map (λ l, "    " +:+ l) (lines body)).
Proof.
  intros Hout body. rewrite doc_entry_seq, Hout. cbn zeta. fold body. split.
  - intros ->. reflexivity.
  - intros Hne h ->. apply String.eqb_neq in Hne. rewrite Hne.
    exists ("    " +:+ indent_continuation body). split; [done|].
    apply lines_indented.
Qed.

Lemma doc_entries_app (pre post : list doc) (out : list string) :
  doc_entries dedent strip pre = Return out →
  doc_entries dedent strip (pre ++ post)
  = match doc_entries dedent strip post with
    | Raise e => Raise e
    | Return out' => Return (out ++ out')
    end.
Proof.
  revert out. induction pre as [|d pre IH]; intros out; cbn [doc_entries app].
  - intros [= <-]. by destruct (doc_entries dedent strip post).
  - destruct (doc_entry dedent strip d) as [o|e]; [|done].
    destruct (doc_entries dedent strip pre) as [out0|e] eqn:Hpre; [|done].
    intros [= <-]. rewrite (IH out0 eq_refl).
    destruct (doc_entries dedent strip post); [|done]. by rewrite app_assoc.
Qed.

(** X26.  An argument that is neither [None], a string, a list nor a
    tuple makes [__doc_join] raise [ValueError] naming its type, once the
    arguments before it have gone through; and joining two runs of
    arguments that both go through gives the entries of the first
    followed by those of the second, a blank line between entries. *)
Theorem doc_join_composes (pre post : list doc) (out : list string) :
  doc_entries dedent strip pre = Return out →
  (∀ t, doc_join dedent strip (pre ++ DOther t :: post)
        = Raise (ValueError ("Unrecognised doc format: " +:+ t)))
  ∧ (∀ out', doc_entries dedent strip post = Return out' →
       doc_join dedent strip (pre ++ post)
       = Return (join_with (newline +:+ newline) (out ++ out'))).
Proof.
  intros Hpre. split.
  - intros t. unfold doc_join. by rewrite (doc_entries_app pre _ out Hpre).
  - intros out' Hpost. unfold doc_join. by rewrite (doc_entries_app pre _ out Hpre), Hpost.
Qed.

End DocJoinFacts.

(** ** The further properties at work on simulated clients *)

(** X5, witness: [host='db.example:5432', port=1111]. *)
Lemma read_splits_host_and_port_witness :
  let st := Sim.start Cases.port_in_host Sim.idle in
  let st' := mkState (prepared_as (λ m, <["_port" := VInt 5432]> (<["_host" := VStr "db.example"]> m))
                                  (self st))
                     (world st) (trace st ++ [CallPrepareHook]) in
  getattr "host" st = (Return (VStr "db.example"), st')
  ∧ getattr "port" st' = (Return (VInt 5432), st').
Proof.
  intros st.
  assert (H1 : at_rest (self st)) by (repeat split).
  assert (H2 : "host" ∈ connection_fields (self st))
    by (apply (bool_decide_unpack _); vm_compute; exact I).
  assert (H3 : configured (self st) VNone (VStr ("db.example" +:+ ":" +:+ "5432"))
                 (VInt 1111) VNone VNone) by (repeat split; vm_compute; reflexivity).
  assert (H4 : ("db.example" : string) ≠ EmptyString) by discriminate.
  assert (H5 : int_of_str "5432" = Some 5432%Z) by (vm_compute; reflexivity).
  exact (read_splits_host_and_port st "db.example" "5432" 5432 (VInt 1111) VNone VNone
           H1 H2 H3 eq_refl eq_refl eq_refl H4 eq_refl eq_refl eq_refl H5).
Defined.

(** X6, witness: [host='db.example:5432:pg']. *)
Lemma read_rejects_second_colon_witness :
  let st := Sim.start Cases.two_colons Sim.idle in
  getattr "host" st
  = (Raise (ValueError "too many values to unpack"),
     mkState (self st) (world st) (trace st ++ [CallPrepareHook])).
Proof.
  intros st.
  assert (H1 : at_rest (self st)) by (repeat split).
  assert (H2 : "host" ∈ connection_fields (self st))
    by (apply (bool_decide_unpack _); vm_compute; exact I).
  assert (H3 : configured (self st) VNone
                 (VStr ("db.example" +:+ ":" +:+ "5432" +:+ ":" +:+ "pg")) VNone VNone VNone)
    by (repeat split; vm_compute; reflexivity).
  assert (H4 : ("db.example" : string) ≠ EmptyString) by discriminate.
  exact (read_rejects_second_colon st "db.example" "5432" "pg" VNone VNone VNone
           H1 H2 H3 eq_refl eq_refl eq_refl H4 eq_refl eq_refl).
Defined.

(** X7, witness: [host='db.example', port='5432']; the port becomes the
    integer 5432. *)
Lemma read_normalises_port_witness :
  let st := Sim.start Cases.text_port Sim.idle in
  getattr "port" st
  = (Return (VInt 5432),
     mkState (prepared_as (insert "_port" (VInt 5432)) (self st))
             (world st) (trace st ++ [CallPrepareHook])).
Proof.
  intros st.
  assert (H1 : at_rest (self st)) by (repeat split).
  assert (H2 : "port" ∈ connection_fields (self st))
    by (apply (bool_decide_unpack _); vm_compute; exact I).
  assert (H3 : configured (self st) VNone (VStr "db.example") (VStr "5432") VNone VNone)
    by (repeat split; vm_compute; reflexivity).
  assert (H4 : VStr "db.example" = VNone
               ∨ ∃ s, VStr "db.example" = VStr s ∧ host_port_match s = false)
    by (right; exists "db.example"; split; reflexivity).
  assert (H5 : ("5432" : string) ≠ EmptyString) by discriminate.
  assert (H6 : int_of_str "5432" = Some 5432%Z) by (vm_compute; reflexivity).
  exact (proj1 (proj2 (proj2 (read_normalises_port st (VStr "db.example") (VStr "5432")
                                VNone VNone H1 H2 H3 eq_refl eq_refl eq_refl H4)))
           "5432" 5432%Z eq_refl H5 H6).
Defined.

(** X8, witness: a remote given by name and no registry. *)
Lemma read_checks_collaborator_types_witness :
  let st := Sim.start Cases.named_remote Sim.idle in
  getattr "host" st
  = (Raise (AssertionError
              "Provided remote is not an instance of `omniduct.remotes.base.RemoteClient`."),
     mkState (self st) (world st) (trace st ++ [CallPrepareHook])).
Proof.
  intros st.
  assert (H1 : at_rest (self st)) by (repeat split).
  assert (H2 : "host" ∈ prepare_triggers (self st))
    by (apply (bool_decide_unpack _); vm_compute; exact I).
  assert (H3 : attrs (self st) !! "registry" = Some VNone) by (vm_compute; reflexivity).
  assert (H4 : attrs (self st) !! "remote" = Some (VStr "gateway")) by (vm_compute; reflexivity).
  exact (proj1 (proj2 (read_checks_collaborator_types st "host" H1 H2))
           (VStr "gateway") H3 H4 eq_refl eq_refl).
Defined.

(** X10, witness: a client is prepared by a read and reset twice. *)
Lemma reset_again_changes_nothing_witness :
  let st := (getattr "host" (Sim.start Scenario.lazy_db_config Scenario.listening)).2 in
  let st1 := (reset st).2 in
  reset st1
  = (Return RSelf, mkState (self st1) (world st1) (trace st1 ++ [CallReset; CallDisconnect])).
Proof.
  intros st st1.
  assert (H1 : reset st = (Return RSelf, st1)) by (vm_compute; reflexivity).
  exact (reset_again_changes_nothing st RSelf st1 H1).
Defined.

(** X11, witness: [name] is not a connection field, so renaming a
    connected client stores the name and nothing else. *)
Lemma setattr_stores_directly_witness :
  let st := (connect (Sim.start Scenario.local_db_config Scenario.listening)).2 in
  setattr "name" (VStr "replica") st = (Return tt, stored "name" (VStr "replica") st).
Proof.
  intros st.
  assert (H1 : "name" ∉ connection_fields (self st))
    by (apply (bool_decide_unpack _); vm_compute; exact I).
  assert (H2 : in_dictionary "name" = true) by (vm_compute; reflexivity).
  exact (setattr_stores_directly st "name" (VStr "replica") H2 (or_intror (conj H1 H1))).
Defined.

(** X13, witness: the service on db.example:5432 is listening and the
    protocol is not connected yet. *)
Lemma connect_to_bound_endpoint_witness :
  let st := Scenario.prepared_in Scenario.local_db_config Scenario.listening in
  connect st
  = (Return RSelf,
     mkState (self st) (Sim.with_connected true Scenario.listening)
             [LogInfo "Connecting to db.example:5432."; CallIsConnectedHook; CallConnectHook;
              LogInfo "Connected to db.example:5432."]).
Proof.
  intros st.
  assert (H1 : local_config (self st) VNone (VStr "db.example") (VInt 5432))
    by (repeat split; vm_compute; reflexivity).
  assert (H2 : VStr "db.example" ≠ VNone) by discriminate.
  assert (H3 : VInt 5432 ≠ VNone) by discriminate.
  assert (H4 : is_port_bound (VStr "db.example") (VInt 5432) (world st)
               = (Return true, Scenario.listening)) by (vm_compute; reflexivity).
  assert (H5 : _is_connected (self st) Scenario.listening = (Return false, Scenario.listening))
    by (vm_compute; reflexivity).
  assert (H6 : _connect (self st) Scenario.listening
               = (Return tt, Sim.with_connected true Scenario.listening))
    by (vm_compute; reflexivity).
  exact (proj2 (connect_to_bound_endpoint st VNone (VStr "db.example") (VInt 5432)
                  Scenario.listening Scenario.listening false H1 H2 H3 H4 H5)
           eq_refl (Sim.with_connected true Scenario.listening) H6).
Defined.

(** X14, witness: the tunnelled client in a world where the tunnel
    forwards nothing. *)
Lemma is_connected_without_forward_witness :
  let st := mkState (self Scenario.tunnelled) Sim.idle [] in
  is_connected st = (Return false, mkState (self st) Sim.idle []).
Proof.
  intros st.
  assert (H1 : prepared (self st) = true) by (vm_compute; reflexivity).
  assert (H2 : attrs (self st) !! "remote" = Some (VRemote 0)) by (vm_compute; reflexivity).
  assert (H3 : attrs (self st) !! "_host" = Some (VStr "db.internal")) by (vm_compute; reflexivity).
  assert (H4 : attrs (self st) !! "_port" = Some (VInt 5432)) by (vm_compute; reflexivity).
  assert (H5 : remote_has_port_forward 0 (VStr "db.internal") (VInt 5432) (world st)
               = (Return false, Sim.idle)) by (vm_compute; reflexivity).
  exact (is_connected_without_forward st 0 (VStr "db.internal") (VInt 5432) Sim.idle
           H1 H2 H3 H4 H5).
Defined.

(** X15, witness: the tunnelled client reads 127.0.0.1 for db.internal. *)
Lemma tunnel_endpoint_is_local_witness :
  getattr "host" Scenario.tunnelled = (Return (VStr "127.0.0.1"), Scenario.tunnelled).
Proof.
  assert (H1 : prepared (self Scenario.tunnelled) = true) by (vm_compute; reflexivity).
  assert (H2 : attrs (self Scenario.tunnelled) !! "remote" = Some (VRemote 0))
    by (vm_compute; reflexivity).
  assert (H3 : attrs (self Scenario.tunnelled) !! "_host" = Some (VStr "db.internal"))
    by (vm_compute; reflexivity).
  assert (H4 : attrs (self Scenario.tunnelled) !! "_port" = Some (VInt 5432))
    by (vm_compute; reflexivity).
  exact (proj1 (tunnel_endpoint_is_local Scenario.tunnelled 0 (VStr "db.internal") (VInt 5432)
                  H1 H2 H3 H4)).
Defined.

(** X16, witness: a client built without username reads the login name. *)
Lemma credentials_without_prompt_witness :
  let st := Scenario.prepared_in Scenario.local_db_config Scenario.listening in
  getattr "username" st = (Return (VStr "operator"), mkState (self st) Scenario.listening []).
Proof.
  intros st.
  assert (H1 : quiet st) by (vm_compute; reflexivity).
  assert (H2 : attrs (self st) !! "_username" = Some VNone) by (vm_compute; reflexivity).
  assert (H3 : VNone ≠ VBool false) by discriminate.
  assert (H4 : getlogin (world st) = (Return "operator", Scenario.listening))
    by (vm_compute; reflexivity).
  exact (proj1 (proj2 (credentials_without_prompt st H1))
           VNone "operator" Scenario.listening H2 H3 eq_refl H4).
Defined.

(** X17, witness: after the read that prepares [host='db.example:5432'],
    [_host] is a string and [_port] an integer. *)
Lemma prepared_host_and_port_types_witness :
  let st' := (trigger "host" (Sim.start Cases.port_in_host Sim.idle)).2 in
  (∃ h, attrs (self st') !! "_host" = Some h ∧ (h = VNone ∨ is_str h = true))
  ∧ ∃ p, attrs (self st') !! "_port" = Some p ∧ (p = VNone ∨ ∃ z, p = VInt z).
Proof.
  intros st'.
  assert (H1 : prepared (self (Sim.start Cases.port_in_host Sim.idle)) = false) by reflexivity.
  assert (H2 : trigger "host" (Sim.start Cases.port_in_host Sim.idle) = (Return tt, st'))
    by (vm_compute; reflexivity).
  assert (H3 : prepared (self st') = true) by (vm_compute; reflexivity).
  exact (prepared_host_and_port_types "host" (Sim.start Cases.port_in_host Sim.idle) st'
           H1 H2 H3).
Defined.

(** X19, witness: the host is a callable that returns [None]. *)
Lemma read_calls_lazy_host_witness :
  let st := Sim.start Cases.lazy_host Sim.idle in
  getattr "host" st
  = (Return VNone,
     mkState (prepared_saving "_host" (VCallable 3)
                (λ m, <["_port" := VInt 5432]> (<["_host" := VNone]> m)) (self st))
             Sim.idle (trace st ++ [CallPrepareHook])).
Proof.
  intros st.
  assert (H1 : at_rest (self st)) by (repeat split).
  assert (H2 : "host" ∈ connection_fields (self st))
    by (apply (bool_decide_unpack _); vm_compute; exact I).
  assert (H3 : configured (self st) VNone (VCallable 3) (VInt 5432) VNone VNone)
    by (repeat split; vm_compute; reflexivity).
  assert (H4 : (5432 ≠ 0)%Z) by discriminate.
  assert (H5 : call_value 3
                 (set_prepreparation_values
                    (dict_set "_host" (VCallable 3) (prepreparation_values (self st)))
                    (set_getting true (self st)))
                 (world st) = (Return VNone, Sim.idle)) by (vm_compute; reflexivity).
  exact (read_calls_lazy_host st 3 VNone 5432 VNone VNone Sim.idle
           H1 H2 H3 eq_refl eq_refl H4 H5 (or_introl eq_refl)).
Defined.

(** X20, witness: a list of two hosts; the simulated balancer picks the
    first. *)
Lemma read_balances_host_list_witness :
  let st := Sim.start Scenario.pooled_db_config Sim.idle in
  getattr "host" st
  = (Return (VStr "a.example"),
     mkState (prepared_saving "_host" (VList ["a.example"; "b.example"])
                (λ m, <["_port" := VInt 5432]> (<["_host" := VStr "a.example"]> m)) (self st))
             Sim.idle (trace st ++ [CallPrepareHook])).
Proof.
  intros st.
  assert (H1 : at_rest (self st)) by (repeat split).
  assert (H2 : "host" ∈ connection_fields (self st))
    by (apply (bool_decide_unpack _); vm_compute; exact I).
  assert (H3 : configured (self st) VNone (VList ["a.example"; "b.example"]) (VInt 5432)
                 VNone VNone) by (repeat split; vm_compute; reflexivity).
  assert (H4 : (5432 ≠ 0)%Z) by discriminate.
  assert (H5 : naive_load_balancer ["a.example"; "b.example"] (VInt 5432) (world st)
               = (Return (VStr "a.example"), Sim.idle)) by (vm_compute; reflexivity).
  exact (read_balances_host_list st ["a.example"; "b.example"] "a.example" 5432 VNone VNone
           Sim.idle H1 H2 H3 eq_refl eq_refl H4 eq_refl H5 eq_refl).
Defined.

(** X21, witness: the registry of the simulation resolves every name to
    tunnel 0. *)
Lemma read_resolves_remote_name_witness :
  let st := Sim.start Cases.registered_remote Sim.idle in
  getattr "host" st
  = (Return (VStr "127.0.0.1"),
     mkState (prepared_saving "remote" (VStr "gateway")
                (λ m, <["_port" := VInt 5432]> (<["remote" := VRemote 0]> m)) (self st))
             Sim.idle (trace st ++ [CallPrepareHook])).
Proof.
  intros st.
  assert (H1 : at_rest (self st)) by (repeat split).
  assert (H2 : "host" ∈ connection_fields (self st))
    by (apply (bool_decide_unpack _); vm_compute; exact I).
  assert (H3 : attrs (self st) !! "registry" = Some (VRegistry 0)) by (vm_compute; reflexivity).
  assert (H4 : attrs (self st) !! "remote" = Some (VStr "gateway")) by (vm_compute; reflexivity).
  assert (H5 : ("gateway" : string) ≠ EmptyString) by discriminate.
  assert (H6 : attrs (self st) !! "cache" = Some VNone) by (vm_compute; reflexivity).
  assert (H7 : attrs (self st) !! "_host" = Some (VStr "db.internal")) by (vm_compute; reflexivity).
  assert (H8 : attrs (self st) !! "_port" = Some (VInt 5432)) by (vm_compute; reflexivity).
  assert (H9 : (5432 ≠ 0)%Z) by discriminate.
  assert (H10 : attrs (self st) !! "_username" = Some VNone) by (vm_compute; reflexivity).
  assert (H11 : attrs (self st) !! "_password" = Some VNone) by (vm_compute; reflexivity).
  assert (H12 : registry_lookup 0 (VStr "gateway") REMOTE (world st)
                = (Return (VRemote 0), Sim.idle)) by (vm_compute; reflexivity).
  exact (read_resolves_remote_name st 0 0 "gateway" "db.internal" 5432 VNone VNone Sim.idle
           H1 H2 eq_refl H3 H4 H5 H6 H7 eq_refl H8 H9 H10 eq_refl H11 eq_refl H12).
Defined.

(** X22, witness: the tunnelled client when neither end can be reached. *)
Lemma tunnel_reachability_check_witness :
  let st := mkState (self Scenario.tunnelled) Cases.cut_off [] in
  assert_server_reachable st
  = (Raise (DuctServerUnreachable
              "Remote 'tunnel0' cannot connect to 'db.internal:5432'. Please check your settings before trying again."),
     (disconnect st).2).
Proof.
  intros st.
  assert (H1 : prepared (self st) = true) by (vm_compute; reflexivity).
  assert (H2 : attrs (self st) !! "remote" = Some (VRemote 0)) by (vm_compute; reflexivity).
  assert (H3 : attrs (self st) !! "_host" = Some (VStr "db.internal")) by (vm_compute; reflexivity).
  assert (H4 : attrs (self st) !! "_port" = Some (VInt 5432)) by (vm_compute; reflexivity).
  assert (H5 : remote_port_forward 0 (fmt (VStr "db.internal") +:+ ":" +:+ fmt (VInt 5432))
                 Cases.cut_off = (Return (VInt 20000), Cases.cut_off))
    by (vm_compute; reflexivity).
  assert (H6 : VInt 20000 ≠ VNone) by discriminate.
  assert (H7 : is_port_bound (VStr "127.0.0.1") (VInt 20000) Cases.cut_off
               = (Return false, Cases.cut_off)) by (vm_compute; reflexivity).
  assert (H8 : remote_is_port_bound 0 (VStr "db.internal") (VInt 5432) Cases.cut_off
               = (Return false, Cases.cut_off)) by (vm_compute; reflexivity).
  assert (H9 : disconnect (mkState (self st) Cases.cut_off (trace st))
               = (Return RSelf, (disconnect st).2)) by (vm_compute; reflexivity).
  exact (proj2 (tunnel_reachability_check st 0 (VStr "db.internal") (VInt 5432)
                  (VInt 20000) (VInt 20000) Cases.cut_off Cases.cut_off Cases.cut_off
                  Cases.cut_off false H1 H2 H3 H4 H5 H6 H5 H7 H8)
           eq_refl RSelf (disconnect st).2 H9).
Defined.

(** X23, witness: a client prepared by a read, then reset. *)
Lemma reset_lets_reads_prepare_again_witness :
  let st := (getattr "host" (Sim.start Scenario.lazy_db_config Scenario.listening)).2 in
  should_prepare "host" (self (reset st).2) = true.
Proof.
  intros st.
  assert (H1 : getting (self st) = false) by (vm_compute; reflexivity).
  assert (H2 : disconnecting (self st) = false) by (vm_compute; reflexivity).
  assert (H3 : "host" ∈ prepare_triggers (self st))
    by (apply (bool_decide_unpack _); vm_compute; exact I).
  assert (H4 : reset st = (Return RSelf, (reset st).2)) by (vm_compute; reflexivity).
  exact (reset_lets_reads_prepare_again st RSelf (reset st).2 "host" H1 H2 H3 H4).
Defined.

(** X25, witness: a header and a text of two lines, with a [dedent] and
    a [strip] that leave their argument alone. *)
Lemma doc_join_indents_body_witness :
  ∃ block,
    doc_entry (λ s, s) (λ s, s)
      (DSeq [DStr "PostgresClient Quirks:"; DStr ("line one" +:+ newline +:+ "line two")])
    = Return (Some ("PostgresClient Quirks:" +:+ newline +:+ block))
    ∧ lines block = ["    line one"; "    line two"].
Proof.
  assert (H1 : doc_entries (λ s, s) (λ s, s) [DStr ("line one" +:+ newline +:+ "line two")]
               = Return ["line one" +:+ newline +:+ "line two"])
    by (vm_compute; reflexivity).
  assert (H2 : join_with (newline +:+ newline) ["line one" +:+ newline +:+ "line two"]
               ≠ EmptyString) by discriminate.
  exact (proj2 (doc_join_indents_body (λ s, s) (λ s, s) (DStr "PostgresClient Quirks:")
                  (DStr ("line one" +:+ newline +:+ "line two")) []
                  ["line one" +:+ newline +:+ "line two"] H1)
           H2 "PostgresClient Quirks:" eq_refl).
Defined.

(** X26, witness: an integer among the arguments. *)
Lemma doc_join_composes_witness :
  doc_join (λ s, s) (λ s, s) ([DStr "Connects lazily."] ++ DOther "<class 'int'>" :: [DNone])
  = Raise (ValueError "Unrecognised doc format: <class 'int'>").
Proof.
  assert (H1 : doc_entries (λ s, s) (λ s, s) [DStr "Connects lazily."]
               = Return ["Connects lazily."]) by (vm_compute; reflexivity).
  exact (proj1 (doc_join_composes (λ s, s) (λ s, s) [DStr "Connects lazily."] [DNone]
                  ["Connects lazily."] H1) "<class 'int'>").
Defined.

(** X27, witness: the callable host is back after read and reset. *)
Lemma reset_restores_lazy_host_witness :
  let st := Sim.start Cases.lazy_host Sim.idle in
  let st2 := (reset (getattr "host" st).2).2 in
  attrs (self st2) !! "_host" = Some (VCallable 3)
  ∧ should_prepare "host" (self st2) = true.
Proof.
  intros st st2.
  assert (H1 : at_rest (self st)) by (repeat split).
  assert (H2 : "host" ∈ connection_fields (self st))
    by (apply (bool_decide_unpack _); vm_compute; exact I).
  assert (H3 : configured (self st) VNone (VCallable 3) (VInt 5432) VNone VNone)
    by (repeat split; vm_compute; reflexivity).
  assert (H4 : (5432 ≠ 0)%Z) by discriminate.
  assert (H5 : call_value 3
                 (set_prepreparation_values [("_host", VCallable 3)]
                    (set_getting true (self st)))
                 (world st) = (Return VNone, Sim.idle)) by (vm_compute; reflexivity).
  assert (H6 : reset (getattr "host" st).2 = (Return RSelf, st2)) by (vm_compute; reflexivity).
  exact (reset_restores_lazy_host st 3 VNone 5432 VNone VNone Sim.idle RSelf st2
           H1 H2 H3 eq_refl eq_refl H4 eq_refl H5 (or_introl eq_refl) H6).
Defined.

(** X28, witness: [host='db.example:5432', port=1111] read and reset. *)
Lemma reset_keeps_split_host_witness :
  let st := Sim.start Cases.port_in_host Sim.idle in
  let st2 := (reset (getattr "host" st).2).2 in
  attrs (self st2) !! "_host" = Some (VStr "db.example")
  ∧ attrs (self st2) !! "_port" = Some (VInt 5432).
Proof.
  intros st st2.
  assert (H1 : at_rest (self st)) by (repeat split).
  assert (H2 : "host" ∈ connection_fields (self st))
    by (apply (bool_decide_unpack _); vm_compute; exact I).
  assert (H3 : configured (self st) VNone (VStr ("db.example" +:+ ":" +:+ "5432"))
                 (VInt 1111) VNone VNone) by (repeat split; vm_compute; reflexivity).
  assert (H4 : ("db.example" : string) ≠ EmptyString) by discriminate.
  assert (H5 : int_of_str "5432" = Some 5432%Z) by (vm_compute; reflexivity).
  assert (H6 : reset (getattr "host" st).2 = (Return RSelf, st2)) by (vm_compute; reflexivity).
  exact (reset_keeps_split_host st "db.example" "5432" 5432 (VInt 1111) VNone VNone RSelf st2
           H1 H2 H3 eq_refl eq_refl eq_refl H4 eq_refl eq_refl eq_refl H5 eq_refl H6).
Defined.

(** X29, witness: [prepare()] on a fresh client of db.example:5432. *)
Lemma prepare_called_directly_witness :
  let st := Sim.start Scenario.local_db_config Scenario.listening in
  prepare st
  = (Return tt,
     mkState (prepared_as (insert "_port" (VInt 5432)) (self st)) Scenario.listening
             [CallPrepareHook; CallPrepareHook; CallIsConnectedHook]).
Proof.
  intros st.
  assert (H1 : at_rest (self st)) by (repeat split).
  assert (H2 : configured (self st) VNone (VStr "db.example") (VInt 5432) VNone VNone)
    by (repeat split; vm_compute; reflexivity).
  assert (H3 : (5432 ≠ 0)%Z) by discriminate.
  assert (H4 : _is_connected (prepared_as (insert "_port" (VInt 5432)) (self st)) (world st)
               = (Return false, Scenario.listening)) by (vm_compute; reflexivity).
  exact (prepare_called_directly st "db.example" 5432 VNone VNone Scenario.listening
           H1 eq_refl H2 eq_refl H3 eq_refl eq_refl H4).
Defined.
